(** * llama.cpp-SimpleGUI: the two Tk front-ends, embedded and verified

    [src/llama_gui.py] (class [LlamaCppGUI], module [Cli] below) and
    [src/llama_server_gui.py] (class [LlamaCppServerGUI], module [Server]).

    The widgets and Tk variables of an application object become the fields
    of a record; a method becomes a function in a small state / exception /
    trace monad: it takes the object, and returns its result (or the
    exception it lets escape), the object as the method leaves it, and the
    calls it made on the outside world (dialogs, [root.after], threads,
    signals to the child, HTTP requests) in the order it made them. *)

From Stdlib Require Import String Ascii List ZArith Lia Bool Floats DecimalString.
Import ListNotations.

Local Open Scope string_scope.
Local Open Scope Z_scope.

(* ================================================================== *)
(** ** The Python the two programs use *)

Module Py.

(** [str.isspace] on one character.  A string is read as a sequence of code
    points below 256; these are the ones Python calls white space. *)
Definition isspace (c : ascii) : bool :=
  let n := N_of_ascii c in
  ((9 <=? n) && (n <=? 13) || (28 <=? n) && (n <=? 32)
   || (n =? 133) || (n =? 160))%N.

Fixpoint lstrip (s : string) : string :=
  match s with
  | EmptyString => EmptyString
  | String c r => if isspace c then lstrip r else s
  end.

Fixpoint rstrip (s : string) : string :=
  match s with
  | EmptyString => EmptyString
  | String c r =>
      match rstrip r with
      | EmptyString => if isspace c then EmptyString else String c EmptyString
      | r' => String c r'
      end
  end.

(** [s.strip()] *)
Definition strip (s : string) : string := rstrip (lstrip s).

(** Truth value of a string: [if s:] / [not s]. *)
Definition truthy (s : string) : bool :=
  match s with EmptyString => false | _ => true end.

(** [s.split(sep)] for a one-character separator. *)
Fixpoint split (sep : ascii) (s : string) : list string :=
  match s with
  | EmptyString => [EmptyString]
  | String c r =>
      if Ascii.eqb c sep then EmptyString :: split sep r
      else match split sep r with
           | [] => [String c EmptyString]
           | w :: ws => String c w :: ws
           end
  end.

(** [s.count(c)] for a one-character [c]. *)
Fixpoint count (c : ascii) (s : string) : Z :=
  match s with
  | EmptyString => 0
  | String d r => (if Ascii.eqb d c then 1 else 0) + count c r
  end.

(** [s.replace(old, new)], [old] not empty: occurrences are replaced from
    the left and do not overlap.  [skip] counts the characters of a matched
    occurrence still to be dropped. *)
Fixpoint replace_from (old new : string) (skip : nat) (s : string) : string :=
  match s with
  | EmptyString => EmptyString
  | String c r =>
      match skip with
      | S k => replace_from old new k r
      | O =>
          if String.prefix old s
          then new ++ replace_from old new (Nat.pred (String.length old)) r
          else String c (replace_from old new O r)
      end
  end.

Definition replace (old new s : string) : string := replace_from old new O s.

(** The line feed, [\n]. *)
Definition nl : string := String (ascii_of_nat 10) EmptyString.

(** [str(n)] for an [int]. *)
Definition str_int (n : Z) : string := NilZero.string_of_int (Z.to_int n).

(** [sep.join(words)] *)
Definition join (sep : string) (words : list string) : string :=
  String.concat sep words.

(** The exception classes that occur. *)
Inductive exn_class : Type :=
| Exception
| OSError | URLError | HTTPError | TimeoutError | FileNotFoundError
| PermissionError
| ValueError | UnicodeDecodeError | JSONDecodeError
| AttributeError | TypeError | LookupError | KeyError | IndexError
| ArithmeticError | OverflowError
| TclError | TimeoutExpired.

Scheme Equality for exn_class.

(** The proper base classes of a class, nearest first. *)
Definition ancestors (c : exn_class) : list exn_class :=
  match c with
  | Exception => []
  | OSError | ValueError | AttributeError | TypeError | LookupError
  | ArithmeticError | TclError | TimeoutExpired => [Exception]
  | OverflowError => [ArithmeticError; Exception]
  | URLError | TimeoutError | FileNotFoundError | PermissionError =>
      [OSError; Exception]
  | HTTPError => [URLError; OSError; Exception]
  | UnicodeDecodeError | JSONDecodeError => [ValueError; Exception]
  | KeyError | IndexError => [LookupError; Exception]
  end.

(** A raised exception: its class and [str(error)]. *)
Record exn : Type := mkExn { cls : exn_class; msg : string }.

(** [isinstance(e, c)] *)
Definition isinstance (e : exn) (c : exn_class) : bool :=
  exn_class_beq (cls e) c || existsb (exn_class_beq c) (ancestors (cls e)).

(** [except (c1, c2, ...)] *)
Definition caught_by (classes : list exn_class) (e : exn) : bool :=
  existsb (isinstance e) classes.

End Py.

(* ================================================================== *)
(** ** Effects: state, exceptions and the trace of outside calls *)

Inductive button_state : Type := NORMAL | DISABLED.

(** What is handed to [root.after] to be run by the event loop. *)
Inductive callback : Type :=
| cb_restart_server_after_stop (delay_ms : Z)
| cb_poll_server_status
| cb_status_var_set (text : string)
| cb_server_status_set (text : string)
| cb_append_output (text : string)
| cb_set_button_states (start_state stop_state apply_state : button_state)
| cb_run_button_config (state : button_state)
| cb_stop_button_config (state : button_state)
| cb_showerror (title message : string).

(** A call the program makes on the toolkit, the child or the network. *)
Inductive event : Type :=
| showerror (title message : string)
| showwarning (title message : string)
| askyesno (title message : string)
| askopenfilename (title : string) (filetypes : list (string * string))
| thread_start (target : string)
| root_after (ms : Z) (cb : callback)
| popen (cmd : list string)
| terminate
| wait (timeout : option Z)
| kill
| urlopen (url : string) (timeout : Z).

Inductive result (A : Type) : Type :=
| Ret (a : A)
| Raise (e : Py.exn).
Arguments Ret {A} a.
Arguments Raise {A} e.

Definition M (St A : Type) : Type := St -> result A * St * list event.

Definition ret {St A} (a : A) : M St A := fun s => (Ret a, s, []).

Definition bind {St A B} (m : M St A) (k : A -> M St B) : M St B :=
  fun s =>
    match m s with
    | (Ret a, s1, t1) =>
        match k a s1 with (r, s2, t2) => (r, s2, (t1 ++ t2)%list) end
    | (Raise e, s1, t1) => (Raise e, s1, t1)
    end.

Definition raise {St A} (e : Py.exn) : M St A := fun s => (Raise e, s, []).

(** [try: body  except classes: handler] *)
Definition try_except {St A} (body : M St A) (classes : list Py.exn_class)
    (handler : Py.exn -> M St A) : M St A :=
  fun s =>
    match body s with
    | (Raise e, s1, t1) =>
        if Py.caught_by classes e
        then match handler e s1 with (r, s2, t2) => (r, s2, (t1 ++ t2)%list) end
        else (Raise e, s1, t1)
    | done => done
    end.

(** [try: body  finally: cleanup]: the cleanup runs on both ways out, and an
    exception of the body is raised again after it. *)
Definition try_finally {St A} (body : M St A) (cleanup : M St unit) : M St A :=
  fun s =>
    match body s with
    | (r, s1, t1) =>
        match cleanup s1 with
        | (Ret _, s2, t2) => (r, s2, (t1 ++ t2)%list)
        | (Raise e, s2, t2) => (Raise e, s2, (t1 ++ t2)%list)
        end
    end.

Definition get {St} : M St St := fun s => (Ret s, s, []).
Definition modify {St} (f : St -> St) : M St unit := fun s => (Ret tt, f s, []).
Definition emit {St} (e : event) : M St unit := fun s => (Ret tt, s, [e]).

Declare Scope py_scope.
Delimit Scope py_scope with py.
Notation "x <- m ;; k" := (bind m (fun x => k))
  (at level 61, m at next level, right associativity) : py_scope.
Notation "m ;; k" := (bind m (fun _ => k))
  (at level 61, right associativity) : py_scope.

Definition outcome {St A} (r : result A * St * list event) : result A := fst (fst r).
Definition final {St A} (r : result A * St * list event) : St := snd (fst r).
Definition trace {St A} (r : result A * St * list event) : list event := snd r.

(** The child process behind a [subprocess.Popen] handle, as far as the two
    programs look at it. *)
Record Popen : Type := mkPopen {
  returncode : option Z;
    (* what [poll()] answers: [None] while the child has not exited *)
  stdout : list string;
    (* the lines the child writes on its combined output *)
  stdout_error : option Py.exn;
    (* the pipe is read as text: the exception on which the read after these
       lines fails, if one does ([UnicodeDecodeError] on output that does
       not decode) *)
  exit_status : Z;
    (* the status with which it exits when left alone *)
  exits_on_terminate : option Z;
    (* the status with which it exits within the grace period once asked to
       terminate; [None] when it does not exit in that time *)
  reaped_on_kill : option Z
    (* what the handle knows right after [kill()]: the child may not have
       gone yet *)
}.

(** [p.poll()] *)
Definition poll (p : Popen) : option Z := returncode p.

(** [self.process.terminate()], [self.process.wait(timeout=...)] and
    [self.process.kill()] on the handle [p] that the object holds in its
    [process] attribute (written with [set_process]). *)
Section Handle.

Context {St : Type} (set_process : option Popen -> St -> St).
Local Open Scope py_scope.

Definition Popen_terminate : M St unit := emit terminate.

Definition Popen_wait (p : Popen) (timeout : option Z) : M St unit :=
  emit (wait timeout) ;;
  match returncode p with
  | Some _ => ret tt
  | None =>
      match timeout with
      | None =>
          modify (set_process (Some (mkPopen (Some (exit_status p)) (stdout p)
                     (stdout_error p) (exit_status p) (exits_on_terminate p) (reaped_on_kill p))))
      | Some _ =>
          match exits_on_terminate p with
          | Some rc =>
              modify (set_process (Some (mkPopen (Some rc) (stdout p)
                         (stdout_error p) (exit_status p) (exits_on_terminate p) (reaped_on_kill p))))
          | None => raise (Py.mkExn Py.TimeoutExpired "timed out")
          end
      end
  end.

Definition Popen_kill (p : Popen) : M St unit :=
  emit kill ;;
  match returncode p with
  | Some _ => ret tt
  | None =>
      modify (set_process (Some (mkPopen (reaped_on_kill p) (stdout p)
                 (stdout_error p) (exit_status p) (exits_on_terminate p) (reaped_on_kill p))))
  end.

End Handle.

Definition lift {St A} (r : result A) : M St A := fun s => (r, s, []).

(* ================================================================== *)
(** ** The values [json.loads] yields, and what the poller does with them *)

Module Json.

#[warnings="-register-all"] Inductive value : Type :=
| JNull
| JBool (b : bool)
| JInt (n : Z)
| JFloat (x : float)
| JStr (s : string)
| JArr (items : list value)
| JObj (members : list (string * value)).

Definition type_name (v : value) : string :=
  match v with
  | JNull => "NoneType" | JBool _ => "bool" | JInt _ => "int"
  | JFloat _ => "float" | JStr _ => "str" | JArr _ => "list"
  | JObj _ => "dict"
  end.

(** Truth value: [if v:] *)
Definition truthy (v : value) : bool :=
  match v with
  | JNull => false
  | JBool b => b
  | JInt n => negb (n =? 0)
  | JFloat x => negb (PrimFloat.eqb x PrimFloat.zero)
  | JStr s => Py.truthy s
  | JArr items => match items with [] => false | _ => true end
  | JObj members => match members with [] => false | _ => true end
  end.

Fixpoint lookup (key : string) (members : list (string * value)) : option value :=
  match members with
  | [] => None
  | (k, v) :: rest => if String.eqb k key then Some v else lookup key rest
  end.

(** [v.get(key, default)]: only a dict has the method. *)
Definition get (v : value) (key : string) (default : value) : result value :=
  match v with
  | JObj members =>
      Ret (match lookup key members with Some x => x | None => default end)
  | _ => Raise (Py.mkExn Py.AttributeError
                  ("'" ++ type_name v ++ "' object has no attribute 'get'"))
  end.

(** [v[0]] *)
Definition getitem0 (v : value) : result value :=
  match v with
  | JArr (x :: _) => Ret x
  | JArr [] => Raise (Py.mkExn Py.IndexError "list index out of range")
  | JStr (String c _) => Ret (JStr (String c EmptyString))
  | JStr EmptyString => Raise (Py.mkExn Py.IndexError "string index out of range")
  | JObj _ => Raise (Py.mkExn Py.KeyError "0")
  | _ => Raise (Py.mkExn Py.TypeError
                  ("'" ++ type_name v ++ "' object is not subscriptable"))
  end.

End Json.

(* ================================================================== *)
(** ** The operating system as the binary locators see it *)

Module Os.

Import Py.

(** A directory as [os.walk] lists it: the names of its entries that are
    not directories, and its subdirectories. *)
#[warnings="-register-all"] Inductive dirtree : Type :=
| Dir (files : list string) (dirs : list (string * dirtree)).

Record env : Type := mkEnv {
  windows : bool;                     (* platform.system() == "Windows" *)
  environ : string -> option string;  (* os.environ.get(name) *)
  exists_ : string -> bool;           (* os.path.exists *)
  isfile : string -> bool;            (* os.path.isfile *)
  access_X_OK : string -> bool;       (* os.access(path, os.X_OK) *)
  tree : string -> option dirtree;    (* the directory at a path, if it is one *)
  abspath : string -> string          (* os.path.abspath *)
}.

(** What the body of a [for root, dirs, files in os.walk(top)] loop does
    with one directory: return from the function, or go on, having left in
    [dirs] the subdirectories to descend into. *)
Inductive step (A : Type) : Type :=
| Return (a : A)
| Next (dirs : list string).
Arguments Return {A} a.
Arguments Next {A} dirs.

Section WithEnv.

Variable e : env.

(** [os.sep] and [os.pathsep] *)
Definition sep : ascii := if windows e then "\"%char else "/"%char.
Definition pathsep : ascii := if windows e then ";"%char else ":"%char.

(** [os.environ.get(name, default)] *)
Definition environ_get (name default : string) : string :=
  match environ e name with Some v => v | None => default end.

Fixpoint last_char (s : string) : option ascii :=
  match s with
  | EmptyString => None
  | String c EmptyString => Some c
  | String _ r => last_char r
  end.

(** A drive and nothing else: a letter and a colon. *)
Definition is_drive (a : string) : bool :=
  match a with
  | String _ (String ":" EmptyString) => true
  | _ => false
  end.

(** [os.path.join(a, b)] for a relative [b] without a drive: a separator is
    put between the two unless [a] is empty or ends with one (on Windows
    also unless [a] is a bare drive, as in [C:]). *)
Definition join (a b : string) : string :=
  match last_char a with
  | None => b
  | Some c =>
      if windows e
      then if Ascii.eqb c "\" || Ascii.eqb c "/" || is_drive a
           then a ++ b else a ++ String sep b
      else if Ascii.eqb c "/" then a ++ b else a ++ String sep b
  end.

Fixpoint drop_prefix (p s : string) : option string :=
  match p, s with
  | EmptyString, _ => Some s
  | String a p', String b s' => if Ascii.eqb a b then drop_prefix p' s' else None
  | String _ _, EmptyString => None
  end.

Fixpoint drop_seps (s : string) : string :=
  match s with
  | String c r => if Ascii.eqb c sep then drop_seps r else s
  | EmptyString => EmptyString
  end.

(** [os.path.relpath(path, start)] for a [path] that [os.walk] built below
    [start]: ["."] for [start] itself, else the names joined below it. *)
Definition relpath (path start : string) : string :=
  match drop_prefix start path with
  | Some rest =>
      match drop_seps rest with
      | EmptyString => "."
      | rel => rel
      end
  | None => path
  end.

(** [for x in xs: ... return y]: the first [x] on which the body returns. *)
Fixpoint first_some {A B} (body : A -> option B) (xs : list A) : option B :=
  match xs with
  | [] => None
  | x :: rest =>
      match body x with
      | Some y => Some y
      | None => first_some body rest
      end
  end.

(** [os.walk(top)], top-down, with the loop body [visit] run on each
    directory as it is yielded.  The subdirectories are entered in the order
    of the listing; one is entered when the body left its name in [dirs]
    (the bodies here leave [dirs] as it was or empty it). *)
Fixpoint walk {A} (visit : string -> list string -> list string -> step A)
    (top : string) (t : dirtree) : option A :=
  match t with
  | Dir files subs =>
      match visit top (map fst subs) files with
      | Return a => Some a
      | Next dirs =>
          (fix each (l : list (string * dirtree)) : option A :=
             match l with
             | [] => None
             | (name, sub) :: rest =>
                 if existsb (String.eqb name) dirs
                 then match walk visit (join top name) sub with
                      | Some a => Some a
                      | None => each rest
                      end
                 else each rest
             end) subs
      end
  end.

(** [name in files] *)
Definition In_files (name : string) (files : list string) : bool :=
  existsb (String.eqb name) files.

End WithEnv.

End Os.

(* ================================================================== *)
(** ** [src/llama_server_gui.py]: class [LlamaCppServerGUI] *)

Module Server.

Import Py.
Local Open Scope py_scope.

Definition RESTART_POLL_DELAY_MS : Z := 100.

(** The application object.  An [IntVar] or [DoubleVar] holds the text the
    user typed, given here by what [get()] does with it: the number it
    returns, or the exception it raises.  That is a [TclError] with Tcl's
    message for text that is not a number; and since [IntVar.get] falls back
    to [int(getdouble(text))], it is an [OverflowError] for text that reads
    as an infinite float, such as [1e400]. *)
Record gui : Type := mkGui {
  server_binary : string;
  model_path : string;
  host : string;
  port : result Z;
  temperature : result float;
  context_size : result Z;
  threads : result Z;
  endpoint_url : string;
  server_status : string;
  current_model : Json.value;
  is_running : bool;
  process : option Popen;
  start_button : button_state;
  stop_button : button_state;
  apply_button : button_state;
  output_text : string;
  status_var : string
}.

Definition set_server_binary (v : string) (g : gui) : gui :=
  mkGui v (model_path g) (host g) (port g) (temperature g) (context_size g)
    (threads g) (endpoint_url g) (server_status g) (current_model g)
    (is_running g) (process g) (start_button g) (stop_button g)
    (apply_button g) (output_text g) (status_var g).

Definition set_endpoint_url (v : string) (g : gui) : gui :=
  mkGui (server_binary g) (model_path g) (host g) (port g) (temperature g)
    (context_size g) (threads g) v (server_status g) (current_model g)
    (is_running g) (process g) (start_button g) (stop_button g)
    (apply_button g) (output_text g) (status_var g).

Definition set_server_status (v : string) (g : gui) : gui :=
  mkGui (server_binary g) (model_path g) (host g) (port g) (temperature g)
    (context_size g) (threads g) (endpoint_url g) v (current_model g)
    (is_running g) (process g) (start_button g) (stop_button g)
    (apply_button g) (output_text g) (status_var g).

Definition set_current_model (v : Json.value) (g : gui) : gui :=
  mkGui (server_binary g) (model_path g) (host g) (port g) (temperature g)
    (context_size g) (threads g) (endpoint_url g) (server_status g) v
    (is_running g) (process g) (start_button g) (stop_button g)
    (apply_button g) (output_text g) (status_var g).

Definition set_is_running (v : bool) (g : gui) : gui :=
  mkGui (server_binary g) (model_path g) (host g) (port g) (temperature g)
    (context_size g) (threads g) (endpoint_url g) (server_status g)
    (current_model g) v (process g) (start_button g) (stop_button g)
    (apply_button g) (output_text g) (status_var g).

Definition set_process (v : option Popen) (g : gui) : gui :=
  mkGui (server_binary g) (model_path g) (host g) (port g) (temperature g)
    (context_size g) (threads g) (endpoint_url g) (server_status g)
    (current_model g) (is_running g) v (start_button g) (stop_button g)
    (apply_button g) (output_text g) (status_var g).

Definition set_buttons (a b c : button_state) (g : gui) : gui :=
  mkGui (server_binary g) (model_path g) (host g) (port g) (temperature g)
    (context_size g) (threads g) (endpoint_url g) (server_status g)
    (current_model g) (is_running g) (process g) a b c
    (output_text g) (status_var g).

Definition set_output_text (v : string) (g : gui) : gui :=
  mkGui (server_binary g) (model_path g) (host g) (port g) (temperature g)
    (context_size g) (threads g) (endpoint_url g) (server_status g)
    (current_model g) (is_running g) (process g) (start_button g)
    (stop_button g) (apply_button g) v (status_var g).

Definition set_status_var (v : string) (g : gui) : gui :=
  mkGui (server_binary g) (model_path g) (host g) (port g) (temperature g)
    (context_size g) (threads g) (endpoint_url g) (server_status g)
    (current_model g) (is_running g) (process g) (start_button g)
    (stop_button g) (apply_button g) (output_text g) v.

(** [var.get()] on an [IntVar] or a [DoubleVar] *)
Definition Var_get {A} (v : result A) : M gui A := lift v.

Definition update_endpoint_url : M gui unit :=
  g <- get ;;
  let host := if truthy (strip (host g)) then strip (host g) else "127.0.0.1" in
  port <- try_except (Var_get (port g)) [TclError] (fun _ => ret 8080) ;;
  let port := if (port <? 1) || (port >? 65535) then 8080 else port in
  modify (set_endpoint_url ("http://" ++ host ++ ":" ++ str_int port ++ "/v1")).

Definition clear_output : M gui unit := modify (set_output_text "").

Definition append_output (text : string) : M gui unit :=
  g <- get ;; modify (set_output_text (output_text g ++ text)).

Definition set_button_states (start_state stop_state apply_state : button_state)
    : M gui unit :=
  modify (set_buttons start_state stop_state apply_state).

Section Methods.

(** The world outside the object: the operating system, the user's answer
    to the restart question, the textual form of a float, and what spawning
    a command yields. *)
Variable e : Os.env.
Let isfile : string -> bool := Os.isfile e.
Variable answers_yes : bool.
Variable str_float : float -> string.
Variable spawn : list string -> result Popen.

Definition sentinel : string := "llama-server not found".

Definition binary_names : list string :=
  let binary_basenames := ["llama-server"; "server"] in
  if Os.windows e
  then map (fun name => name ++ ".exe") binary_basenames
  else binary_basenames.

Definition winget_paths : list string :=
  let root_of (name : string) (below : list string) : list string :=
    match Os.environ e name with
    | Some v => if truthy v then [fold_left (Os.join e) below v] else []
    | None => []
    end in
  (root_of "LOCALAPPDATA" ["Microsoft"; "WinGet"; "Packages"]
   ++ root_of "PROGRAMFILES" ["llama.cpp"]
   ++ root_of "PROGRAMFILES(X86)" ["llama.cpp"])%list.

(** The body of the loop over [os.walk(base_path)]. *)
Definition visit (base_path walk_root : string) (dirs files : list string)
    : Os.step string :=
  let depth := count (Os.sep e) (Os.relpath e walk_root base_path) in
  if depth >? 4 then Os.Next []
  else
    match Os.first_some
            (fun candidate =>
               if Os.In_files candidate files
               then Some (Os.join e walk_root candidate) else None)
            binary_names with
    | Some binary_path => Os.Return binary_path
    | None => Os.Next dirs
    end.

Definition search_winget : option string :=
  if Os.windows e then
    Os.first_some
      (fun base_path =>
         if Os.exists_ e base_path
         then match Os.tree e base_path with
              | Some t => Os.walk e (visit base_path) base_path t
              | None => None
              end
         else None)
      winget_paths
  else None.

Definition search_PATH : option string :=
  Os.first_some
    (fun path_dir =>
       Os.first_some
         (fun candidate =>
            let binary_path := Os.join e path_dir candidate in
            if isfile binary_path && Os.access_X_OK e binary_path
            then Some binary_path else None)
         binary_names)
    (filter truthy (split (Os.pathsep e) (Os.environ_get e "PATH" ""))).

Definition search_build_dirs : option string :=
  let build_dirs := ["build/bin"; "./build/bin"; "../build/bin"] in
  Os.first_some
    (fun build_dir =>
       Os.first_some
         (fun candidate =>
            let binary_path := Os.join e build_dir candidate in
            if isfile binary_path then Some (Os.abspath e binary_path) else None)
         binary_names)
    build_dirs.

(** The three loops of the method one after the other; each ends the method
    at its first hit. *)
Definition detect_server_binary : M gui unit :=
  match search_winget with
  | Some binary_path => modify (set_server_binary binary_path)
  | None =>
      match search_PATH with
      | Some binary_path => modify (set_server_binary binary_path)
      | None =>
          match search_build_dirs with
          | Some binary_path => modify (set_server_binary binary_path)
          | None => modify (set_server_binary sentinel)
          end
      end
  end.

Definition validate_inputs : M gui bool :=
  g <- get ;;
  let binary_path := server_binary g in
  if negb (truthy binary_path) || String.eqb binary_path sentinel
  then emit (showerror "Error" "Please specify the llama-server binary path.") ;;
       ret false
  else if negb (isfile binary_path)
  then emit (showerror "Error" ("Binary not found: " ++ binary_path)) ;;
       ret false
  else
  let model_path := model_path g in
  if negb (truthy model_path)
  then emit (showerror "Error" "Please select a model file.") ;; ret false
  else if negb (isfile model_path)
  then emit (showerror "Error" ("Model file not found: " ++ model_path)) ;;
       ret false
  else if negb (truthy (strip (host g)))
  then emit (showerror "Error" "Please enter a host address.") ;; ret false
  else
  try_except
    (port <- Var_get (port g) ;;
     (if (port <? 1) || (port >? 65535)
      then raise (mkExn ValueError "Port out of range")
      else ret tt) ;;
     ret true)
    [TclError; ValueError]
    (fun _ =>
       emit (showerror "Error" "Please enter a valid port (1-65535).") ;;
       ret false).

Definition build_command : M gui (list string) :=
  g <- get ;;
  port <- Var_get (port g) ;;
  temperature <- Var_get (temperature g) ;;
  context_size <- Var_get (context_size g) ;;
  threads <- Var_get (threads g) ;;
  ret [ server_binary g;
        "--model"; model_path g;
        "--host"; strip (host g);
        "--port"; str_int port;
        "--temp"; str_float temperature;
        "--ctx-size"; str_int context_size;
        "--threads"; str_int threads ].

Definition start_server : M gui unit :=
  ok <- validate_inputs ;;
  if negb ok then ret tt else
  g <- get ;;
  if is_running g
  then emit (showwarning "Warning" "Server is already running.")
  else
    modify (set_is_running true) ;;
    set_button_states DISABLED NORMAL NORMAL ;;
    modify (set_server_status "Starting...") ;;
    clear_output ;;
    emit (thread_start "_run_server_thread").

Definition process_terminate : M gui unit := Popen_terminate.
Definition process_wait : Popen -> option Z -> M gui unit := Popen_wait set_process.
Definition process_kill : Popen -> M gui unit := Popen_kill set_process.

Definition stop_server : M gui unit :=
  g <- get ;;
  match process g with
  | Some p =>
      if is_running g then
        modify (set_is_running false) ;;
        try_except
          (process_terminate ;; process_wait p (Some 5))
          [TimeoutExpired]
          (fun _ => process_kill p) ;;
        modify (set_status_var "Server stopped by user.") ;;
        append_output (nl ++ nl ++ "=== Server stopped by user ===" ++ nl) ;;
        set_button_states NORMAL DISABLED NORMAL ;;
        modify (set_server_status "Stopped")
      else ret tt
  | None => ret tt
  end.

Definition _schedule_restart_check (delay_ms : Z) : M gui unit :=
  emit (root_after delay_ms (cb_restart_server_after_stop delay_ms)).

Definition _restart_server_after_stop (delay_ms : option Z) : M gui unit :=
  let delay_ms :=
    match delay_ms with None => RESTART_POLL_DELAY_MS | Some d => d end in
  g <- get ;;
  if is_running g then _schedule_restart_check delay_ms
  else
    match process g with
    | None => start_server
    | Some process =>
        match poll process with
        | None => _schedule_restart_check delay_ms
        | Some _ => start_server
        end
    end.

Definition apply_settings : M gui unit :=
  g <- get ;;
  if is_running g then
    emit (askyesno "Restart Server" "Apply settings by restarting the server now?") ;;
    if negb answers_yes then ret tt
    else stop_server ;; _restart_server_after_stop None
  else start_server.

(** The loop of the worker over the child's output: a line is read, then
    [is_running] is looked at before the line is handed to the event loop.
    The read that finds the output at its end stops the loop; a read that
    fails raises out of it. *)
Fixpoint relay_output (lines : list string) (broken : option exn)
    : M gui unit :=
  match lines with
  | [] => match broken with Some error => raise error | None => ret tt end
  | line :: rest =>
      g <- get ;;
      if negb (is_running g) then ret tt
      else emit (root_after 0 (cb_append_output line)) ;;
           relay_output rest broken
  end.

(** The worker thread, run on its own from start to end (what the event loop
    does meanwhile is not interleaved here). *)
Definition _run_server_thread : M gui unit :=
  try_finally
    (try_except
       (try_except
          (cmd <- build_command ;;
           emit (root_after 0 (cb_status_var_set "Launching llama.cpp server...")) ;;
           emit (root_after 0
                   (cb_append_output ("Command: " ++ join " " cmd ++ nl ++ nl))) ;;
           emit (popen cmd) ;;
           p <- lift (spawn cmd) ;;
           modify (set_process (Some p)) ;;
           emit (root_after 0 (cb_server_status_set "Running")) ;;
           relay_output (stdout p) (stdout_error p) ;;
           process_wait p None ;;
           g <- get ;;
           let returncode :=
             match process g with Some p => returncode p | None => Some (-1) end in
           match returncode with
           | Some 0 =>
               if is_running g
               then emit (root_after 0 (cb_status_var_set "Server exited normally."))
               else ret tt
           | Some rc =>
               emit (root_after 0 (cb_status_var_set
                       ("Server exited with code " ++ str_int rc ++ ".")))
           | None =>
               emit (root_after 0 (cb_status_var_set "Server exited with code None."))
           end)
          [FileNotFoundError]
          (fun _ =>
             g <- get ;;
             emit (root_after 0
                     (cb_showerror "Error" ("Binary not found: " ++ server_binary g))) ;;
             emit (root_after 0 (cb_status_var_set "Error: Binary not found"))))
       [Exception]
       (fun error =>
          let error_msg := msg error in
          emit (root_after 0
                  (cb_showerror "Error" ("Failed to start server: " ++ error_msg))) ;;
          emit (root_after 0 (cb_status_var_set ("Error: " ++ error_msg)))))
    (modify (set_is_running false) ;;
     modify (set_process None) ;;
     emit (root_after 0 (cb_set_button_states NORMAL DISABLED NORMAL)) ;;
     emit (root_after 0 (cb_server_status_set "Stopped"))).

(** [urllib.request.urlopen(url, timeout=2)] and, on a response, what
    [json.loads(response.read().decode("utf-8"))] gives when asked for. *)
Inductive reply : Type :=
| Response (status : Z) (payload : result Json.value)
| Failure (e : exn).

Variable GET : string -> reply.

Definition Unknown : Json.value := Json.JStr "Unknown".

Definition poll_server_status : M gui unit :=
  g <- get ;;
  let base_url := strip (endpoint_url g) in
  if negb (truthy base_url) then
    modify (set_server_status "Invalid endpoint") ;;
    modify (set_current_model Unknown) ;;
    emit (root_after 5000 cb_poll_server_status)
  else
  let health_url := replace "/v1" "/health" base_url in
  let models_url := base_url ++ "/models" in
  status_label <-
    try_except
      (emit (urlopen health_url 2) ;;
       match GET health_url with
       | Response status _ => ret (if status =? 200 then "Online" else "Offline")
       | Failure e => raise e
       end)
      [URLError; ValueError]
      (fun _ => ret "Offline") ;;
  model_label <-
    (if String.eqb status_label "Online" then
       try_except
         (emit (urlopen models_url 2) ;;
          match GET models_url with
          | Response _ body =>
              payload <- lift body ;;
              data <- lift (Json.get payload "data" (Json.JArr [])) ;;
              if Json.truthy data then
                first <- lift (Json.getitem0 data) ;;
                lift (Json.get first "id" Unknown)
              else ret Unknown
          | Failure e => raise e
          end)
         [URLError; ValueError; JSONDecodeError]
         (fun _ => ret Unknown)
     else ret Unknown) ;;
  modify (set_server_status status_label) ;;
  modify (set_current_model model_label) ;;
  emit (root_after 5000 cb_poll_server_status).

End Methods.

End Server.

(* ================================================================== *)
(** ** [src/llama_gui.py]: class [LlamaCppGUI] *)

Module Cli.

Import Py.
Local Open Scope py_scope.

(** The application object; [prompt_entry] is the text of the prompt box as
    [self.prompt_entry.get(1.0, tk.END)] returns it. *)
Record gui : Type := mkGui {
  model_path : string;
  prompt_text : string;
  max_tokens : result Z;
  temperature : result float;
  top_p : result float;
  top_k : result Z;
  llama_binary : string;
  is_running : bool;
  process : option Popen;
  prompt_entry : string;
  run_button : button_state;
  stop_button : button_state;
  output_text : string;
  status_var : string
}.

Definition set_llama_binary (v : string) (g : gui) : gui :=
  mkGui (model_path g) (prompt_text g) (max_tokens g) (temperature g) (top_p g)
    (top_k g) v (is_running g) (process g) (prompt_entry g) (run_button g)
    (stop_button g) (output_text g) (status_var g).

Definition set_is_running (v : bool) (g : gui) : gui :=
  mkGui (model_path g) (prompt_text g) (max_tokens g) (temperature g) (top_p g)
    (top_k g) (llama_binary g) v (process g) (prompt_entry g) (run_button g)
    (stop_button g) (output_text g) (status_var g).

Definition set_process (v : option Popen) (g : gui) : gui :=
  mkGui (model_path g) (prompt_text g) (max_tokens g) (temperature g) (top_p g)
    (top_k g) (llama_binary g) (is_running g) v (prompt_entry g) (run_button g)
    (stop_button g) (output_text g) (status_var g).

Definition set_run_button (v : button_state) (g : gui) : gui :=
  mkGui (model_path g) (prompt_text g) (max_tokens g) (temperature g) (top_p g)
    (top_k g) (llama_binary g) (is_running g) (process g) (prompt_entry g) v
    (stop_button g) (output_text g) (status_var g).

Definition set_stop_button (v : button_state) (g : gui) : gui :=
  mkGui (model_path g) (prompt_text g) (max_tokens g) (temperature g) (top_p g)
    (top_k g) (llama_binary g) (is_running g) (process g) (prompt_entry g)
    (run_button g) v (output_text g) (status_var g).

Definition set_output_text (v : string) (g : gui) : gui :=
  mkGui (model_path g) (prompt_text g) (max_tokens g) (temperature g) (top_p g)
    (top_k g) (llama_binary g) (is_running g) (process g) (prompt_entry g)
    (run_button g) (stop_button g) v (status_var g).

Definition set_status_var (v : string) (g : gui) : gui :=
  mkGui (model_path g) (prompt_text g) (max_tokens g) (temperature g) (top_p g)
    (top_k g) (llama_binary g) (is_running g) (process g) (prompt_entry g)
    (run_button g) (stop_button g) (output_text g) v.

Definition Var_get {A} (v : result A) : M gui A := lift v.

Definition clear_output : M gui unit := modify (set_output_text "").

Definition append_output (text : string) : M gui unit :=
  g <- get ;; modify (set_output_text (output_text g ++ text)).

Definition process_terminate : M gui unit := Popen_terminate.
Definition process_wait : Popen -> option Z -> M gui unit := Popen_wait set_process.
Definition process_kill : Popen -> M gui unit := Popen_kill set_process.

Section Methods.

Variable e : Os.env.
Let isfile : string -> bool := Os.isfile e.
Variable str_float : float -> string.
Variable spawn : list string -> result Popen.

Definition sentinel : string := "llama-cli not found".

Definition winget_paths : list string :=
  [ fold_left (Os.join e) ["Microsoft"; "WinGet"; "Packages"]
      (Os.environ_get e "LOCALAPPDATA" "");
    Os.join e (Os.environ_get e "PROGRAMFILES" "") "llama.cpp";
    Os.join e (Os.environ_get e "PROGRAMFILES(X86)" "") "llama.cpp" ].

(** The body of the loop over [os.walk(base_path)]. *)
Definition visit (root : string) (dirs files : list string) : Os.step string :=
  if Os.In_files "llama-cli.exe" files
  then Os.Return (Os.join e root "llama-cli.exe")
  else if Os.In_files "llama-cli" files
  then Os.Return (Os.join e root "llama-cli")
  else Os.Next dirs.

Definition search_winget : option string :=
  if Os.windows e then
    Os.first_some
      (fun base_path =>
         if Os.exists_ e base_path
         then match Os.tree e base_path with
              | Some t => Os.walk e visit base_path t
              | None => None
              end
         else None)
      winget_paths
  else None.

Definition binary_name : string :=
  if Os.windows e then "llama-cli.exe" else "llama-cli".

Definition search_PATH : option string :=
  Os.first_some
    (fun path_dir =>
       let binary_path := Os.join e path_dir binary_name in
       if isfile binary_path && Os.access_X_OK e binary_path
       then Some binary_path else None)
    (split (Os.pathsep e) (Os.environ_get e "PATH" "")).

Definition search_build_dirs : option string :=
  let build_dirs := ["build/bin"; "./build/bin"; "../build/bin"] in
  Os.first_some
    (fun build_dir =>
       let binary_path := Os.join e build_dir binary_name in
       if isfile binary_path then Some (Os.abspath e binary_path) else None)
    build_dirs.

Definition detect_llama_binary : M gui unit :=
  match search_winget with
  | Some binary_path => modify (set_llama_binary binary_path)
  | None =>
      match search_PATH with
      | Some binary_path => modify (set_llama_binary binary_path)
      | None =>
          match search_build_dirs with
          | Some binary_path => modify (set_llama_binary binary_path)
          | None => modify (set_llama_binary sentinel)
          end
      end
  end.

Definition validate_inputs : M gui bool :=
  g <- get ;;
  let binary_path := llama_binary g in
  if negb (truthy binary_path) || String.eqb binary_path sentinel
  then emit (showerror "Error" "Please specify the llama-cli binary path.") ;;
       ret false
  else if negb (isfile binary_path)
  then emit (showerror "Error" ("Binary not found: " ++ binary_path)) ;;
       ret false
  else
  let model_path := model_path g in
  if negb (truthy model_path)
  then emit (showerror "Error" "Please select a model file.") ;; ret false
  else if negb (isfile model_path)
  then emit (showerror "Error" ("Model file not found: " ++ model_path)) ;;
       ret false
  else
  let prompt := strip (prompt_entry g) in
  if negb (truthy prompt)
  then emit (showerror "Error" "Please enter a prompt.") ;; ret false
  else ret true.

Definition run_inference : M gui unit :=
  ok <- validate_inputs ;;
  if negb ok then ret tt else
  g <- get ;;
  if is_running g
  then emit (showwarning "Warning" "Inference is already running.")
  else
    modify (set_run_button DISABLED) ;;
    modify (set_stop_button NORMAL) ;;
    modify (set_is_running true) ;;
    clear_output ;;
    emit (thread_start "_run_inference_thread").

(** The command line the worker builds. *)
Definition build_cmd : M gui (list string) :=
  g <- get ;;
  let binary_path := llama_binary g in
  let model_path := model_path g in
  let prompt := strip (prompt_entry g) in
  max_tokens <- Var_get (max_tokens g) ;;
  temperature <- Var_get (temperature g) ;;
  top_p <- Var_get (top_p g) ;;
  top_k <- Var_get (top_k g) ;;
  ret [ binary_path;
        "-m"; model_path;
        "-p"; prompt;
        "-n"; str_int max_tokens;
        "--temp"; str_float temperature;
        "--top-p"; str_float top_p;
        "--top-k"; str_int top_k ].

Fixpoint relay_output (lines : list string) (broken : option exn)
    : M gui unit :=
  match lines with
  | [] => match broken with Some error => raise error | None => ret tt end
  | line :: rest =>
      g <- get ;;
      if negb (is_running g) then ret tt
      else emit (root_after 0 (cb_append_output line)) ;;
           relay_output rest broken
  end.

(** The worker thread, run on its own from start to end. *)
Definition _run_inference_thread : M gui unit :=
  try_finally
    (try_except
       (try_except
          (cmd <- build_cmd ;;
           emit (root_after 0 (cb_status_var_set "Running inference...")) ;;
           emit (root_after 0
                   (cb_append_output ("Command: " ++ join " " cmd ++ nl ++ nl))) ;;
           emit (popen cmd) ;;
           p <- lift (spawn cmd) ;;
           modify (set_process (Some p)) ;;
           relay_output (stdout p) (stdout_error p) ;;
           process_wait p None ;;
           g <- get ;;
           let returncode :=
             match process g with Some p => returncode p | None => Some (-1) end in
           match returncode with
           | Some 0 =>
               emit (root_after 0
                       (cb_status_var_set "Inference completed successfully")) ;;
               emit (root_after 0
                       (cb_append_output
                          (nl ++ nl ++ "=== Inference completed successfully ===" ++ nl)))
           | _ =>
               let code :=
                 match returncode with Some rc => str_int rc | None => "None" end in
               emit (root_after 0
                       (cb_status_var_set ("Inference failed with code " ++ code))) ;;
               emit (root_after 0
                       (cb_append_output
                          (nl ++ nl ++ "=== Inference failed with exit code "
                           ++ code ++ " ===" ++ nl)))
           end)
          [FileNotFoundError]
          (fun _ =>
             g <- get ;;
             emit (root_after 0
                     (cb_showerror "Error" ("Binary not found: " ++ llama_binary g))) ;;
             emit (root_after 0 (cb_status_var_set "Error: Binary not found"))))
       [Exception]
       (fun error =>
          let error_msg := msg error in
          emit (root_after 0
                  (cb_showerror "Error" ("Failed to run inference: " ++ error_msg))) ;;
          emit (root_after 0 (cb_status_var_set ("Error: " ++ error_msg)))))
    (modify (set_is_running false) ;;
     modify (set_process None) ;;
     emit (root_after 0 (cb_run_button_config NORMAL)) ;;
     emit (root_after 0 (cb_stop_button_config DISABLED))).

Definition stop_inference : M gui unit :=
  g <- get ;;
  match process g with
  | Some p =>
      if is_running g then
        modify (set_is_running false) ;;
        try_except
          (process_terminate ;; process_wait p (Some 5))
          [TimeoutExpired]
          (fun _ => process_kill p) ;;
        modify (set_status_var "Inference stopped by user") ;;
        append_output (nl ++ nl ++ "=== Inference stopped by user ===" ++ nl) ;;
        modify (set_run_button NORMAL) ;;
        modify (set_stop_button DISABLED)
      else ret tt
  | None => ret tt
  end.

End Methods.

End Cli.

(* ================================================================== *)
(** ** Concrete worlds and objects used as test inputs *)

Module Examples.

Import Py.

(** A Unix host with the server binary and a model on disk, and an unbuilt
    checkout. *)
Definition unix : Os.env :=
  Os.mkEnv false
    (fun name => if String.eqb name "PATH" then Some "/usr/local/bin:/usr/bin" else None)
    (fun _ => false)
    (fun p => String.eqb p "/usr/bin/llama-server"
              || String.eqb p "/usr/bin/llama-cli"
              || String.eqb p "/models/m.gguf")
    (fun p => String.eqb p "/usr/bin/llama-server"
              || String.eqb p "/usr/bin/llama-cli")
    (fun _ => None)
    (fun p => "/home/u/llama.cpp/" ++ p).

Definition str_float (x : float) : string :=
  if PrimFloat.eqb x 0.5%float then "0.5"
  else if PrimFloat.eqb x 0.75%float then "0.75"
  else "?".

(** A child that is running, prints two lines, and exits on request. *)
Definition child : Popen := mkPopen None ["loading"; "ready"] None 0 (Some (-15)) (Some (-9)).

(** A child that ignores the request to terminate and is still there right
    after being killed. *)
Definition stubborn : Popen := mkPopen None [] None 0 None None.

Definition spawn (cmd : list string) : result Popen := Ret child.

(** The server application as the constructor leaves it, with the paths
    filled in. *)
Definition server_ready : Server.gui :=
  Server.mkGui "/usr/bin/llama-server" "/models/m.gguf" "127.0.0.1" (Ret 8080)
    (Ret 0.5%float) (Ret 4096) (Ret 8) "http://127.0.0.1:8080/v1"
    "Stopped" Server.Unknown false None NORMAL DISABLED NORMAL
    "" "Ready to start server.".

(** The same with a server running. *)
Definition server_running (p : Popen) : Server.gui :=
  Server.mkGui "/usr/bin/llama-server" "/models/m.gguf" "127.0.0.1" (Ret 8080)
    (Ret 0.5%float) (Ret 4096) (Ret 8) "http://127.0.0.1:8080/v1"
    "Running" Server.Unknown true (Some p) DISABLED NORMAL NORMAL
    "log" "Launching llama.cpp server...".

Definition cli_ready : Cli.gui :=
  Cli.mkGui "/models/m.gguf" "" (Ret 512) (Ret 0.5%float) (Ret 0.75%float)
    (Ret 40) "/usr/bin/llama-cli" false None "Hello" NORMAL DISABLED "" "Ready".

Definition cli_running (p : Popen) : Cli.gui :=
  Cli.mkGui "/models/m.gguf" "" (Ret 512) (Ret 0.5%float) (Ret 0.75%float)
    (Ret 40) "/usr/bin/llama-cli" true (Some p) "Hello" DISABLED NORMAL
    "log" "Running inference...".

(** What [get()] raises on a field that holds [text], not a number. *)
Definition not_a_number (text : string) : exn :=
  let quote := String (ascii_of_nat 34) EmptyString in
  mkExn TclError ("expected floating-point number but got " ++ quote ++ text ++ quote).

(** What [IntVar.get] raises on a field that holds [1e400]. *)
Definition too_large : exn :=
  mkExn OverflowError "cannot convert float infinity to integer".

(** The server form with [abc], and with [1e400], typed as the port. *)
Definition server_port_abc : Server.gui :=
  Server.mkGui "/usr/bin/llama-server" "/models/m.gguf" "127.0.0.1"
    (Raise (not_a_number "abc"))
    (Ret 0.5%float) (Ret 4096) (Ret 8) "http://127.0.0.1:8080/v1"
    "Stopped" Server.Unknown false None NORMAL DISABLED NORMAL
    "" "Ready to start server.".
Definition server_port_1e400 : Server.gui :=
  Server.mkGui "/usr/bin/llama-server" "/models/m.gguf" "127.0.0.1"
    (Raise too_large)
    (Ret 0.5%float) (Ret 4096) (Ret 8) "http://127.0.0.1:8080/v1"
    "Stopped" Server.Unknown false None NORMAL DISABLED NORMAL
    "" "Ready to start server.".


(** The inference form with both paths in order and a prompt of blanks. *)
Definition cli_blank_prompt : Cli.gui :=
  Cli.mkGui "/models/m.gguf" "" (Ret 512) (Ret 0.5%float) (Ret 0.75%float)
    (Ret 40) "/usr/bin/llama-cli" false None ("  " ++ nl) NORMAL DISABLED
    "" "Ready".


(** A server on the port: [/health] answers 200 and [/v1/models] lists one
    model. *)
Definition online (url : string) : Server.reply :=
  if String.eqb url "http://127.0.0.1:8080/health"
  then Server.Response 200 (Ret (Json.JObj [("status", Json.JStr "ok")]))
  else if String.eqb url "http://127.0.0.1:8080/v1/models"
  then Server.Response 200
         (Ret (Json.JObj [("object", Json.JStr "list");
                          ("data", Json.JArr [Json.JObj [("id", Json.JStr "m1")]])]))
  else Server.Failure (mkExn HTTPError "HTTP Error 404: Not Found").

(** Nothing listens on the port. *)
Definition refused (url : string) : Server.reply :=
  Server.Failure (mkExn URLError "<urlopen error [Errno 111] Connection refused>").

(** [/health] answers 200, the model listing is not JSON. *)
Definition garbled (url : string) : Server.reply :=
  if String.eqb url "http://127.0.0.1:8080/health"
  then Server.Response 200 (Ret Json.JNull)
  else Server.Response 200
         (Raise (mkExn JSONDecodeError "Expecting value: line 1 column 1 (char 0)")).

(** Some other HTTP service on the port: [/health] answers 200, and
    [/v1/models] answers with the JSON text of an empty array. *)
Definition other_service (url : string) : Server.reply :=
  if String.eqb url "http://127.0.0.1:8080/health"
  then Server.Response 200 (Ret Json.JNull)
  else Server.Response 200 (Ret (Json.JArr [])).

(** The server form with blanks typed around the host. *)
Definition server_padded_host : Server.gui :=
  Server.mkGui "/usr/bin/llama-server" "/models/m.gguf" " 127.0.0.1 " (Ret 8080)
    (Ret 0.5%float) (Ret 4096) (Ret 8) "http://127.0.0.1:8080/v1"
    "Stopped" Server.Unknown false None NORMAL DISABLED NORMAL
    "" "Ready to start server.".

(** A directory below which [names] lie one inside the other, the innermost
    being [leaf]. *)
Fixpoint nest (names : list string) (leaf : Os.dirtree) : Os.dirtree :=
  match names with
  | [] => leaf
  | name :: rest => Os.Dir [] [(name, nest rest leaf)]
  end.

Definition packages : string := "C:\Users\u\AppData\Local\Microsoft\WinGet\Packages".

(** A Windows host without [PATH] whose WinGet package directory is [t]. *)
Definition windows_with (t : Os.dirtree) : Os.env :=
  Os.mkEnv true
    (fun name => if String.eqb name "LOCALAPPDATA"
                 then Some "C:\Users\u\AppData\Local" else None)
    (fun p => String.eqb p packages)
    (fun _ => false)
    (fun _ => false)
    (fun p => if String.eqb p packages then Some t else None)
    (fun p => "C:\work\" ++ p).

(** The inference binary eight directories below the package root. *)
Definition cli_eight_below : Os.env :=
  windows_with (nest ["ggml.llamacpp"; "a"; "b"; "c"; "d"; "e"; "f"; "g"]
                  (Os.Dir ["llama-cli.exe"] [])).

(** The server binary five, and six, directories below the package root. *)
Definition server_five_below : Os.env :=
  windows_with (nest ["ggml.llamacpp"; "a"; "b"; "c"; "d"]
                  (Os.Dir ["llama-server.exe"] [])).
Definition server_six_below : Os.env :=
  windows_with (nest ["ggml.llamacpp"; "a"; "b"; "c"; "d"; "e"]
                  (Os.Dir ["llama-server.exe"] [])).

(** A Unix host with neither program on [PATH], in a checkout whose
    [build/bin] holds the two programs as plain files without the execute
    permission. *)
Definition checkout : Os.env :=
  Os.mkEnv false
    (fun name => if String.eqb name "PATH" then Some "/usr/bin" else None)
    (fun p => String.eqb p "build/bin/llama-server" || String.eqb p "build/bin/llama-cli")
    (fun p => String.eqb p "build/bin/llama-server" || String.eqb p "build/bin/llama-cli")
    (fun _ => false)
    (fun _ => None)
    (fun p => "/home/u/llama.cpp/" ++ p).

(** A service whose model listing is an object whose [data] holds names,
    not objects. *)
Definition names_only (url : string) : Server.reply :=
  if String.eqb url "http://127.0.0.1:8080/health"
  then Server.Response 200 (Ret Json.JNull)
  else Server.Response 200
         (Ret (Json.JObj [("data", Json.JArr [Json.JStr "m1"])])).

(** A server that answers the health request and then takes longer than the
    time-out to answer the model request: the time-out strikes while the
    response is read, where [urlopen] lets the [TimeoutError] through as it
    is. *)
Definition slow_models (url : string) : Server.reply :=
  if String.eqb url "http://127.0.0.1:8080/health"
  then Server.Response 200 (Ret Json.JNull)
  else Server.Failure (mkExn TimeoutError "The read operation timed out").

End Examples.

(* ================================================================== *)
(** ** The vocabulary of the statements *)

(** Whether the child is gone by the end of the grace period that follows
    the request to terminate. *)
Definition exits_in_grace (p : Popen) : bool :=
  match returncode p, exits_on_terminate p with
  | None, None => false
  | _, _ => true
  end.

(** The handle after [terminate(); wait(timeout=5)], and after the [kill()]
    that follows a time-out. *)
Definition after_stop (p : Popen) : Popen :=
  match returncode p with
  | Some _ => p
  | None =>
      mkPopen
        (match exits_on_terminate p with
         | Some rc => Some rc
         | None => reaped_on_kill p
         end)
        (stdout p) (stdout_error p) (exit_status p) (exits_on_terminate p)
        (reaped_on_kill p)
  end.

Definition stop_trace (p : Popen) : list event :=
  terminate :: wait (Some 5) :: (if exits_in_grace p then [] else [kill]).

(** The conditions under which the server form is accepted. *)
Definition server_inputs_valid (e : Os.env) (g : Server.gui) : bool :=
  Py.truthy (Server.server_binary g)
  && negb (String.eqb (Server.server_binary g) Server.sentinel)
  && Os.isfile e (Server.server_binary g)
  && Py.truthy (Server.model_path g)
  && Os.isfile e (Server.model_path g)
  && Py.truthy (Py.strip (Server.host g))
  && match Server.port g with
     | Ret port => (1 <=? port) && (port <=? 65535)
     | Raise _ => false
     end.

(** Reading the port gives a number, or fails with an exception of a class
    that [validate_inputs] catches. *)
Definition port_handled (g : Server.gui) : bool :=
  match Server.port g with
  | Ret _ => true
  | Raise error => Py.caught_by [Py.TclError; Py.ValueError] error
  end.

(** The conditions under which the inference form is accepted. *)
Definition cli_inputs_valid (e : Os.env) (g : Cli.gui) : bool :=
  Py.truthy (Cli.llama_binary g)
  && negb (String.eqb (Cli.llama_binary g) Cli.sentinel)
  && Os.isfile e (Cli.llama_binary g)
  && Py.truthy (Cli.model_path g)
  && Os.isfile e (Cli.model_path g)
  && Py.truthy (Py.strip (Cli.prompt_entry g)).

(** The object once a start request went through. *)
Definition server_started (g : Server.gui) : Server.gui :=
  Server.set_output_text ""
    (Server.set_server_status "Starting..."
       (Server.set_buttons DISABLED NORMAL NORMAL
          (Server.set_is_running true g))).

Definition cli_started (g : Cli.gui) : Cli.gui :=
  Cli.set_output_text ""
    (Cli.set_is_running true
       (Cli.set_stop_button NORMAL (Cli.set_run_button DISABLED g))).




(** The old instance is out of the way: no worker is running, and there is
    no process handle or the process behind it has exited. *)
Definition restart_ready (g : Server.gui) : bool :=
  negb (Server.is_running g)
  && match Server.process g with
     | None => true
     | Some p => match poll p with Some _ => true | None => false end
     end.

(** An event that is not a dialog. *)
Definition silent (ev : event) : Prop :=
  match ev with
  | showerror _ _ | showwarning _ _ | askyesno _ _ | askopenfilename _ _ => False
  | _ => True
  end.

(** A computation none of whose calls is a dialog, whatever the state it
    starts in. *)
Definition all_silent {St A} (m : M St A) : Prop :=
  forall s ev, In ev (trace (m s)) -> silent ev.

(** The two URLs a tick asks for. *)
Definition health_url (g : Server.gui) : string :=
  Py.replace "/v1" "/health" (Py.strip (Server.endpoint_url g)).
Definition models_url (g : Server.gui) : string :=
  Py.strip (Server.endpoint_url g) ++ "/models".

(** The application after a tick that went through to its end. *)
Definition polled (status : string) (model : Json.value) (g : Server.gui)
    : Server.gui :=
  Server.set_current_model model (Server.set_server_status status g).

Definition reschedule : event := root_after 5000 cb_poll_server_status.

(** A command line: the program, then one flag and one value per pair. *)
Definition argv (program : string) (pairs : list (string * string)) : list string :=
  program :: flat_map (fun '(flag, value) => [flag; value]) pairs.

Definition server_pairs (str_float : float -> string) (g : Server.gui)
    (port : Z) (temperature : float) (context_size threads : Z)
    : list (string * string) :=
  [ ("--model", Server.model_path g);
    ("--host", Py.strip (Server.host g));
    ("--port", Py.str_int port);
    ("--temp", str_float temperature);
    ("--ctx-size", Py.str_int context_size);
    ("--threads", Py.str_int threads) ].

Definition cli_pairs (str_float : float -> string) (g : Cli.gui)
    (max_tokens : Z) (temperature top_p : float) (top_k : Z)
    : list (string * string) :=
  [ ("-m", Cli.model_path g);
    ("-p", Py.strip (Cli.prompt_entry g));
    ("-n", Py.str_int max_tokens);
    ("--temp", str_float temperature);
    ("--top-p", str_float top_p);
    ("--top-k", Py.str_int top_k) ].

(** *** The search order as a list

    Every path that qualifies, in the order in which the locator would come
    to it: first the vendor roots (on Windows), each walked top-down, then
    the directories of [PATH], then the build directories. *)

Section SearchOrder.

Variable e : Os.env.

(** The candidates found in the walk of [t], rooted at [top]: in each
    directory that is not skipped, the names of [names] that are among its
    files, then what its subdirectories give. *)
Fixpoint walk_hits (skip : string -> bool) (names : list string)
    (top : string) (t : Os.dirtree) : list string :=
  match t with
  | Os.Dir files subs =>
      if skip top then []
      else
        (flat_map (fun candidate =>
                     if Os.In_files candidate files
                     then [Os.join e top candidate] else [])
                  names
         ++ flat_map (fun sub => walk_hits skip names (Os.join e top (fst sub)) (snd sub))
                     subs)%list
  end.

Definition vendor_hits (roots : list string) (skip : string -> string -> bool)
    (names : list string) : list string :=
  if Os.windows e then
    flat_map (fun base_path =>
                if Os.exists_ e base_path
                then match Os.tree e base_path with
                     | Some t => walk_hits (skip base_path) names base_path t
                     | None => []
                     end
                else [])
             roots
  else [].

(** On [PATH]: existing regular files that may be executed. *)
Definition path_hits (dirs names : list string) : list string :=
  flat_map (fun path_dir =>
              flat_map (fun candidate =>
                          let binary_path := Os.join e path_dir candidate in
                          if Os.isfile e binary_path && Os.access_X_OK e binary_path
                          then [binary_path] else [])
                       names)
           dirs.

(** In the build directories: existing regular files, given as absolute
    paths. *)
Definition build_hits (names : list string) : list string :=
  flat_map (fun build_dir =>
              flat_map (fun candidate =>
                          let binary_path := Os.join e build_dir candidate in
                          if Os.isfile e binary_path
                          then [Os.abspath e binary_path] else [])
                       names)
           ["build/bin"; "./build/bin"; "../build/bin"].

(** The server walk skips a directory whose path relative to the root has
    more than 4 separators. *)
Definition server_skip (base_path walk_root : string) : bool :=
  Py.count (Os.sep e) (Os.relpath e walk_root base_path) >? 4.

Definition server_hits : list string :=
  (vendor_hits (Server.winget_paths e) server_skip (Server.binary_names e)
   ++ path_hits (filter Py.truthy
                   (Py.split (Os.pathsep e) (Os.environ_get e "PATH" "")))
                (Server.binary_names e)
   ++ build_hits (Server.binary_names e))%list.

Definition cli_hits : list string :=
  (vendor_hits (Cli.winget_paths e) (fun _ _ => false) ["llama-cli.exe"; "llama-cli"]
   ++ path_hits (Py.split (Os.pathsep e) (Os.environ_get e "PATH" ""))
                [Cli.binary_name e]
   ++ build_hits [Cli.binary_name e])%list.

End SearchOrder.

(* ================================================================== *)
(** ** Construction, the form and the event loop *)

(** What a handler scheduled with [root.after], in the order of the calls. *)
Definition scheduled (t : list event) : list (Z * callback) :=
  flat_map (fun ev => match ev with
                      | root_after ms cb => [(ms, cb)]
                      | _ => []
                      end) t.

(** The dialogs a handler opened. *)
Definition dialogs (t : list event) : list event :=
  filter (fun ev => match ev with
                    | showerror _ _ | showwarning _ _ | askyesno _ _
                    | askopenfilename _ _ => true
                    | _ => false
                    end) t.

Module ServerApp.

Import Py.
Local Open Scope py_scope.

Definition set_host (v : string) (g : Server.gui) : Server.gui :=
  Server.mkGui (Server.server_binary g) (Server.model_path g) v (Server.port g)
    (Server.temperature g) (Server.context_size g) (Server.threads g)
    (Server.endpoint_url g) (Server.server_status g) (Server.current_model g)
    (Server.is_running g) (Server.process g) (Server.start_button g)
    (Server.stop_button g) (Server.apply_button g) (Server.output_text g)
    (Server.status_var g).

Definition set_model_path (v : string) (g : Server.gui) : Server.gui :=
  Server.mkGui (Server.server_binary g) v (Server.host g) (Server.port g)
    (Server.temperature g) (Server.context_size g) (Server.threads g)
    (Server.endpoint_url g) (Server.server_status g) (Server.current_model g)
    (Server.is_running g) (Server.process g) (Server.start_button g)
    (Server.stop_button g) (Server.apply_button g) (Server.output_text g)
    (Server.status_var g).

Definition set_port (v : result Z) (g : Server.gui) : Server.gui :=
  Server.mkGui (Server.server_binary g) (Server.model_path g) (Server.host g) v
    (Server.temperature g) (Server.context_size g) (Server.threads g)
    (Server.endpoint_url g) (Server.server_status g) (Server.current_model g)
    (Server.is_running g) (Server.process g) (Server.start_button g)
    (Server.stop_button g) (Server.apply_button g) (Server.output_text g)
    (Server.status_var g).

(** The user edits the host or the port field: the write runs the trace
    that [setup_ui] puts on the variable with [trace_add("write", ...)].
    The port is given by what [get()] does with the text typed.  An
    exception that leaves the trace is reported by Tk; the text typed
    stays in the field. *)
Definition write_host (text : string) : M Server.gui unit :=
  modify (set_host text) ;; Server.update_endpoint_url.

Definition write_port (text : result Z) : M Server.gui unit :=
  modify (set_port text) ;; Server.update_endpoint_url.

(** [browse_binary] and [browse_model]: [filename] is what the file dialog
    returns, the empty string when the user cancels. *)
Definition browse_binary (e : Os.env) (filename : string) : M Server.gui unit :=
  let filetypes :=
    if Os.windows e
    then [("Executable files", "*.exe"); ("All files", "*.*")]
    else [("All files", "*.*")] in
  emit (askopenfilename "Select llama-server binary" filetypes) ;;
  if truthy filename then modify (Server.set_server_binary filename) else ret tt.

Definition browse_model (filename : string) : M Server.gui unit :=
  emit (askopenfilename "Select GGUF model file"
          [("GGUF files", "*.gguf"); ("All files", "*.*")]) ;;
  if truthy filename then modify (set_model_path filename) else ret tt.

(** [setup_ui], as far as the state goes: the start and restart buttons
    are created enabled and the stop button disabled, the output area is
    empty, and the status bar reads ready. *)
Definition setup_ui : M Server.gui unit :=
  Server.set_button_states NORMAL DISABLED NORMAL ;;
  modify (Server.set_output_text "") ;;
  modify (Server.set_status_var "Ready to start server.").

(** The variables as [__init__] creates them, before the binary is looked
    for and the widgets exist (0.8 is the double nearest to it). *)
Definition fresh : Server.gui :=
  Server.mkGui "" "" "127.0.0.1" (Ret 8080) (Ret 0x1.999999999999ap-1%float)
    (Ret 4096) (Ret 8) "" "Stopped" Server.Unknown false None
    NORMAL NORMAL NORMAL "" "".

Definition __init__ (e : Os.env) : result unit * Server.gui * list event :=
  (Server.detect_server_binary e ;;
   setup_ui ;;
   Server.update_endpoint_url ;;
   emit (root_after 2000 cb_poll_server_status)) fresh.

(** The event loop: the application and the timers that are pending. *)
Record loop : Type := mkLoop {
  app : Server.gui;
  timers : list (Z * callback)
}.

Section Loop.

Variable e : Os.env.
Variable GET : string -> Server.reply.

(** What the event loop runs when a timer falls due: the callable and the
    arguments that were handed to [root.after].  (The two callbacks of the
    inference application's buttons are never scheduled here.) *)
Definition run_callback (cb : callback) : M Server.gui unit :=
  match cb with
  | cb_restart_server_after_stop delay_ms =>
      Server._restart_server_after_stop e (Some delay_ms)
  | cb_poll_server_status => Server.poll_server_status GET
  | cb_status_var_set text => modify (Server.set_status_var text)
  | cb_server_status_set text => modify (Server.set_server_status text)
  | cb_append_output text => Server.append_output text
  | cb_set_button_states a b c => Server.set_button_states a b c
  | cb_showerror title message => emit (showerror title message)
  | cb_run_button_config _ | cb_stop_button_config _ => ret tt
  end.

(** The loop runs a handler (a button command, a timer callback) or the
    worker runs beside it: the application is left as the handler leaves
    it, also when it raises (Tk reports the exception and goes on), and
    what it scheduled joins the pending timers. *)
Definition handle (h : M Server.gui unit) (l : loop) : loop :=
  let r := h (app l) in
  mkLoop (final r) (timers l ++ scheduled (trace r))%list.

(** The pending timer at position [i] falls due. *)
Definition fire (i : nat) (l : loop) : loop :=
  match nth_error (timers l) i with
  | Some (_, cb) =>
      handle (run_callback cb)
        (mkLoop (app l) (firstn i (timers l) ++ skipn (S i) (timers l))%list)
  | None => l
  end.

(** The timers pending when [n] were, fall due one after the other, oldest
    first; what they schedule in turn stays pending. *)
Fixpoint drain (n : nat) (l : loop) : loop :=
  match n with
  | O => l
  | S k => drain k (fire 0 l)
  end.

End Loop.

End ServerApp.

Module CliApp.

Import Py.
Local Open Scope py_scope.

(** [setup_ui], as far as the state goes. *)
Definition setup_ui : M Cli.gui unit :=
  modify (Cli.set_run_button NORMAL) ;;
  modify (Cli.set_stop_button DISABLED) ;;
  modify (Cli.set_output_text "") ;;
  modify (Cli.set_status_var "Ready").

(** The variables as [__init__] creates them; the prompt box is empty, for
    which [get(1.0, tk.END)] returns the line end Tk keeps at the end of a
    text. *)
Definition fresh : Cli.gui :=
  Cli.mkGui "" "" (Ret 512) (Ret 0x1.999999999999ap-1%float)
    (Ret 0x1.e666666666666p-1%float) (Ret 40) "" false None nl
    NORMAL NORMAL "" "".

Definition __init__ (e : Os.env) : result unit * Cli.gui * list event :=
  (Cli.detect_llama_binary e ;; setup_ui) fresh.

Record loop : Type := mkLoop {
  app : Cli.gui;
  timers : list (Z * callback)
}.

(** What the event loop runs for a callback of the inference worker (those
    of the server application are never scheduled here). *)
Definition run_callback (cb : callback) : M Cli.gui unit :=
  match cb with
  | cb_status_var_set text => modify (Cli.set_status_var text)
  | cb_append_output text => Cli.append_output text
  | cb_run_button_config state => modify (Cli.set_run_button state)
  | cb_stop_button_config state => modify (Cli.set_stop_button state)
  | cb_showerror title message => emit (showerror title message)
  | _ => ret tt
  end.

Definition handle (h : M Cli.gui unit) (l : loop) : loop :=
  let r := h (app l) in
  mkLoop (final r) (timers l ++ scheduled (trace r))%list.

Definition fire (i : nat) (l : loop) : loop :=
  match nth_error (timers l) i with
  | Some (_, cb) =>
      handle (run_callback cb)
        (mkLoop (app l) (firstn i (timers l) ++ skipn (S i) (timers l))%list)
  | None => l
  end.

Fixpoint drain (n : nat) (l : loop) : loop :=
  match n with
  | O => l
  | S k => drain k (fire 0 l)
  end.

End CliApp.

(* ================================================================== *)
(** ** The vocabulary of the further statements *)

(** A computation that leaves the part [f] of the state as it finds it,
    also when it raises. *)
Definition keeps {St A X} (f : St -> X) (m : M St A) : Prop :=
  forall s, f (final (m s)) = f s.

(** The Tk side of the server application: everything but [is_running] and
    [process]. *)
Definition server_tk (g : Server.gui) :=
  (Server.server_binary g, Server.model_path g, Server.host g, Server.port g,
   Server.temperature g, Server.context_size g, Server.threads g,
   Server.endpoint_url g, Server.server_status g, Server.current_model g,
   Server.start_button g, Server.stop_button g, Server.apply_button g,
   Server.output_text g, Server.status_var g).

Definition cli_tk (g : Cli.gui) :=
  (Cli.model_path g, Cli.prompt_text g, Cli.max_tokens g, Cli.temperature g,
   Cli.top_p g, Cli.top_k g, Cli.llama_binary g, Cli.prompt_entry g,
   Cli.run_button g, Cli.stop_button g, Cli.output_text g, Cli.status_var g).

(** The form of the server application: what the user enters, and the
    endpoint derived from it. *)
Definition server_form (g : Server.gui) :=
  (Server.server_binary g, Server.model_path g, Server.host g, Server.port g,
   Server.temperature g, Server.context_size g, Server.threads g,
   Server.endpoint_url g).

(** All of the server application but the two labels of the monitor. *)
Definition server_but_labels (g : Server.gui) :=
  (server_form g, Server.is_running g, Server.process g,
   Server.start_button g, Server.stop_button g, Server.apply_button g,
   Server.output_text g, Server.status_var g).

(** The status the worker reads off the handle once the child has exited. *)
Definition waited_status (p : Popen) : Z :=
  match returncode p with Some rc => rc | None => exit_status p end.

(** What the worker hands to the event loop for each line of output. *)
Definition relayed (lines : list string) : list event :=
  map (fun line => root_after 0 (cb_append_output line)) lines.

(** The two calls with which the server worker starts, and the two with
    which it ends. *)
Definition server_launch_notes (cmd : list string) : list event :=
  [ root_after 0 (cb_status_var_set "Launching llama.cpp server...");
    root_after 0 (cb_append_output
                    ("Command: " ++ Py.join " " cmd ++ Py.nl ++ Py.nl)) ].

Definition server_cleanup_notes : list event :=
  [ root_after 0 (cb_set_button_states NORMAL DISABLED NORMAL);
    root_after 0 (cb_server_status_set "Stopped") ].

(** How the server worker reports the exit status [rc]. *)
Definition server_exit_notes (running : bool) (rc : Z) : list event :=
  if rc =? 0
  then if running
       then [root_after 0 (cb_status_var_set "Server exited normally.")]
       else []
  else [root_after 0 (cb_status_var_set
                        ("Server exited with code " ++ Py.str_int rc ++ "."))].

Definition cli_launch_notes (cmd : list string) : list event :=
  [ root_after 0 (cb_status_var_set "Running inference...");
    root_after 0 (cb_append_output
                    ("Command: " ++ Py.join " " cmd ++ Py.nl ++ Py.nl)) ].

Definition cli_cleanup_notes : list event :=
  [ root_after 0 (cb_run_button_config NORMAL);
    root_after 0 (cb_stop_button_config DISABLED) ].

Definition cli_exit_notes (rc : Z) : list event :=
  if rc =? 0
  then [ root_after 0 (cb_status_var_set "Inference completed successfully");
         root_after 0 (cb_append_output
                         (Py.nl ++ Py.nl
                          ++ "=== Inference completed successfully ===" ++ Py.nl)) ]
  else [ root_after 0 (cb_status_var_set
                         ("Inference failed with code " ++ Py.str_int rc));
         root_after 0 (cb_append_output
                         (Py.nl ++ Py.nl ++ "=== Inference failed with exit code "
                          ++ Py.str_int rc ++ " ===" ++ Py.nl)) ].

(** The application once its worker has come to its end. *)
Definition server_worker_done (g : Server.gui) : Server.gui :=
  Server.set_process None (Server.set_is_running false g).

Definition cli_worker_done (g : Cli.gui) : Cli.gui :=
  Cli.set_process None (Cli.set_is_running false g).

(** The exception on which the loop of a worker over the child's output
    ends, if it does: that of the read that fails.  That read comes after
    the [lines] were relayed or, with [is_running] false, is the very first
    one (a first line that is read ends the loop there). *)
Definition relay_error (running : bool) (lines : list string)
    (broken : option Py.exn) : option Py.exn :=
  if running then broken
  else match lines with [] => broken | _ :: _ => None end.

(** The exception with which reading the numeric fields for the command
    line fails, if it does: that of the first field, in the order in which
    the fields are read, whose [get()] raises. *)
Definition first_raise {A} (v : result A) (others : option Py.exn)
    : option Py.exn :=
  match v with Raise error => Some error | Ret _ => others end.

Definition server_unread (g : Server.gui) : option Py.exn :=
  first_raise (Server.port g)
    (first_raise (Server.temperature g)
       (first_raise (Server.context_size g)
          (first_raise (Server.threads g) None))).

Definition cli_unread (g : Cli.gui) : option Py.exn :=
  first_raise (Cli.max_tokens g)
    (first_raise (Cli.temperature g)
       (first_raise (Cli.top_p g)
          (first_raise (Cli.top_k g) None))).

(** What the workers hand to the event loop when the command cannot be
    built or spawned, by the exception [ex], for the program [binary]. *)
Definition server_failure_notes (binary : string) (ex : Py.exn) : list event :=
  if Py.isinstance ex Py.FileNotFoundError
  then [ root_after 0 (cb_showerror "Error" ("Binary not found: " ++ binary));
         root_after 0 (cb_status_var_set "Error: Binary not found") ]
  else [ root_after 0 (cb_showerror "Error"
                         ("Failed to start server: " ++ Py.msg ex));
         root_after 0 (cb_status_var_set ("Error: " ++ Py.msg ex)) ].

Definition cli_failure_notes (binary : string) (ex : Py.exn) : list event :=
  if Py.isinstance ex Py.FileNotFoundError
  then [ root_after 0 (cb_showerror "Error" ("Binary not found: " ++ binary));
         root_after 0 (cb_status_var_set "Error: Binary not found") ]
  else [ root_after 0 (cb_showerror "Error"
                         ("Failed to run inference: " ++ Py.msg ex));
         root_after 0 (cb_status_var_set ("Error: " ++ Py.msg ex)) ].

(** A call a worker may make: handing a callback to the event loop for
    immediate execution, spawning the child, waiting for it. *)
Definition marshalled (ev : event) : Prop :=
  match ev with
  | root_after 0 _ | popen _ | wait None => True
  | _ => False
  end.

Module MoreExamples.

Import Py.

(** A child whose second line of output does not decode. *)
Definition garbling : Popen :=
  mkPopen None ["loading"]
    (Some (mkExn UnicodeDecodeError
             "'utf-8' codec can't decode byte 0xff in position 0: invalid start byte"))
    0 (Some (-15)) (Some (-9)).

Definition spawn_garbling (cmd : list string) : result Popen := Ret garbling.

(** The server application right after a start request went through. *)
Definition server_starting : Server.gui := server_started Examples.server_ready.

Definition cli_starting : Cli.gui := cli_started Examples.cli_ready.

(** The binary has gone between validation and spawn. *)
Definition binary_gone (cmd : list string) : result Popen :=
  Raise (mkExn FileNotFoundError
           "[Errno 2] No such file or directory: '/usr/bin/llama-server'").

(** The file is there but may not be executed. *)
Definition not_permitted (cmd : list string) : result Popen :=
  Raise (mkExn PermissionError "[Errno 13] Permission denied").

(** A start went through with [4k] typed as the context size; and, in the
    inference application, with [1e400] typed as top-k. *)
Definition server_bad_context : Server.gui :=
  Server.mkGui "/usr/bin/llama-server" "/models/m.gguf" "127.0.0.1" (Ret 8080)
    (Ret 0.5%float) (Raise (Examples.not_a_number "4k")) (Ret 8)
    "http://127.0.0.1:8080/v1"
    "Starting..." Server.Unknown true None DISABLED NORMAL NORMAL "" "".

Definition cli_bad_top_k : Cli.gui :=
  Cli.mkGui "/models/m.gguf" "" (Ret 512) (Ret 0.5%float) (Ret 0.75%float)
    (Raise Examples.too_large) "/usr/bin/llama-cli" true None "Hello"
    DISABLED NORMAL "" "Ready".

End MoreExamples.

(** A callback that only writes to the interface or opens a dialog: it
    schedules nothing in turn. *)
Definition plain (cb : callback) : bool :=
  match cb with
  | cb_restart_server_after_stop _ | cb_poll_server_status => false
  | _ => true
  end.

(** The number of polling ticks among the pending timers. *)
Definition pending_polls (ts : list (Z * callback)) : nat :=
  length (filter (fun t => match snd t with
                           | cb_poll_server_status => true
                           | _ => false
                           end) ts).

(** The server application as it shows once a run of the worker is over and
    the event loop has run what the worker handed to it: the output area
    holds the command line and then the child's lines; the status bar says
    how the child exited or, when a read of its output failed, gives the
    error. *)
Definition server_shown (g : Server.gui) (cmd : list string) (p : Popen)
    : Server.gui :=
  Server.set_server_status "Stopped"
    (Server.set_buttons NORMAL DISABLED NORMAL
       (Server.set_status_var
          (match stdout_error p with
           | None =>
               if waited_status p =? 0 then "Server exited normally."
               else "Server exited with code " ++ Py.str_int (waited_status p) ++ "."
           | Some error =>
               if Py.isinstance error Py.FileNotFoundError
               then "Error: Binary not found"
               else "Error: " ++ Py.msg error
           end)
          (Server.set_output_text
             (Server.output_text g
              ++ ("Command: " ++ Py.join " " cmd ++ Py.nl ++ Py.nl)
              ++ Py.join "" (stdout p))
             (server_worker_done g)))).

(** The host and the port that go into the endpoint: a blank host stands for
    the loopback address, a port that is out of range for 8080, as does one
    that cannot be read. *)
Definition endpoint_host (host : string) : string :=
  if Py.truthy (Py.strip host) then Py.strip host else "127.0.0.1".

Definition endpoint_port (port : result Z) : Z :=
  match port with
  | Ret p => if (p <? 1) || (p >? 65535) then 8080 else p
  | Raise _ => 8080
  end.

(** Reading the port gives a number, or fails with the exception that
    [update_endpoint_url] catches. *)
Definition port_read (port : result Z) : bool :=
  match port with
  | Ret _ => true
  | Raise error => Py.caught_by [Py.TclError] error
  end.

(** The endpoint up to its path: scheme, host and port. *)
Definition authority (g : Server.gui) : string :=
  "http://" ++ endpoint_host (Server.host g) ++ ":"
  ++ Py.str_int (endpoint_port (Server.port g)).

(** The endpoint field shows what the host and port fields give. *)
Definition endpoint_tracks_form (g : Server.gui) : Prop :=
  Server.endpoint_url g = authority g ++ "/v1".

(** All of the server application but the endpoint field. *)
Definition server_but_endpoint (g : Server.gui) :=
  (Server.server_binary g, Server.model_path g, Server.host g, Server.port g,
   Server.temperature g, Server.context_size g, Server.threads g,
   Server.server_status g, Server.current_model g,
   Server.is_running g, Server.process g,
   Server.start_button g, Server.stop_button g, Server.apply_button g,
   Server.output_text g, Server.status_var g).

Definition server_endpoint_part (g : Server.gui) :=
  (Server.host g, Server.port g, Server.endpoint_url g).

(** [old in s] *)
Fixpoint occurs (old s : string) : bool :=
  String.prefix old s
  || match s with
     | EmptyString => false
     | String _ r => occurs old r
     end.

(** The server application as the constructor leaves it on a host where the
    locator comes to [binary]. *)
Definition server_constructed (binary : string) : Server.gui :=
  Server.mkGui binary "" "127.0.0.1" (Ret 8080) (Ret 0x1.999999999999ap-1%float)
    (Ret 4096) (Ret 8) "http://127.0.0.1:8080/v1" "Stopped" Server.Unknown
    false None NORMAL DISABLED NORMAL "" "Ready to start server.".

Definition cli_constructed (binary : string) : Cli.gui :=
  Cli.mkGui "" "" (Ret 512) (Ret 0x1.999999999999ap-1%float)
    (Ret 0x1.e666666666666p-1%float) (Ret 40) binary false None Py.nl
    NORMAL DISABLED "" "Ready".

Module UrlExamples.

(** The server form with a host that begins with [v1]. *)
Definition server_v1_host : Server.gui :=
  Server.mkGui "/usr/bin/llama-server" "/models/m.gguf" "v1.example.org" (Ret 8080)
    (Ret 0.5%float) (Ret 4096) (Ret 8) "http://v1.example.org:8080/v1"
    "Stopped" Server.Unknown false None NORMAL DISABLED NORMAL
    "" "Ready to start server.".

End UrlExamples.

Module PollExamples.

Import Py.

(** The health request is answered by 204. *)
Definition no_content (url : string) : Server.reply :=
  Server.Response 204 (Ret Json.JNull).

(** A server with no model loaded: the listing has an empty [data]. *)
Definition no_models (url : string) : Server.reply :=
  if String.eqb url "http://127.0.0.1:8080/health"
  then Server.Response 200 (Ret Json.JNull)
  else Server.Response 200
         (Ret (Json.JObj [("object", Json.JStr "list"); ("data", Json.JArr [])])).

(** The server application with the endpoint emptied. *)
Definition server_no_endpoint : Server.gui :=
  Server.set_endpoint_url "  " Examples.server_ready.

End PollExamples.

(** The server application once Stop has gone through on the child [p]. *)
Definition server_stopped (g : Server.gui) (p : Popen) : Server.gui :=
  Server.set_server_status "Stopped"
    (Server.set_buttons NORMAL DISABLED NORMAL
       (Server.set_output_text
          (Server.output_text g
           ++ Py.nl ++ Py.nl ++ "=== Server stopped by user ===" ++ Py.nl)
          (Server.set_status_var "Server stopped by user."
             (Server.set_process (Some (after_stop p))
                (Server.set_is_running false g))))).

Definition restart_question : event :=
  askyesno "Restart Server" "Apply settings by restarting the server now?".

Definition restart_check : event :=
  root_after 100 (cb_restart_server_after_stop 100).

Module LocatorExamples.

(** A Unix host without [PATH], started in a directory that holds both
    programs, executable. *)
Definition in_bin_directory : Os.env :=
  Os.mkEnv false
    (fun _ => None)
    (fun p => String.eqb p "llama-cli" || String.eqb p "llama-server")
    (fun p => String.eqb p "llama-cli" || String.eqb p "llama-server")
    (fun p => String.eqb p "llama-cli" || String.eqb p "llama-server")
    (fun _ => None)
    (fun p => "/opt/llama/bin/" ++ p).

End LocatorExamples.

(** A text of white space only (or empty). *)
Fixpoint all_space (s : string) : bool :=
  match s with
  | EmptyString => true
  | String c r => Py.isspace c && all_space r
  end.

(** A text that is not empty and neither begins nor ends with white space. *)
Definition unpadded (s : string) : bool :=
  match s, Os.last_char s with
  | String c _, Some d => negb (Py.isspace c) && negb (Py.isspace d)
  | _, _ => false
  end.

Module FormExamples.

Import Py.

(** The server form with a host of a blank and a tab. *)
Definition server_blank_host : Server.gui :=
  ServerApp.set_host (String " " (String (ascii_of_nat 9) "")) Examples.server_ready.

End FormExamples.

(** The name of a directory: not empty, and without a separator or the colon
    of a drive. *)
Definition name_char (c : ascii) : bool :=
  negb (Ascii.eqb c "\" || Ascii.eqb c "/" || Ascii.eqb c ":").

Fixpoint name_chars (s : string) : bool :=
  match s with
  | EmptyString => true
  | String c r => name_char c && name_chars r
  end.

Definition dir_name (s : string) : bool := Py.truthy s && name_chars s.

(** [path] lies [k + 1] directories below [base]: it is [base] followed by a
    relative part with [k] separators that ends in a name. *)
Definition level (e : Os.env) (base : string) (k : Z) (path : string) : Prop :=
  exists rest d,
    path = base ++ rest
    /\ Os.drop_seps e rest <> ""
    /\ Py.count (Os.sep e) (Os.drop_seps e rest) = k
    /\ Os.last_char path = Some d /\ name_char d = true.

(* ================================================================== *)
(** * Theorems *)


(* ================================================================== *)
(** ** Stopping the child *)

Lemma server_stop_active (g : Server.gui) (p : Popen) :
  Server.process g = Some p -> Server.is_running g = true ->
  Server.stop_server g =
    (Ret tt,
     Server.set_server_status "Stopped"
       (Server.set_buttons NORMAL DISABLED NORMAL
          (Server.set_output_text
             (Server.output_text g
              ++ Py.nl ++ Py.nl ++ "=== Server stopped by user ===" ++ Py.nl)
             (Server.set_status_var "Server stopped by user."
                (Server.set_process (Some (after_stop p))
                   (Server.set_is_running false g))))),
     stop_trace p).
Proof.
  intros Hp Hr. destruct g; simpl in *; subst.
  destruct p as [rc out oe st ot rk].
  unfold Server.stop_server, stop_trace, exits_in_grace, after_stop.
  destruct rc as [rc|]; [reflexivity|].
  destruct ot as [t|]; reflexivity.
Qed.

Lemma cli_stop_active (g : Cli.gui) (p : Popen) :
  Cli.process g = Some p -> Cli.is_running g = true ->
  Cli.stop_inference g =
    (Ret tt,
     Cli.set_stop_button DISABLED
       (Cli.set_run_button NORMAL
          (Cli.set_output_text
             (Cli.output_text g
              ++ Py.nl ++ Py.nl ++ "=== Inference stopped by user ===" ++ Py.nl)
             (Cli.set_status_var "Inference stopped by user"
                (Cli.set_process (Some (after_stop p))
                   (Cli.set_is_running false g))))),
     stop_trace p).
Proof.
  intros Hp Hr. destruct g; simpl in *; subst.
  destruct p as [rc out oe st ot rk].
  unfold Cli.stop_inference, stop_trace, exits_in_grace, after_stop.
  destruct rc as [rc|]; [reflexivity|].
  destruct ot as [t|]; reflexivity.
Qed.

(** C5.  A Stop request with an active child asks the child to terminate,
    waits at most 5 seconds, and kills it exactly when it has not exited by
    then; on both paths the method returns with the application stopped:
    [is_running] is false, the status line says the user stopped it, the
    start button is enabled and the stop button disabled (and, for the
    server, the server status reads "Stopped"). *)
Theorem stop_terminates_waits_then_kills :
  (forall (g : Server.gui) (p : Popen),
      Server.process g = Some p -> Server.is_running g = true ->
      let r := Server.stop_server g in
      outcome r = Ret tt
      /\ trace r = terminate :: wait (Some 5)
                     :: (if exits_in_grace p then [] else [kill])
      /\ Server.is_running (final r) = false
      /\ Server.server_status (final r) = "Stopped"
      /\ Server.status_var (final r) = "Server stopped by user."
      /\ Server.start_button (final r) = NORMAL
      /\ Server.stop_button (final r) = DISABLED
      /\ Server.apply_button (final r) = NORMAL)
  /\
  (forall (g : Cli.gui) (p : Popen),
      Cli.process g = Some p -> Cli.is_running g = true ->
      let r := Cli.stop_inference g in
      outcome r = Ret tt
      /\ trace r = terminate :: wait (Some 5)
                     :: (if exits_in_grace p then [] else [kill])
      /\ Cli.is_running (final r) = false
      /\ Cli.status_var (final r) = "Inference stopped by user"
      /\ Cli.run_button (final r) = NORMAL
      /\ Cli.stop_button (final r) = DISABLED).
Proof.
  split; intros g p Hp Hr r; subst r.
  - rewrite (server_stop_active g p Hp Hr). repeat split.
  - rewrite (cli_stop_active g p Hp Hr). repeat split.
Qed.

Lemma stop_terminates_waits_then_kills_witness :
  trace (Server.stop_server (Examples.server_running Examples.stubborn))
    = [terminate; wait (Some 5); kill]
  /\ trace (Cli.stop_inference (Examples.cli_running Examples.child))
    = [terminate; wait (Some 5)].
Proof.
  split.
  - exact (proj1 (proj2 (proj1 stop_terminates_waits_then_kills
             (Examples.server_running Examples.stubborn) Examples.stubborn
             eq_refl eq_refl))).
  - exact (proj1 (proj2 (proj2 stop_terminates_waits_then_kills
             (Examples.cli_running Examples.child) Examples.child
             eq_refl eq_refl))).
Defined.

Lemma stop_noop_server :
  (forall g : Server.gui,
      Server.process g = None \/ Server.is_running g = false ->
      Server.stop_server g = (Ret tt, g, [])).
Proof.
  intros g [H | H].
  - unfold Server.stop_server, bind, get. simpl. rewrite H. reflexivity.
  - unfold Server.stop_server, bind, get. simpl. rewrite H.
    destruct (Server.process g); reflexivity.
Qed.

(** C10.  Without an active child (no process handle, or [is_running]
    false) Stop does nothing: it makes no call at all, in particular none
    to terminate, and leaves every field of the application as it was. *)
Theorem stop_without_child_is_noop :
  (forall g : Server.gui,
      Server.process g = None \/ Server.is_running g = false ->
      Server.stop_server g = (Ret tt, g, []))
  /\
  (forall g : Cli.gui,
      Cli.process g = None \/ Cli.is_running g = false ->
      Cli.stop_inference g = (Ret tt, g, [])).
Proof.
  split; [exact stop_noop_server|]. intros g [H | H].
  - unfold Cli.stop_inference, bind, get. simpl. rewrite H. reflexivity.
  - unfold Cli.stop_inference, bind, get. simpl. rewrite H.
    destruct (Cli.process g); reflexivity.
Qed.

Lemma stop_without_child_is_noop_witness :
  Server.stop_server Examples.server_ready = (Ret tt, Examples.server_ready, [])
  /\ Cli.stop_inference Examples.cli_ready = (Ret tt, Examples.cli_ready, []).
Proof.
  split.
  - exact (proj1 stop_without_child_is_noop Examples.server_ready
             (or_introl eq_refl)).
  - exact (proj2 stop_without_child_is_noop Examples.cli_ready
             (or_introl eq_refl)).
Defined.

(* ================================================================== *)
(** ** Validation and starting *)

Ltac rejected :=
  eexists; split;
  [reflexivity | split; [discriminate | intros _; eexists; reflexivity]].
Ltac accepted :=
  eexists; split; [reflexivity | split; [reflexivity | discriminate]].

Lemma server_validate_cases (e : Os.env) (g : Server.gui) :
  (exists t,
      Server.validate_inputs e g = (Ret (server_inputs_valid e g), g, t)
      /\ (server_inputs_valid e g = true -> t = [])
      /\ (server_inputs_valid e g = false -> exists m, t = [showerror "Error" m]))
  \/ (exists error,
         Server.port g = Raise error
         /\ Py.caught_by [Py.TclError; Py.ValueError] error = false
         /\ server_inputs_valid e g = false
         /\ Server.validate_inputs e g = (Raise error, g, [])).
Proof.
  unfold Server.validate_inputs, server_inputs_valid, bind, get, try_except,
    Server.Var_get, lift, emit, ret, raise.
  cbn [fst snd].
  destruct (Py.truthy (Server.server_binary g)); cbn [negb orb andb];
    [|left; rejected].
  destruct (String.eqb (Server.server_binary g) Server.sentinel); cbn [negb orb andb];
    [left; rejected|].
  destruct (Os.isfile e (Server.server_binary g)); cbn [negb orb andb];
    [|left; rejected].
  destruct (Py.truthy (Server.model_path g)); cbn [negb orb andb];
    [|left; rejected].
  destruct (Os.isfile e (Server.model_path g)); cbn [negb orb andb];
    [|left; rejected].
  destruct (Py.truthy (Py.strip (Server.host g))); cbn [negb orb andb];
    [|left; rejected].
  destruct (Server.port g) as [port|error].
  - left.
    destruct (Z.ltb_spec port 1), (Z.gtb_spec port 65535),
      (Z.leb_spec 1 port), (Z.leb_spec port 65535); try lia; cbn;
      (rejected || accepted).
  - destruct (Py.caught_by [Py.TclError; Py.ValueError] error) eqn:Hc.
    + left. rejected.
    + right. exists error. repeat split. exact Hc.
Qed.

Lemma server_validate_spec (e : Os.env) (g : Server.gui) :
  port_handled g = true ->
  exists t,
    Server.validate_inputs e g = (Ret (server_inputs_valid e g), g, t)
    /\ (server_inputs_valid e g = true -> t = [])
    /\ (server_inputs_valid e g = false -> exists m, t = [showerror "Error" m]).
Proof.
  intros Hp. destruct (server_validate_cases e g) as [H | (error & Hg & Hc & _)];
    [exact H|].
  unfold port_handled in Hp. rewrite Hg, Hc in Hp. discriminate Hp.
Qed.

Lemma valid_port_handled (e : Os.env) (g : Server.gui) :
  server_inputs_valid e g = true -> port_handled g = true.
Proof.
  unfold server_inputs_valid, port_handled.
  destruct (Server.port g); [reflexivity|].
  rewrite andb_false_r. discriminate.
Qed.

Lemma cli_validate_spec (e : Os.env) (g : Cli.gui) :
  exists t,
    Cli.validate_inputs e g = (Ret (cli_inputs_valid e g), g, t)
    /\ (cli_inputs_valid e g = true -> t = [])
    /\ (cli_inputs_valid e g = false -> exists m, t = [showerror "Error" m]).
Proof.
  unfold Cli.validate_inputs, cli_inputs_valid, bind, get, emit, ret.
  cbn [fst snd].
  destruct (Py.truthy (Cli.llama_binary g)); cbn [negb orb andb];
    [|rejected].
  destruct (String.eqb (Cli.llama_binary g) Cli.sentinel); cbn [negb orb andb];
    [rejected|].
  destruct (Os.isfile e (Cli.llama_binary g)); cbn [negb orb andb];
    [|rejected].
  destruct (Py.truthy (Cli.model_path g)); cbn [negb orb andb];
    [|rejected].
  destruct (Os.isfile e (Cli.model_path g)); cbn [negb orb andb];
    [|rejected].
  destruct (Py.truthy (Py.strip (Cli.prompt_entry g))); cbn [negb orb andb];
    (rejected || accepted).
Qed.

(** What a start request does, by cases. *)
Lemma server_start_spec (e : Os.env) (g : Server.gui) :
  (server_inputs_valid e g = false -> port_handled g = true ->
     exists m, Server.start_server e g = (Ret tt, g, [showerror "Error" m]))
  /\ (server_inputs_valid e g = true -> Server.is_running g = true ->
        Server.start_server e g
        = (Ret tt, g, [showwarning "Warning" "Server is already running."]))
  /\ (server_inputs_valid e g = true -> Server.is_running g = false ->
        Server.start_server e g
        = (Ret tt, server_started g, [thread_start "_run_server_thread"])).
Proof.
  assert (Hok : port_handled g = true ->
                exists t,
                  Server.validate_inputs e g = (Ret (server_inputs_valid e g), g, t)
                  /\ (server_inputs_valid e g = true -> t = [])
                  /\ (server_inputs_valid e g = false ->
                      exists m, t = [showerror "Error" m]))
    by apply server_validate_spec.
  unfold Server.start_server, bind.
  split; [|split].
  - intros Hval Hp. destruct (Hok Hp) as (t & Hv & _ & Hf). rewrite Hv, Hval.
    destruct (Hf Hval) as [m ->]. exists m. reflexivity.
  - intros Hval Hr. destruct (Hok (valid_port_handled e g Hval)) as (t & Hv & Ht & _).
    rewrite Hv, Hval, (Ht Hval). unfold get, emit. cbn. rewrite Hr. reflexivity.
  - intros Hval Hr. destruct (Hok (valid_port_handled e g Hval)) as (t & Hv & Ht & _).
    rewrite Hv, Hval, (Ht Hval). unfold get. cbn. rewrite Hr. reflexivity.
Qed.

(** A port whose reading raises what validation does not catch: the
    exception ends the start request. *)
Lemma server_start_escapes (e : Os.env) (g : Server.gui) :
  port_handled g = false ->
  server_inputs_valid e g = false
  /\ ((exists m, Server.start_server e g = (Ret tt, g, [showerror "Error" m]))
      \/ (exists error,
            Server.port g = Raise error
            /\ Server.start_server e g = (Raise error, g, []))).
Proof.
  intros Hp.
  destruct (server_validate_cases e g) as [(t & Hv & _ & Hf) | (error & Hg & Hc & Hval & Hv)].
  - assert (Hval : server_inputs_valid e g = false).
    { destruct (server_inputs_valid e g) eqn:Hval; [|reflexivity].
      rewrite (valid_port_handled e g Hval) in Hp. discriminate Hp. }
    split; [exact Hval|]. left.
    unfold Server.start_server, bind. rewrite Hv, Hval.
    destruct (Hf Hval) as [m ->]. exists m. reflexivity.
  - split; [exact Hval|]. right. exists error. split; [exact Hg|].
    unfold Server.start_server, bind. rewrite Hv. reflexivity.
Qed.


Lemma cli_start_spec (e : Os.env) (g : Cli.gui) :
  (cli_inputs_valid e g = false ->
     exists m, Cli.run_inference e g = (Ret tt, g, [showerror "Error" m]))
  /\ (cli_inputs_valid e g = true -> Cli.is_running g = true ->
        Cli.run_inference e g
        = (Ret tt, g, [showwarning "Warning" "Inference is already running."]))
  /\ (cli_inputs_valid e g = true -> Cli.is_running g = false ->
        Cli.run_inference e g
        = (Ret tt, cli_started g, [thread_start "_run_inference_thread"])).
Proof.
  destruct (cli_validate_spec e g) as (t & Hv & Ht & Hf).
  unfold Cli.run_inference, bind. rewrite Hv.
  repeat split; intros Hval; rewrite Hval in *; cbn [negb].
  - destruct (Hf eq_refl) as [m ->]. exists m. reflexivity.
  - intros Hr. rewrite (Ht eq_refl). unfold get, emit. cbn. rewrite Hr. reflexivity.
  - intros Hr. rewrite (Ht eq_refl). unfold get. cbn. rewrite Hr. reflexivity.
Qed.

(** C4, as amended.  Validation passes exactly when the binary field is not
    empty, is not the not-found sentinel and names an existing file, the
    model field is not empty and names an existing file, and: for the
    server, the host is not empty once stripped and the port is an integer
    in [1, 65535]; for the inference application, the prompt is not empty
    once stripped.  A launch (the worker thread) is started exactly when
    validation passes and no child is running, and validation never changes
    the application.  When validation fails, one error dialog is shown,
    nothing is launched and the application is left as it was; for the
    server this last part is stated for a port field whose reading gives a
    number or raises what validation catches ([TclError], [ValueError]). *)
Theorem launch_iff_inputs_valid_and_idle :
  (forall (e : Os.env) (g : Server.gui),
      (outcome (Server.validate_inputs e g) = Ret true
       <-> server_inputs_valid e g = true)
      /\ final (Server.validate_inputs e g) = g
      /\ (In (thread_start "_run_server_thread") (trace (Server.start_server e g))
          <-> server_inputs_valid e g = true /\ Server.is_running g = false)
      /\ (port_handled g = true ->
          outcome (Server.validate_inputs e g) = Ret (server_inputs_valid e g)
          /\ (server_inputs_valid e g = false ->
              exists m, Server.start_server e g = (Ret tt, g, [showerror "Error" m]))))
  /\
  (forall (e : Os.env) (g : Cli.gui),
      outcome (Cli.validate_inputs e g) = Ret (cli_inputs_valid e g)
      /\ final (Cli.validate_inputs e g) = g
      /\ (In (thread_start "_run_inference_thread") (trace (Cli.run_inference e g))
          <-> cli_inputs_valid e g = true /\ Cli.is_running g = false)
      /\ (cli_inputs_valid e g = false ->
          exists m, Cli.run_inference e g = (Ret tt, g, [showerror "Error" m]))).
Proof.
  split; intros e g.
  - destruct (server_start_spec e g) as (Hbad & Hbusy & Hgo).
    split; [|split; [|split; [split|]]].
    + destruct (server_validate_cases e g)
        as [(t & -> & _) | (error & _ & _ & Hval & ->)]; cbn [outcome fst].
      * split; [intros H; inversion H; reflexivity|intros ->; reflexivity].
      * rewrite Hval. split; discriminate.
    + destruct (server_validate_cases e g) as [(t & -> & _) | (error & _ & _ & _ & ->)];
        reflexivity.
    + intros Hin.
      destruct (server_inputs_valid e g) eqn:Hval.
      * destruct (Server.is_running g) eqn:Hr; [|auto].
        rewrite (Hbusy eq_refl eq_refl) in Hin.
        destruct Hin as [Hin | []]. discriminate Hin.
      * destruct (port_handled g) eqn:Hp.
        -- destruct (Hbad eq_refl eq_refl) as [m Hm]. rewrite Hm in Hin.
           destruct Hin as [Hin | []]. discriminate Hin.
        -- destruct (server_start_escapes e g Hp) as [_ [[m Hm] | (error & _ & Hm)]];
             rewrite Hm in Hin; [destruct Hin as [Hin | []]; discriminate Hin
                                |destruct Hin].
    + intros [Hval Hr]. rewrite (Hgo Hval Hr). left. reflexivity.
    + intros Hp. destruct (server_validate_spec e g Hp) as (t & -> & _).
      split; [reflexivity|]. intros Hval. exact (Hbad Hval Hp).
  - destruct (cli_validate_spec e g) as (t & Hv & _).
    destruct (cli_start_spec e g) as (Hbad & Hbusy & Hgo).
    rewrite Hv.
    split; [reflexivity|]. split; [reflexivity|]. split; [split|].
    + intros Hin.
      destruct (cli_inputs_valid e g) eqn:Hval.
      * destruct (Cli.is_running g) eqn:Hr; [|auto].
        rewrite (Hbusy eq_refl eq_refl) in Hin.
        destruct Hin as [Hin | []]. discriminate Hin.
      * destruct (Hbad eq_refl) as [m Hm]. rewrite Hm in Hin.
        destruct Hin as [Hin | []]. discriminate Hin.
    + intros [Hval Hr]. rewrite (Hgo Hval Hr). left. reflexivity.
    + exact Hbad.
Qed.

Lemma launch_iff_inputs_valid_and_idle_witness :
  In (thread_start "_run_server_thread")
     (trace (Server.start_server Examples.unix Examples.server_ready))
  /\ In (thread_start "_run_inference_thread")
        (trace (Cli.run_inference Examples.unix Examples.cli_ready))
  /\ (exists m, Cli.run_inference Examples.unix Examples.cli_blank_prompt
                = (Ret tt, Examples.cli_blank_prompt, [showerror "Error" m]))
  /\ (exists m, Server.start_server Examples.unix Examples.server_port_abc
                = (Ret tt, Examples.server_port_abc, [showerror "Error" m])).
Proof.
  split; [|split; [|split]].
  - apply (proj1 launch_iff_inputs_valid_and_idle Examples.unix Examples.server_ready).
    split; reflexivity.
  - apply (proj2 launch_iff_inputs_valid_and_idle Examples.unix Examples.cli_ready).
    split; reflexivity.
  - apply (proj2 launch_iff_inputs_valid_and_idle Examples.unix Examples.cli_blank_prompt).
    reflexivity.
  - exact (proj2 (proj2 (proj2 (proj2 (proj1 launch_iff_inputs_valid_and_idle
                                         Examples.unix Examples.server_port_abc)))
                    eq_refl) eq_refl).
Defined.

(** C4 as stated fails: in the inference application the binary and the
    model satisfy every condition the claim lists, yet validation fails and
    nothing is launched, because the prompt is blank. *)
Lemma launch_claim_fails_on_blank_prompt :
  let g := Examples.cli_blank_prompt in
  (Py.truthy (Cli.llama_binary g)
   && negb (String.eqb (Cli.llama_binary g) Cli.sentinel)
   && Os.isfile Examples.unix (Cli.llama_binary g)
   && Py.truthy (Cli.model_path g)
   && Os.isfile Examples.unix (Cli.model_path g)) = true
  /\ Cli.validate_inputs Examples.unix g
     = (Ret false, g, [showerror "Error" "Please enter a prompt."])
  /\ Cli.run_inference Examples.unix g
     = (Ret tt, g, [showerror "Error" "Please enter a prompt."]).
Proof. vm_compute. repeat split. Qed.









(* ================================================================== *)
(** ** Restart with Settings *)


Lemma restart_check_spec (e : Os.env) (delay_ms : option Z) (g : Server.gui) :
  Server._restart_server_after_stop e delay_ms g
  = if restart_ready g then Server.start_server e g
    else let d := match delay_ms with
                  | None => Server.RESTART_POLL_DELAY_MS
                  | Some d => d
                  end in
         (Ret tt, g, [root_after d (cb_restart_server_after_stop d)]).
Proof.
  unfold Server._restart_server_after_stop, restart_ready, bind, get.
  cbn [fst snd].
  destruct (Server.is_running g); cbn [negb andb]; [reflexivity|].
  destruct (Server.process g) as [p|]; cbn [app].
  - destruct (poll p).
    + destruct (Server.start_server e g) as [[r s] t]. reflexivity.
    + reflexivity.
  - destruct (Server.start_server e g) as [[r s] t]. reflexivity.
Qed.



(* ================================================================== *)
(** ** The status poller *)

Section Silent.

Context {St : Type}.

Lemma silent_ret {A} (a : A) : all_silent (@ret St A a).
Proof. intros s ev []. Qed.

Lemma silent_raise {A} (e : Py.exn) : all_silent (@raise St A e).
Proof. intros s ev []. Qed.

Lemma silent_lift {A} (r : result A) : all_silent (@lift St A r).
Proof. intros s ev []. Qed.

Lemma silent_get : all_silent (@get St).
Proof. intros s ev []. Qed.

Lemma silent_modify (f : St -> St) : all_silent (modify f).
Proof. intros s ev []. Qed.

Lemma silent_emit (ev : event) : silent ev -> all_silent (@emit St ev).
Proof. intros H s ev' [<- | []]. exact H. Qed.

Lemma silent_bind {A B} (m : M St A) (k : A -> M St B) :
  all_silent m -> (forall a, all_silent (k a)) -> all_silent (bind m k).
Proof.
  intros Hm Hk s ev. unfold bind. specialize (Hm s).
  destruct (m s) as [[[a | e] s1] t1]; cbn [trace snd] in *.
  - specialize (Hk a s1). destruct (k a s1) as [[r s2] t2]. cbn [trace snd] in *.
    intros Hin. apply in_app_or in Hin. destruct Hin; auto.
  - auto.
Qed.

Lemma silent_try_except {A} (body : M St A) classes (handler : Py.exn -> M St A) :
  all_silent body -> (forall e, all_silent (handler e)) ->
  all_silent (try_except body classes handler).
Proof.
  intros Hm Hk s ev. unfold try_except. specialize (Hm s).
  destruct (body s) as [[[a | e] s1] t1]; cbn [trace snd] in *; [auto|].
  destruct (Py.caught_by classes e); [|auto].
  specialize (Hk e s1). destruct (handler e s1) as [[r s2] t2]. cbn [trace snd] in *.
  intros Hin. apply in_app_or in Hin. destruct Hin; auto.
Qed.

End Silent.

Ltac silence :=
  repeat first
    [ apply silent_ret | apply silent_raise | apply silent_lift
    | apply silent_get | apply silent_modify
    | apply silent_emit; exact I
    | apply silent_bind; [|intros]
    | apply silent_try_except; [|intros]
    | match goal with
      | |- all_silent (if ?c then _ else _) => destruct c
      | |- all_silent (match ?x with _ => _ end) => destruct x
      end ].

Lemma poll_is_silent (GET : string -> Server.reply) :
  all_silent (Server.poll_server_status GET).
Proof. unfold Server.poll_server_status. silence. Qed.

Ltac unfold_poll :=
  unfold Server.poll_server_status, bind, get, try_except, modify, emit, ret,
    raise, lift;
  cbn [fst snd].
Ltac step := cbn -[Py.caught_by Py.isinstance].

Lemma poll_online (GET : string -> Server.reply) (g : Server.gui)
    body status members first rest :
  Py.truthy (Py.strip (Server.endpoint_url g)) = true ->
  GET (health_url g) = Server.Response 200 body ->
  GET (models_url g) = Server.Response status (Ret (Json.JObj members)) ->
  Json.lookup "data" members = Some (Json.JArr (Json.JObj first :: rest)) ->
  Server.poll_server_status GET g
  = (Ret tt,
     polled "Online"
       (match Json.lookup "id" first with Some id => id | None => Server.Unknown end) g,
     [urlopen (health_url g) 2; urlopen (models_url g) 2; reschedule]).
Proof.
  unfold health_url, models_url. intros Hb Hh Hm Hd.
  unfold_poll. rewrite Hb. step. rewrite Hh. step. rewrite Hm. step.
  rewrite Hd. step. reflexivity.
Qed.

Lemma poll_offline (GET : string -> Server.reply) (g : Server.gui) ex :
  Py.truthy (Py.strip (Server.endpoint_url g)) = true ->
  GET (health_url g) = Server.Failure ex ->
  Py.caught_by [Py.URLError; Py.ValueError] ex = true ->
  Server.poll_server_status GET g
  = (Ret tt, polled "Offline" Server.Unknown g,
     [urlopen (health_url g) 2; reschedule]).
Proof.
  unfold health_url. intros Hb Hh Hc.
  unfold_poll. rewrite Hb. step. rewrite Hh. step. rewrite Hc. reflexivity.
Qed.

Lemma poll_online_unknown (GET : string -> Server.reply) (g : Server.gui)
    body ex :
  Py.truthy (Py.strip (Server.endpoint_url g)) = true ->
  GET (health_url g) = Server.Response 200 body ->
  (GET (models_url g) = Server.Failure ex
   \/ exists status, GET (models_url g) = Server.Response status (Raise ex)) ->
  Py.caught_by [Py.URLError; Py.ValueError; Py.JSONDecodeError] ex = true ->
  Server.poll_server_status GET g
  = (Ret tt, polled "Online" Server.Unknown g,
     [urlopen (health_url g) 2; urlopen (models_url g) 2; reschedule]).
Proof.
  unfold health_url, models_url. intros Hb Hh Hm Hc.
  unfold_poll. rewrite Hb. step. rewrite Hh. step.
  destruct Hm as [Hm | [status Hm]]; rewrite Hm; step;
    rewrite Hc; reflexivity.
Qed.

(** What a tick does in the cases its handlers cover.  On a non-empty
    endpoint it sets the status to Online and the model label to the first
    listed model's id when the health request answers 200 and the model
    listing is a JSON object whose [data] is a non-empty array headed by an
    object with an [id]; sets Offline and Unknown when the health request
    raises a [URLError] or a [ValueError]; sets Online and Unknown when the
    health request answers 200 and the model request raises one of these or
    its body cannot be decoded or parsed.  No tick, whatever happens in it,
    opens a dialog. *)
Lemma poll_handled_cases :
  forall (GET : string -> Server.reply) (g : Server.gui),
    let r := Server.poll_server_status GET g in
    (forall ev, In ev (trace r) -> silent ev)
    /\ (Py.truthy (Py.strip (Server.endpoint_url g)) = true ->
        (forall body status members first rest id,
            GET (health_url g) = Server.Response 200 body ->
            GET (models_url g) = Server.Response status (Ret (Json.JObj members)) ->
            Json.lookup "data" members = Some (Json.JArr (Json.JObj first :: rest)) ->
            Json.lookup "id" first = Some id ->
            outcome r = Ret tt
            /\ Server.server_status (final r) = "Online"
            /\ Server.current_model (final r) = id)
        /\ (forall ex,
               GET (health_url g) = Server.Failure ex ->
               Py.caught_by [Py.URLError; Py.ValueError] ex = true ->
               outcome r = Ret tt
               /\ Server.server_status (final r) = "Offline"
               /\ Server.current_model (final r) = Json.JStr "Unknown")
        /\ (forall body ex,
               GET (health_url g) = Server.Response 200 body ->
               (GET (models_url g) = Server.Failure ex
                /\ Py.caught_by [Py.URLError; Py.ValueError] ex = true)
               \/ (exists status,
                      GET (models_url g) = Server.Response status (Raise ex)
                      /\ Py.isinstance ex Py.ValueError = true) ->
               outcome r = Ret tt
               /\ Server.server_status (final r) = "Online"
               /\ Server.current_model (final r) = Json.JStr "Unknown")).
Proof.
  intros GET g r. subst r. split; [apply poll_is_silent|].
  intros Hb. split; [|split].
  - intros body status members first rest id Hh Hm Hd Hid.
    rewrite (poll_online GET g body status members first rest Hb Hh Hm Hd).
    rewrite Hid. destruct g; repeat split.
  - intros ex Hh Hc. rewrite (poll_offline GET g ex Hb Hh Hc).
    destruct g; repeat split.
  - intros body ex Hh Hm.
    rewrite (poll_online_unknown GET g body ex Hb Hh).
    + destruct g; repeat split.
    + destruct Hm as [[Hm _] | [status [Hm _]]]; eauto.
    + destruct Hm as [[_ Hc] | [status [_ Hc]]].
      * cbn [Py.caught_by existsb] in *.
        destruct (Py.isinstance ex Py.URLError); [reflexivity|].
        destruct (Py.isinstance ex Py.ValueError); [reflexivity|discriminate Hc].
      * cbn [Py.caught_by existsb]. rewrite Hc.
        now destruct (Py.isinstance ex Py.URLError).
Qed.

Example poll_handled_cases_examples :
  (Server.server_status (final (Server.poll_server_status Examples.online Examples.server_ready))
     = "Online"
   /\ Server.current_model (final (Server.poll_server_status Examples.online Examples.server_ready))
     = Json.JStr "m1")
  /\ (Server.server_status (final (Server.poll_server_status Examples.refused Examples.server_ready))
        = "Offline"
      /\ Server.current_model (final (Server.poll_server_status Examples.refused Examples.server_ready))
        = Json.JStr "Unknown")
  /\ (Server.server_status (final (Server.poll_server_status Examples.garbled Examples.server_ready))
        = "Online"
      /\ Server.current_model (final (Server.poll_server_status Examples.garbled Examples.server_ready))
        = Json.JStr "Unknown").
Proof.
  split; [|split].
  - refine (proj2 (proj1 (proj2 (poll_handled_cases
              Examples.online Examples.server_ready) eq_refl)
              _ _ _ _ _ _ eq_refl eq_refl eq_refl eq_refl)).
  - refine (proj2 (proj1 (proj2 (proj2 (poll_handled_cases
              Examples.refused Examples.server_ready) eq_refl))
              _ eq_refl eq_refl)).
  - refine (proj2 (proj2 (proj2 (proj2 (poll_handled_cases
              Examples.garbled Examples.server_ready) eq_refl))
              _ _ eq_refl (or_intror (ex_intro _ 200 (conj eq_refl eq_refl))))).
Qed.

(** C3 fails on the code.  With the health request answered by 200: when
    the model listing is a JSON object whose [data] is a non-empty array of
    names, or when the model request fails by timing out while the response
    is read, the tick ends in an exception that no handler catches
    ([AttributeError], [TimeoutError]); the status is not set to Online and
    the model label is not written.  (No dialog is shown.) *)
Theorem poll_escapes_on_unhandled_reply :
  Server.poll_server_status Examples.names_only Examples.server_ready
  = (Raise (Py.mkExn Py.AttributeError "'str' object has no attribute 'get'"),
     Examples.server_ready,
     [urlopen "http://127.0.0.1:8080/health" 2;
      urlopen "http://127.0.0.1:8080/v1/models" 2])
  /\ Server.poll_server_status Examples.slow_models Examples.server_ready
     = (Raise (Py.mkExn Py.TimeoutError "The read operation timed out"),
        Examples.server_ready,
        [urlopen "http://127.0.0.1:8080/health" 2;
         urlopen "http://127.0.0.1:8080/v1/models" 2])
  /\ Server.server_status Examples.server_ready <> "Online".
Proof.
  split; [vm_compute; reflexivity|].
  split; [vm_compute; reflexivity|].
  discriminate.
Qed.

(** A tick that returns has scheduled the next one, 5 seconds later, as the
    last thing it did. *)
Lemma poll_reschedules_on_return (GET : string -> Server.reply) (g : Server.gui) :
  outcome (Server.poll_server_status GET g) = Ret tt ->
  exists t, trace (Server.poll_server_status GET g) = (t ++ [reschedule])%list.
Proof.
  unfold_poll.
  destruct (Py.truthy (Py.strip (Server.endpoint_url g))); step;
    [|intros _; exists []; reflexivity].
  destruct (GET _) as [status body | ex]; step.
  - destruct (status =? 200); step.
    + destruct (GET _) as [status' [payload | ex] | ex]; step.
      * destruct (Json.get payload "data" (Json.JArr [])) as [data | ex]; step;
          [|destruct (Py.caught_by _ ex); step; [eexists [_; _]; reflexivity|discriminate]].
        destruct (Json.truthy data); step; [|eexists [_; _]; reflexivity].
        destruct (Json.getitem0 data) as [x | ex]; step;
          [|destruct (Py.caught_by _ ex); step; [eexists [_; _]; reflexivity|discriminate]].
        destruct (Json.get x "id" Server.Unknown) as [y | ex]; step;
          [eexists [_; _]; reflexivity|].
        destruct (Py.caught_by _ ex); step; [eexists [_; _]; reflexivity|discriminate].
      * destruct (Py.caught_by _ ex); step; [eexists [_; _]; reflexivity|discriminate].
      * destruct (Py.caught_by _ ex); step; [eexists [_; _]; reflexivity|discriminate].
    + intros _. eexists [_]. reflexivity.
  - destruct (Py.caught_by _ ex); step; [intros _; eexists [_]; reflexivity|discriminate].
Qed.

(** C9 fails on the code.  Against a service that answers the health request
    with 200 and the model listing with a JSON array, the tick ends in an
    [AttributeError] that no handler catches: the status labels are not
    written and, the rescheduling call being the last statement of the
    method, no further tick is scheduled. *)
Theorem poll_stops_on_unexpected_payload :
  Server.poll_server_status Examples.other_service Examples.server_ready
  = (Raise (Py.mkExn Py.AttributeError "'list' object has no attribute 'get'"),
     Examples.server_ready,
     [urlopen "http://127.0.0.1:8080/health" 2;
      urlopen "http://127.0.0.1:8080/v1/models" 2])
  /\ ~ In reschedule
        (trace (Server.poll_server_status Examples.other_service Examples.server_ready)).
Proof.
  assert (H : Server.poll_server_status Examples.other_service Examples.server_ready
              = (Raise (Py.mkExn Py.AttributeError "'list' object has no attribute 'get'"),
                 Examples.server_ready,
                 [urlopen "http://127.0.0.1:8080/health" 2;
                  urlopen "http://127.0.0.1:8080/v1/models" 2]))
    by (vm_compute; reflexivity).
  split; [exact H|]. rewrite H. cbn.
  intros [Hc | [Hc | []]]; discriminate Hc.
Qed.

(* ================================================================== *)
(** ** The command line *)

Section TracePrefix.

Context {St : Type}.

Lemma trace_bind_ret {A B} (m : M St A) (k : A -> M St B) s a s1 t1 :
  m s = (Ret a, s1, t1) -> trace (bind m k s) = (t1 ++ trace (k a s1))%list.
Proof.
  intros H. unfold bind. rewrite H. destruct (k a s1) as [[r s2] t2]. reflexivity.
Qed.

Lemma trace_try_except {A} (body : M St A) classes handler s :
  exists rest, trace (try_except body classes handler s) = (trace (body s) ++ rest)%list.
Proof.
  unfold try_except. destruct (body s) as [[[a | e] s1] t1]; cbn [trace snd].
  - exists []. now rewrite app_nil_r.
  - destruct (Py.caught_by classes e).
    + destruct (handler e s1) as [[r s2] t2]. exists t2. reflexivity.
    + exists []. now rewrite app_nil_r.
Qed.

Lemma trace_try_finally {A} (body : M St A) cleanup s :
  exists rest, trace (try_finally body cleanup s) = (trace (body s) ++ rest)%list.
Proof.
  unfold try_finally. destruct (body s) as [[r s1] t1]; cbn [trace snd].
  destruct (cleanup s1) as [[[u | e] s2] t2]; exists t2; reflexivity.
Qed.

End TracePrefix.

Lemma server_build_command_spec (str_float : float -> string) (g : Server.gui)
    port temperature context_size threads :
  Server.port g = Ret port ->
  Server.temperature g = Ret temperature ->
  Server.context_size g = Ret context_size ->
  Server.threads g = Ret threads ->
  Server.build_command str_float g
  = (Ret (argv (Server.server_binary g)
            (server_pairs str_float g port temperature context_size threads)),
     g, []).
Proof.
  intros Hp Ht Hc Hn. unfold Server.build_command, bind, get. cbn [fst snd].
  rewrite Hp, Ht, Hc, Hn. reflexivity.
Qed.

Lemma cli_build_cmd_spec (str_float : float -> string) (g : Cli.gui)
    max_tokens temperature top_p top_k :
  Cli.max_tokens g = Ret max_tokens ->
  Cli.temperature g = Ret temperature ->
  Cli.top_p g = Ret top_p ->
  Cli.top_k g = Ret top_k ->
  Cli.build_cmd str_float g
  = (Ret (argv (Cli.llama_binary g)
            (cli_pairs str_float g max_tokens temperature top_p top_k)),
     g, []).
Proof.
  intros Hp Ht Hc Hn. unfold Cli.build_cmd, bind, get. cbn [fst snd].
  rewrite Hp, Ht, Hc, Hn. reflexivity.
Qed.

Lemma server_thread_spawns (str_float : float -> string)
    (spawn : list string -> result Popen) (g : Server.gui) cmd :
  Server.build_command str_float g = (Ret cmd, g, []) ->
  exists notes rest,
    trace (Server._run_server_thread str_float spawn g)
    = (notes ++ popen cmd :: rest)%list
    /\ forall ev, In ev notes -> exists cb, ev = root_after 0 cb.
Proof.
  intros Hb. unfold Server._run_server_thread.
  edestruct (@trace_try_finally Server.gui) as [r1 ->].
  edestruct (@trace_try_except Server.gui) as [r2 ->].
  edestruct (@trace_try_except Server.gui) as [r3 ->].
  rewrite (trace_bind_ret _ _ _ _ _ _ Hb).
  unfold bind at 1, emit at 1. cbn [app].
  unfold bind at 1, emit at 1.
  unfold bind at 1, emit at 1.
  match goal with
  | |- context [let (_, _) := ?rest g in _] => destruct (rest g) as [[r s] t]
  end.
  cbn [trace snd app].
  eexists [_; _], _. split.
  - cbn [app]. rewrite <- !app_assoc. cbn [app]. reflexivity.
  - intros ev [<- | [<- | []]]; eauto.
Qed.

Lemma cli_thread_spawns (str_float : float -> string)
    (spawn : list string -> result Popen) (g : Cli.gui) cmd :
  Cli.build_cmd str_float g = (Ret cmd, g, []) ->
  exists notes rest,
    trace (Cli._run_inference_thread str_float spawn g)
    = (notes ++ popen cmd :: rest)%list
    /\ forall ev, In ev notes -> exists cb, ev = root_after 0 cb.
Proof.
  intros Hb. unfold Cli._run_inference_thread.
  edestruct (@trace_try_finally Cli.gui) as [r1 ->].
  edestruct (@trace_try_except Cli.gui) as [r2 ->].
  edestruct (@trace_try_except Cli.gui) as [r3 ->].
  rewrite (trace_bind_ret _ _ _ _ _ _ Hb).
  unfold bind at 1, emit at 1. cbn [app].
  unfold bind at 1, emit at 1.
  unfold bind at 1, emit at 1.
  match goal with
  | |- context [let (_, _) := ?rest g in _] => destruct (rest g) as [[r s] t]
  end.
  cbn [trace snd app].
  eexists [_; _], _. split.
  - cbn [app]. rewrite <- !app_assoc. cbn [app]. reflexivity.
  - intros ev [<- | [<- | []]]; eauto.
Qed.

(** C7, as amended.  When the numeric fields hold numbers, the command line
    is the binary followed by exactly one flag/value pair per parameter
    (server: model, host, port, temperature, context size, threads;
    inference: model, prompt, max tokens, temperature, top-p, top-k), each
    flag once; the values of host and prompt are the fields with surrounding
    white space stripped, the others are the fields as they are (paths) or
    their [str()] (numbers).  The worker builds it from the application as
    it is when the worker runs, and spawns exactly that command. *)
Theorem command_line_one_pair_per_parameter :
  (forall (str_float : float -> string) (spawn : list string -> result Popen)
          (g : Server.gui) port temperature context_size threads,
      Server.port g = Ret port ->
      Server.temperature g = Ret temperature ->
      Server.context_size g = Ret context_size ->
      Server.threads g = Ret threads ->
      let pairs := server_pairs str_float g port temperature context_size threads in
      let cmd := argv (Server.server_binary g) pairs in
      Server.build_command str_float g = (Ret cmd, g, [])
      /\ NoDup (map fst pairs)
      /\ exists notes rest,
           trace (Server._run_server_thread str_float spawn g)
           = (notes ++ popen cmd :: rest)%list
           /\ forall ev, In ev notes -> exists cb, ev = root_after 0 cb)
  /\
  (forall (str_float : float -> string) (spawn : list string -> result Popen)
          (g : Cli.gui) max_tokens temperature top_p top_k,
      Cli.max_tokens g = Ret max_tokens ->
      Cli.temperature g = Ret temperature ->
      Cli.top_p g = Ret top_p ->
      Cli.top_k g = Ret top_k ->
      let pairs := cli_pairs str_float g max_tokens temperature top_p top_k in
      let cmd := argv (Cli.llama_binary g) pairs in
      Cli.build_cmd str_float g = (Ret cmd, g, [])
      /\ NoDup (map fst pairs)
      /\ exists notes rest,
           trace (Cli._run_inference_thread str_float spawn g)
           = (notes ++ popen cmd :: rest)%list
           /\ forall ev, In ev notes -> exists cb, ev = root_after 0 cb).
Proof.
  split.
  - intros sf spawn g port temperature context_size threads Hp Ht Hc Hn pairs cmd.
    pose proof (server_build_command_spec sf g _ _ _ _ Hp Ht Hc Hn) as Hb.
    split; [exact Hb|]. split.
    + cbn. repeat constructor; cbn; intuition discriminate.
    + exact (server_thread_spawns sf spawn g _ Hb).
  - intros sf spawn g max_tokens temperature top_p top_k Hp Ht Hc Hn pairs cmd.
    pose proof (cli_build_cmd_spec sf g _ _ _ _ Hp Ht Hc Hn) as Hb.
    split; [exact Hb|]. split.
    + cbn. repeat constructor; cbn; intuition discriminate.
    + exact (cli_thread_spawns sf spawn g _ Hb).
Qed.

Lemma command_line_one_pair_per_parameter_witness :
  Server.build_command Examples.str_float Examples.server_ready
  = (Ret ["/usr/bin/llama-server"; "--model"; "/models/m.gguf";
          "--host"; "127.0.0.1"; "--port"; "8080"; "--temp"; "0.5";
          "--ctx-size"; "4096"; "--threads"; "8"],
     Examples.server_ready, [])
  /\ Cli.build_cmd Examples.str_float Examples.cli_ready
     = (Ret ["/usr/bin/llama-cli"; "-m"; "/models/m.gguf"; "-p"; "Hello";
             "-n"; "512"; "--temp"; "0.5"; "--top-p"; "0.75"; "--top-k"; "40"],
        Examples.cli_ready, []).
Proof.
  split.
  - exact (proj1 (proj1 command_line_one_pair_per_parameter Examples.str_float
                    Examples.spawn Examples.server_ready 8080 0.5%float 4096 8
                    eq_refl eq_refl eq_refl eq_refl)).
  - exact (proj1 (proj2 command_line_one_pair_per_parameter Examples.str_float
                    Examples.spawn Examples.cli_ready 512 0.5%float 0.75%float 40
                    eq_refl eq_refl eq_refl eq_refl)).
Defined.

(** C7 as stated fails: a host typed with blanks around it passes
    validation, and the value that follows [--host] on the command line is
    not the text of the field. *)
Lemma command_line_host_is_stripped :
  let g := Examples.server_padded_host in
  server_inputs_valid Examples.unix g = true
  /\ Server.build_command Examples.str_float g
     = (Ret ["/usr/bin/llama-server"; "--model"; "/models/m.gguf";
             "--host"; "127.0.0.1"; "--port"; "8080"; "--temp"; "0.5";
             "--ctx-size"; "4096"; "--threads"; "8"], g, [])
  /\ Server.host g <> "127.0.0.1".
Proof.
  cbv zeta. split; [vm_compute; reflexivity|]. split; [vm_compute; reflexivity|].
  discriminate.
Qed.

(* ================================================================== *)
(** ** The binary locators *)

(** The walk of the inference application goes as deep as the tree does. *)
Lemma cli_walk_reaches_any_depth (e : Os.env) (names : list string) :
  forall top,
    Os.walk e (Cli.visit e) top (Examples.nest names (Os.Dir ["llama-cli.exe"] []))
    = Some (Os.join e (fold_left (Os.join e) names top) "llama-cli.exe").
Proof.
  induction names as [|name rest IH]; intros top.
  - reflexivity.
  - cbn [Examples.nest Os.walk map fst Cli.visit Os.In_files existsb fold_left].
    rewrite String.eqb_refl. cbn [orb]. rewrite IH. reflexivity.
Qed.

(** C8 fails on the code.  The inference application walks a vendor root
    without any depth limit: a binary any number of directories below the
    root is found, here eight.  The server application prunes the walk, but
    one level later than at 4: counting the separators of the relative path
    gives 4 for a directory five levels below the root, so that directory is
    still searched, and only the sixth level is not. *)
Theorem vendor_walk_exceeds_depth_bound :
  (forall (e : Os.env) (names : list string) (top : string),
      Os.walk e (Cli.visit e) top (Examples.nest names (Os.Dir ["llama-cli.exe"] []))
      = Some (Os.join e (fold_left (Os.join e) names top) "llama-cli.exe"))
  /\ Cli.llama_binary
       (final (Cli.detect_llama_binary Examples.cli_eight_below Examples.cli_ready))
     = "C:\Users\u\AppData\Local\Microsoft\WinGet\Packages\ggml.llamacpp\a\b\c\d\e\f\g\llama-cli.exe"
  /\ Server.server_binary
       (final (Server.detect_server_binary Examples.server_five_below Examples.server_ready))
     = "C:\Users\u\AppData\Local\Microsoft\WinGet\Packages\ggml.llamacpp\a\b\c\d\llama-server.exe"
  /\ Server.server_binary
       (final (Server.detect_server_binary Examples.server_six_below Examples.server_ready))
     = "llama-server not found".
Proof.
  split; [intros; apply cli_walk_reaches_any_depth|].
  repeat split; vm_compute; reflexivity.
Qed.

Lemma dirtree_nested_ind (P : Os.dirtree -> Prop) :
  (forall files subs, Forall (fun sub => P (snd sub)) subs -> P (Os.Dir files subs)) ->
  forall t, P t.
Proof.
  intros H. fix IH 1. intros [files subs]. apply H.
  induction subs as [|[name sub] rest IHrest]; constructor.
  - apply IH.
  - exact IHrest.
Qed.

Lemma hd_error_app {A} (l1 l2 : list A) :
  hd_error (l1 ++ l2)
  = match hd_error l1 with Some x => Some x | None => hd_error l2 end.
Proof. destruct l1; reflexivity. Qed.

Lemma first_some_flat_map {A B} (f : A -> option B) (g : A -> list B) (l : list A) :
  (forall x, f x = hd_error (g x)) ->
  Os.first_some f l = hd_error (flat_map g l).
Proof.
  intros Hfg. induction l as [|x rest IH]; [reflexivity|].
  cbn [Os.first_some flat_map]. rewrite hd_error_app, Hfg, IH. reflexivity.
Qed.

Lemma walk_first_hit (e : Os.env) (skip : string -> bool) (names : list string)
    (visit : string -> list string -> list string -> Os.step string) :
  (forall top dirs files,
      visit top dirs files
      = if skip top then Os.Next []
        else match Os.first_some
                     (fun candidate =>
                        if Os.In_files candidate files
                        then Some (Os.join e top candidate) else None)
                     names with
             | Some binary_path => Os.Return binary_path
             | None => Os.Next dirs
             end) ->
  forall t top, Os.walk e visit top t = hd_error (walk_hits e skip names top t).
Proof.
  intros Hvisit t. induction t as [files subs IH] using dirtree_nested_ind.
  intros top. cbn [Os.walk walk_hits]. rewrite Hvisit.
  destruct (skip top).
  - clear IH. induction subs as [|[name sub] rest IHrest]; [reflexivity|].
    cbn [existsb]. exact IHrest.
  - rewrite hd_error_app.
    rewrite <- (first_some_flat_map
                  (fun candidate =>
                     if Os.In_files candidate files
                     then Some (Os.join e top candidate) else None)).
    2:{ intros c. destruct (Os.In_files c files); reflexivity. }
    destruct (Os.first_some _ names); [reflexivity|].
    assert (Hsub : forall l, incl l subs ->
              (fix each (l : list (string * Os.dirtree)) : option string :=
                 match l with
                 | [] => None
                 | (name, sub) :: rest =>
                     if existsb (String.eqb name) (map fst subs)
                     then match Os.walk e visit (Os.join e top name) sub with
                          | Some a => Some a
                          | None => each rest
                          end
                     else each rest
                 end) l
              = hd_error
                  (flat_map (fun sub => walk_hits e skip names
                                          (Os.join e top (fst sub)) (snd sub)) l)).
    { induction l as [|[name sub] rest IHrest]; intros Hincl; [reflexivity|].
      assert (Hin : In (name, sub) subs) by (apply Hincl; left; reflexivity).
      assert (Hex : existsb (String.eqb name) (map fst subs) = true).
      { apply existsb_exists. exists name. split.
        - apply in_map_iff. exists (name, sub). auto.
        - apply String.eqb_refl. }
      rewrite Hex. cbn [flat_map fst snd]. rewrite hd_error_app.
      rewrite Forall_forall in IH. rewrite (IH _ Hin). cbn [snd].
      rewrite IHrest; [reflexivity|].
      intros x Hx. apply Hincl. right. exact Hx. }
    apply Hsub. apply incl_refl.
Qed.

Lemma path_hits_first (e : Os.env) (dirs names : list string) :
  Os.first_some
    (fun path_dir =>
       Os.first_some
         (fun candidate =>
            let binary_path := Os.join e path_dir candidate in
            if Os.isfile e binary_path && Os.access_X_OK e binary_path
            then Some binary_path else None)
         names)
    dirs
  = hd_error (path_hits e dirs names).
Proof.
  apply first_some_flat_map. intros d.
  apply first_some_flat_map. intros c. cbv zeta.
  destruct (Os.isfile e _ && Os.access_X_OK e _); reflexivity.
Qed.

Lemma build_hits_first (e : Os.env) (names : list string) :
  Os.first_some
    (fun build_dir =>
       Os.first_some
         (fun candidate =>
            let binary_path := Os.join e build_dir candidate in
            if Os.isfile e binary_path then Some (Os.abspath e binary_path) else None)
         names)
    ["build/bin"; "./build/bin"; "../build/bin"]
  = hd_error (build_hits e names).
Proof.
  apply first_some_flat_map. intros d.
  apply first_some_flat_map. intros c. cbv zeta.
  destruct (Os.isfile e _); reflexivity.
Qed.

Lemma first_some_single {A B} (f : A -> option B) (x : A) :
  Os.first_some f [x] = f x.
Proof. cbn. destruct (f x); reflexivity. Qed.

Lemma first_some_ext {A B} (f g : A -> option B) (l : list A) :
  (forall x, f x = g x) -> Os.first_some f l = Os.first_some g l.
Proof.
  intros H. induction l as [|x rest IH]; [reflexivity|].
  cbn [Os.first_some]. rewrite H, IH. reflexivity.
Qed.

Lemma server_search_winget_first (e : Os.env) :
  Server.search_winget e
  = hd_error (vendor_hits e (Server.winget_paths e) (server_skip e)
                (Server.binary_names e)).
Proof.
  unfold Server.search_winget, vendor_hits.
  destruct (Os.windows e); [|reflexivity].
  apply first_some_flat_map. intros base_path.
  destruct (Os.exists_ e base_path); [|reflexivity].
  destruct (Os.tree e base_path) as [t|]; [|reflexivity].
  apply walk_first_hit. intros top dirs files. reflexivity.
Qed.

Lemma cli_search_winget_first (e : Os.env) :
  Cli.search_winget e
  = hd_error (vendor_hits e (Cli.winget_paths e) (fun _ _ => false)
                ["llama-cli.exe"; "llama-cli"]).
Proof.
  unfold Cli.search_winget, vendor_hits.
  destruct (Os.windows e); [|reflexivity].
  apply first_some_flat_map. intros base_path.
  destruct (Os.exists_ e base_path); [|reflexivity].
  destruct (Os.tree e base_path) as [t|]; [|reflexivity].
  apply walk_first_hit. intros top dirs files.
  unfold Cli.visit. cbn [Os.first_some].
  destruct (Os.In_files "llama-cli.exe" files); [reflexivity|].
  destruct (Os.In_files "llama-cli" files); reflexivity.
Qed.

Lemma hd_three {A} (d : A) (l1 l2 l3 : list A) :
  hd d (l1 ++ l2 ++ l3)
  = match hd_error l1 with
    | Some x => x
    | None => match hd_error l2 with
              | Some x => x
              | None => match hd_error l3 with Some x => x | None => d end
              end
    end.
Proof. destruct l1; [destruct l2; [destruct l3|]|]; reflexivity. Qed.

Lemma server_detect_spec (e : Os.env) (g : Server.gui) :
  Server.detect_server_binary e g
  = (Ret tt, Server.set_server_binary (hd Server.sentinel (server_hits e)) g, []).
Proof.
  unfold Server.detect_server_binary, server_hits.
  rewrite hd_three, server_search_winget_first.
  unfold Server.search_PATH, Server.search_build_dirs.
  rewrite path_hits_first, build_hits_first.
  repeat (match goal with |- context [hd_error ?l] => destruct (hd_error l) end;
          try reflexivity).
Qed.

Lemma cli_detect_spec (e : Os.env) (g : Cli.gui) :
  Cli.detect_llama_binary e g
  = (Ret tt, Cli.set_llama_binary (hd Cli.sentinel (cli_hits e)) g, []).
Proof.
  unfold Cli.detect_llama_binary, cli_hits.
  rewrite hd_three, cli_search_winget_first.
  unfold Cli.search_PATH, Cli.search_build_dirs.
  rewrite <- path_hits_first, <- build_hits_first.
  assert (HP : Os.first_some
                 (fun path_dir =>
                    Os.first_some
                      (fun candidate =>
                         let binary_path := Os.join e path_dir candidate in
                         if Os.isfile e binary_path && Os.access_X_OK e binary_path
                         then Some binary_path else None)
                      [Cli.binary_name e])
                 (Py.split (Os.pathsep e) (Os.environ_get e "PATH" ""))
               = Os.first_some
                   (fun path_dir =>
                      let binary_path := Os.join e path_dir (Cli.binary_name e) in
                      if Os.isfile e binary_path && Os.access_X_OK e binary_path
                      then Some binary_path else None)
                   (Py.split (Os.pathsep e) (Os.environ_get e "PATH" ""))).
  { apply first_some_ext. intros d. exact (first_some_single _ _). }
  rewrite HP. clear HP.
  assert (HB : Os.first_some
                 (fun build_dir =>
                    Os.first_some
                      (fun candidate =>
                         let binary_path := Os.join e build_dir candidate in
                         if Os.isfile e binary_path
                         then Some (Os.abspath e binary_path) else None)
                      [Cli.binary_name e])
                 ["build/bin"; "./build/bin"; "../build/bin"]
               = Os.first_some
                   (fun build_dir =>
                      let binary_path := Os.join e build_dir (Cli.binary_name e) in
                      if Os.isfile e binary_path
                      then Some (Os.abspath e binary_path) else None)
                   ["build/bin"; "./build/bin"; "../build/bin"]).
  { apply first_some_ext. intros d. exact (first_some_single _ _). }
  rewrite HB. clear HB.
  repeat (match goal with
          | |- context [match ?x with Some _ => _ | None => _ end] => destruct x
          end; try reflexivity).
Qed.

Lemma path_hits_executable (e : Os.env) (dirs names : list string) (p : string) :
  In p (path_hits e dirs names) ->
  Os.isfile e p = true /\ Os.access_X_OK e p = true
  /\ exists path_dir candidate,
       In path_dir dirs /\ In candidate names /\ p = Os.join e path_dir candidate.
Proof.
  unfold path_hits. intros H.
  apply in_flat_map in H. destruct H as (d & Hd & H).
  apply in_flat_map in H. destruct H as (c & Hc & H). cbv zeta in H.
  destruct (Os.isfile e (Os.join e d c) && Os.access_X_OK e (Os.join e d c)) eqn:Hok;
    [|contradiction].
  destruct H as [<- | []]. apply andb_prop in Hok. destruct Hok. eauto 7.
Qed.

Lemma build_hits_files (e : Os.env) (names : list string) (p : string) :
  In p (build_hits e names) ->
  exists build_dir candidate,
    In build_dir ["build/bin"; "./build/bin"; "../build/bin"]
    /\ In candidate names
    /\ Os.isfile e (Os.join e build_dir candidate) = true
    /\ p = Os.abspath e (Os.join e build_dir candidate).
Proof.
  unfold build_hits. intros H.
  apply in_flat_map in H. destruct H as (d & Hd & H).
  apply in_flat_map in H. destruct H as (c & Hc & H). cbv zeta in H.
  destruct (Os.isfile e (Os.join e d c)) eqn:Hok; [|contradiction].
  destruct H as [<- | []]. eauto 7.
Qed.

(** C6, as amended.  The locator sets the binary field to the first path of
    the search order: on Windows the vendor roots, walked top-down, where a
    path qualifies when its name is a candidate name and the directory
    listing has it among its files; then the directories of [PATH], where a
    path qualifies when it is an existing, executable, regular file; then
    the relative build directories, where a path qualifies when it is an
    existing regular file, executable or not, and is given as an absolute
    path.  When no path qualifies the field is set to the not-found
    sentinel.  The locator raises nothing and calls nothing. *)
Theorem locator_returns_first_in_search_order :
  (forall (e : Os.env) (g : Server.gui),
      Server.detect_server_binary e g
      = (Ret tt, Server.set_server_binary (hd Server.sentinel (server_hits e)) g, []))
  /\ (forall (e : Os.env) (g : Cli.gui),
         Cli.detect_llama_binary e g
         = (Ret tt, Cli.set_llama_binary (hd Cli.sentinel (cli_hits e)) g, []))
  /\ (forall (e : Os.env) (dirs names : list string) (p : string),
         In p (path_hits e dirs names) ->
         Os.isfile e p = true /\ Os.access_X_OK e p = true
         /\ exists path_dir candidate,
              In path_dir dirs /\ In candidate names
              /\ p = Os.join e path_dir candidate)
  /\ (forall (e : Os.env) (names : list string) (p : string),
         In p (build_hits e names) ->
         exists build_dir candidate,
           In build_dir ["build/bin"; "./build/bin"; "../build/bin"]
           /\ In candidate names
           /\ Os.isfile e (Os.join e build_dir candidate) = true
           /\ p = Os.abspath e (Os.join e build_dir candidate)).
Proof.
  split; [exact server_detect_spec|].
  split; [exact cli_detect_spec|].
  split; [exact path_hits_executable|exact build_hits_files].
Qed.

Lemma locator_returns_first_in_search_order_witness :
  Os.isfile Examples.unix "/usr/bin/llama-server" = true
  /\ Os.access_X_OK Examples.unix "/usr/bin/llama-server" = true
  /\ exists path_dir candidate,
       In path_dir ["/usr/local/bin"; "/usr/bin"]
       /\ In candidate (Server.binary_names Examples.unix)
       /\ "/usr/bin/llama-server" = Os.join Examples.unix path_dir candidate.
Proof.
  apply (proj1 (proj2 (proj2 locator_returns_first_in_search_order)) Examples.unix
           ["/usr/local/bin"; "/usr/bin"] (Server.binary_names Examples.unix)
           "/usr/bin/llama-server").
  vm_compute. left. reflexivity.
Defined.

(** C6 as stated fails: in a checkout whose [build/bin] holds the programs
    without the execute permission, and with no executable file anywhere,
    the locators do not set the sentinel: they return the files of the build
    directory, which are not executable. *)
Lemma locator_returns_non_executable_file :
  (forall p, Os.access_X_OK Examples.checkout p = false)
  /\ Server.server_binary
       (final (Server.detect_server_binary Examples.checkout Examples.server_ready))
     = "/home/u/llama.cpp/build/bin/llama-server"
  /\ Cli.llama_binary
       (final (Cli.detect_llama_binary Examples.checkout Examples.cli_ready))
     = "/home/u/llama.cpp/build/bin/llama-cli"
  /\ "/home/u/llama.cpp/build/bin/llama-server" <> Server.sentinel
  /\ "/home/u/llama.cpp/build/bin/llama-cli" <> Cli.sentinel.
Proof.
  split; [reflexivity|].
  split; [vm_compute; reflexivity|].
  split; [vm_compute; reflexivity|].
  split; discriminate.
Qed.

(* ================================================================== *)
(** * Further properties of the two programs *)

(* ================================================================== *)
(** ** Frames: what a computation leaves alone *)

Section Keeps.

Context {St X : Type} (f : St -> X).

Lemma keeps_ret {A} (a : A) : keeps f (@ret St A a).
Proof. intros s. reflexivity. Qed.

Lemma keeps_raise {A} (e : Py.exn) : keeps f (@raise St A e).
Proof. intros s. reflexivity. Qed.

Lemma keeps_lift {A} (r : result A) : keeps f (@lift St A r).
Proof. intros s. reflexivity. Qed.

Lemma keeps_get : keeps f (@get St).
Proof. intros s. reflexivity. Qed.

Lemma keeps_emit (ev : event) : keeps f (@emit St ev).
Proof. intros s. reflexivity. Qed.

Lemma keeps_modify (h : St -> St) :
  (forall s, f (h s) = f s) -> keeps f (modify h).
Proof. intros H s. apply H. Qed.

Lemma keeps_bind {A B} (m : M St A) (k : A -> M St B) :
  keeps f m -> (forall a, keeps f (k a)) -> keeps f (bind m k).
Proof.
  intros Hm Hk s. unfold bind. specialize (Hm s).
  destruct (m s) as [[[a | e] s1] t1]; cbn [final fst snd] in *; [|exact Hm].
  specialize (Hk a s1). destruct (k a s1) as [[r s2] t2].
  cbn [final fst snd] in *. congruence.
Qed.

Lemma keeps_try_except {A} (body : M St A) classes (handler : Py.exn -> M St A) :
  keeps f body -> (forall e, keeps f (handler e)) ->
  keeps f (try_except body classes handler).
Proof.
  intros Hm Hk s. unfold try_except. specialize (Hm s).
  destruct (body s) as [[[a | e] s1] t1]; cbn [final fst snd] in *; [exact Hm|].
  destruct (Py.caught_by classes e); [|exact Hm].
  specialize (Hk e s1). destruct (handler e s1) as [[r s2] t2].
  cbn [final fst snd] in *. congruence.
Qed.

Lemma keeps_try_finally {A} (body : M St A) (cleanup : M St unit) :
  keeps f body -> keeps f cleanup -> keeps f (try_finally body cleanup).
Proof.
  intros Hm Hc s. unfold try_finally. specialize (Hm s).
  destruct (body s) as [[r s1] t1]. cbn [final fst snd] in *.
  specialize (Hc s1). destruct (cleanup s1) as [[[u | e] s2] t2];
    cbn [final fst snd] in *; congruence.
Qed.

End Keeps.

(** Steps through a computation; what is left are the writes, to be shown
    not to touch the part in question. *)
Ltac frame_with known :=
  repeat first
    [ known
    | apply keeps_ret | apply keeps_raise | apply keeps_lift
    | apply keeps_get | apply keeps_emit
    | apply keeps_bind; [|intros]
    | apply keeps_try_except; [|intros]
    | apply keeps_try_finally
    | apply keeps_modify; intros []; reflexivity
    | match goal with
      | |- keeps _ (let _ := _ in _) => cbv zeta
      | |- keeps _ (if ?c then _ else _) => destruct c
      | |- keeps _ (match ?x with _ => _ end) => destruct x
      end ].

Ltac frame := frame_with fail.

Lemma server_relay_keeps {X} (f : Server.gui -> X) (lines : list string) broken :
  keeps f (Server.relay_output lines broken).
Proof. induction lines as [|line rest IH]; cbn [Server.relay_output]; frame. exact IH. Qed.

Lemma cli_relay_keeps {X} (f : Cli.gui -> X) (lines : list string) broken :
  keeps f (Cli.relay_output lines broken).
Proof. induction lines as [|line rest IH]; cbn [Cli.relay_output]; frame. exact IH. Qed.

Lemma server_worker_keeps_tk (str_float : float -> string)
    (spawn : list string -> result Popen) :
  keeps server_tk (Server._run_server_thread str_float spawn).
Proof.
  unfold Server._run_server_thread, Server.build_command, Server.Var_get,
    Server.process_wait, Popen_wait.
  frame. apply server_relay_keeps.
Qed.

Lemma cli_worker_keeps_tk (str_float : float -> string)
    (spawn : list string -> result Popen) :
  keeps cli_tk (Cli._run_inference_thread str_float spawn).
Proof.
  unfold Cli._run_inference_thread, Cli.build_cmd, Cli.Var_get,
    Cli.process_wait, Popen_wait.
  frame. apply cli_relay_keeps.
Qed.

(* ================================================================== *)
(** ** The worker threads *)

Lemma catches_all (e : Py.exn) : Py.caught_by [Py.Exception] e = true.
Proof. destruct e as [[] m]; reflexivity. Qed.

Lemma catches_not_found (e : Py.exn) :
  Py.caught_by [Py.FileNotFoundError] e = Py.isinstance e Py.FileNotFoundError.
Proof. unfold Py.caught_by. cbn [existsb]. apply orb_false_r. Qed.

Lemma server_relay_spec (lines : list string) broken (g : Server.gui) :
  Server.relay_output lines broken g
  = (match relay_error (Server.is_running g) lines broken with
     | Some error => Raise error
     | None => Ret tt
     end,
     g, if Server.is_running g then relayed lines else []).
Proof.
  induction lines as [|line rest IH]; cbn [Server.relay_output].
  - unfold relay_error. destruct (Server.is_running g), broken; reflexivity.
  - unfold bind, get, emit. cbn [fst snd].
    destruct (Server.is_running g) eqn:Hr; cbn [negb]; [|reflexivity].
    rewrite IH. unfold relay_error. destruct broken; reflexivity.
Qed.

Lemma cli_relay_spec (lines : list string) broken (g : Cli.gui) :
  Cli.relay_output lines broken g
  = (match relay_error (Cli.is_running g) lines broken with
     | Some error => Raise error
     | None => Ret tt
     end,
     g, if Cli.is_running g then relayed lines else []).
Proof.
  induction lines as [|line rest IH]; cbn [Cli.relay_output].
  - unfold relay_error. destruct (Cli.is_running g), broken; reflexivity.
  - unfold bind, get, emit. cbn [fst snd].
    destruct (Cli.is_running g) eqn:Hr; cbn [negb]; [|reflexivity].
    rewrite IH. unfold relay_error. destruct broken; reflexivity.
Qed.

(** The run of a worker whose child was spawned: the lines are relayed; then
    either the child is waited for and its exit reported, or the read that
    failed is reported as a failure to start. *)
Lemma server_worker_run (str_float : float -> string)
    (spawn : list string -> result Popen) (g : Server.gui) cmd p :
  Server.build_command str_float g = (Ret cmd, g, []) ->
  spawn cmd = Ret p ->
  Server._run_server_thread str_float spawn g
  = (Ret tt, server_worker_done g,
     (server_launch_notes cmd
      ++ popen cmd :: root_after 0 (cb_server_status_set "Running")
      :: (if Server.is_running g then relayed (stdout p) else [])
      ++ match relay_error (Server.is_running g) (stdout p) (stdout_error p) with
         | None =>
             wait None
             :: server_exit_notes (Server.is_running g) (waited_status p)
         | Some error => server_failure_notes (Server.server_binary g) error
         end
      ++ server_cleanup_notes)%list).
Proof.
  intros Hb Hs.
  unfold Server._run_server_thread, try_finally, try_except.
  unfold bind at 1. rewrite Hb.
  unfold bind, emit, lift, modify, get, ret, Server.process_wait, Popen_wait.
  cbn [fst snd]. rewrite Hs. rewrite server_relay_spec.
  cbn [Server.is_running Server.set_process].
  replace (Server.is_running (Server.set_process (Some p) g))
    with (Server.is_running g) by (destruct g; reflexivity).
  destruct (relay_error (Server.is_running g) (stdout p) (stdout_error p))
    as [error|] eqn:He.
  - rewrite catches_not_found.
    unfold server_failure_notes, server_worker_done, server_launch_notes,
      server_cleanup_notes.
    destruct (Py.isinstance error Py.FileNotFoundError); cbn [fst snd app];
      [|rewrite catches_all]; destruct g; cbn;
      rewrite <- ?app_assoc; reflexivity.
  - unfold waited_status, server_exit_notes, server_worker_done, server_launch_notes,
      server_cleanup_notes.
    destruct g; destruct p as [rc out oe st ot rk]; cbn.
    destruct is_running, rc as [[|rc|rc]|]; cbn;
      try (rewrite <- ?app_assoc; reflexivity);
      destruct st as [|st|st]; cbn; rewrite <- ?app_assoc; reflexivity.
Qed.

Lemma cli_worker_run (str_float : float -> string)
    (spawn : list string -> result Popen) (g : Cli.gui) cmd p :
  Cli.build_cmd str_float g = (Ret cmd, g, []) ->
  spawn cmd = Ret p ->
  Cli._run_inference_thread str_float spawn g
  = (Ret tt, cli_worker_done g,
     (cli_launch_notes cmd
      ++ popen cmd
      :: (if Cli.is_running g then relayed (stdout p) else [])
      ++ match relay_error (Cli.is_running g) (stdout p) (stdout_error p) with
         | None => wait None :: cli_exit_notes (waited_status p)
         | Some error => cli_failure_notes (Cli.llama_binary g) error
         end
      ++ cli_cleanup_notes)%list).
Proof.
  intros Hb Hs.
  unfold Cli._run_inference_thread, try_finally, try_except.
  unfold bind at 1. rewrite Hb.
  unfold bind, emit, lift, modify, get, ret, Cli.process_wait, Popen_wait.
  cbn [fst snd]. rewrite Hs. rewrite cli_relay_spec.
  replace (Cli.is_running (Cli.set_process (Some p) g))
    with (Cli.is_running g) by (destruct g; reflexivity).
  destruct (relay_error (Cli.is_running g) (stdout p) (stdout_error p))
    as [error|] eqn:He.
  - rewrite catches_not_found.
    unfold cli_failure_notes, cli_worker_done, cli_launch_notes,
      cli_cleanup_notes.
    destruct (Py.isinstance error Py.FileNotFoundError); cbn [fst snd app];
      [|rewrite catches_all]; destruct g; cbn;
      rewrite <- ?app_assoc; reflexivity.
  - unfold waited_status, cli_exit_notes, cli_worker_done, cli_launch_notes,
      cli_cleanup_notes.
    destruct g; destruct p as [rc out oe st ot rk]; cbn.
    destruct is_running, rc as [[|rc|rc]|]; cbn;
      try (rewrite <- ?app_assoc; reflexivity);
      destruct st as [|st|st]; cbn; rewrite <- ?app_assoc; reflexivity.
Qed.

Lemma server_worker_spawn_fails (str_float : float -> string)
    (spawn : list string -> result Popen) (g : Server.gui) cmd ex :
  Server.build_command str_float g = (Ret cmd, g, []) ->
  spawn cmd = Raise ex ->
  Server._run_server_thread str_float spawn g
  = (Ret tt, server_worker_done g,
     (server_launch_notes cmd
      ++ popen cmd
      :: server_failure_notes (Server.server_binary g) ex
      ++ server_cleanup_notes)%list).
Proof.
  intros Hb Hs.
  unfold Server._run_server_thread, try_finally, try_except.
  unfold bind at 1. rewrite Hb.
  unfold bind, emit, lift, modify, get, ret.
  cbn [fst snd]. rewrite Hs. cbn [fst snd app].
  rewrite catches_not_found.
  unfold server_failure_notes, server_worker_done, server_launch_notes,
    server_cleanup_notes.
  destruct (Py.isinstance ex Py.FileNotFoundError); cbn [fst snd app];
    [|rewrite catches_all]; destruct g; reflexivity.
Qed.

Lemma cli_worker_spawn_fails (str_float : float -> string)
    (spawn : list string -> result Popen) (g : Cli.gui) cmd ex :
  Cli.build_cmd str_float g = (Ret cmd, g, []) ->
  spawn cmd = Raise ex ->
  Cli._run_inference_thread str_float spawn g
  = (Ret tt, cli_worker_done g,
     (cli_launch_notes cmd
      ++ popen cmd
      :: cli_failure_notes (Cli.llama_binary g) ex
      ++ cli_cleanup_notes)%list).
Proof.
  intros Hb Hs.
  unfold Cli._run_inference_thread, try_finally, try_except.
  unfold bind at 1. rewrite Hb.
  unfold bind, emit, lift, modify, get, ret.
  cbn [fst snd]. rewrite Hs. cbn [fst snd app].
  rewrite catches_not_found.
  unfold cli_failure_notes, cli_worker_done, cli_launch_notes,
    cli_cleanup_notes.
  destruct (Py.isinstance ex Py.FileNotFoundError); cbn [fst snd app];
    [|rewrite catches_all]; destruct g; reflexivity.
Qed.

Lemma server_worker_no_command (str_float : float -> string)
    (spawn : list string -> result Popen) (g : Server.gui) ex :
  Server.build_command str_float g = (Raise ex, g, []) ->
  Server._run_server_thread str_float spawn g
  = (Ret tt, server_worker_done g,
     (server_failure_notes (Server.server_binary g) ex
      ++ server_cleanup_notes)%list).
Proof.
  intros Hb.
  unfold Server._run_server_thread, try_finally, try_except.
  unfold bind at 1. rewrite Hb.
  unfold bind, emit, lift, modify, get, ret.
  cbn [fst snd app].
  rewrite catches_not_found.
  unfold server_failure_notes, server_worker_done, server_cleanup_notes.
  destruct (Py.isinstance ex Py.FileNotFoundError); cbn [fst snd app];
    [|rewrite catches_all]; destruct g; reflexivity.
Qed.

Lemma cli_worker_no_command (str_float : float -> string)
    (spawn : list string -> result Popen) (g : Cli.gui) ex :
  Cli.build_cmd str_float g = (Raise ex, g, []) ->
  Cli._run_inference_thread str_float spawn g
  = (Ret tt, cli_worker_done g,
     (cli_failure_notes (Cli.llama_binary g) ex ++ cli_cleanup_notes)%list).
Proof.
  intros Hb.
  unfold Cli._run_inference_thread, try_finally, try_except.
  unfold bind at 1. rewrite Hb.
  unfold bind, emit, lift, modify, get, ret.
  cbn [fst snd app].
  rewrite catches_not_found.
  unfold cli_failure_notes, cli_worker_done, cli_cleanup_notes.
  destruct (Py.isinstance ex Py.FileNotFoundError); cbn [fst snd app];
    [|rewrite catches_all]; destruct g; reflexivity.
Qed.

(** The command is built when the four numeric fields read as numbers;
    otherwise the exception of the first one that does not is raised.
    Nothing else happens, the form is only read. *)
Lemma server_build_command_cases (str_float : float -> string) (g : Server.gui) :
  (exists cmd, Server.build_command str_float g = (Ret cmd, g, [])
               /\ server_unread g = None)
  \/ (exists error, Server.build_command str_float g = (Raise error, g, [])
                    /\ server_unread g = Some error).
Proof.
  unfold Server.build_command, server_unread, first_raise, bind, get,
    Server.Var_get, lift, ret.
  cbn [fst snd].
  destruct (Server.port g); [|right; eexists; split; reflexivity].
  destruct (Server.temperature g); [|right; eexists; split; reflexivity].
  destruct (Server.context_size g); [|right; eexists; split; reflexivity].
  destruct (Server.threads g); [|right; eexists; split; reflexivity].
  left. eexists. split; reflexivity.
Qed.

Lemma cli_build_cmd_cases (str_float : float -> string) (g : Cli.gui) :
  (exists cmd, Cli.build_cmd str_float g = (Ret cmd, g, [])
               /\ cli_unread g = None)
  \/ (exists error, Cli.build_cmd str_float g = (Raise error, g, [])
                    /\ cli_unread g = Some error).
Proof.
  unfold Cli.build_cmd, cli_unread, first_raise, bind, get, Cli.Var_get, lift, ret.
  cbn [fst snd].
  destruct (Cli.max_tokens g); [|right; eexists; split; reflexivity].
  destruct (Cli.temperature g); [|right; eexists; split; reflexivity].
  destruct (Cli.top_p g); [|right; eexists; split; reflexivity].
  destruct (Cli.top_k g); [|right; eexists; split; reflexivity].
  left. eexists. split; reflexivity.
Qed.

Lemma relayed_marshalled (lines : list string) : Forall marshalled (relayed lines).
Proof. induction lines; constructor; [exact I|assumption]. Qed.

Lemma failure_notes_marshalled binary ex :
  Forall marshalled (server_failure_notes binary ex)
  /\ Forall marshalled (cli_failure_notes binary ex).
Proof.
  unfold server_failure_notes, cli_failure_notes.
  destruct (Py.isinstance ex Py.FileNotFoundError);
    split; repeat constructor.
Qed.

Ltac marshal :=
  repeat first
    [ apply Forall_app; split
    | apply Forall_cons; [exact I|]
    | apply Forall_nil
    | apply relayed_marshalled
    | apply (proj1 (failure_notes_marshalled _ _))
    | apply (proj2 (failure_notes_marshalled _ _))
    | match goal with
      | |- Forall _ (if ?c then _ else _) => destruct c
      | |- Forall _ (match ?c with Some _ => _ | None => _ end) => destruct c
      end ].

(** X1.  Whatever happens in it (the command cannot be built, the spawn
    fails, the child runs and exits with any status), a worker returns
    without an exception, with [is_running] false and the process handle
    cleared, having left every Tk variable and widget untouched: all it
    does to the interface is handed to the event loop with [root.after(0,
    ...)], the last two such calls being the ones that reset the buttons
    (and, for the server, the status label). *)
Theorem worker_always_cleans_up :
  (forall (str_float : float -> string) (spawn : list string -> result Popen)
          (g : Server.gui),
      exists t,
        Server._run_server_thread str_float spawn g
        = (Ret tt, server_worker_done g, (t ++ server_cleanup_notes)%list)
        /\ Forall marshalled (t ++ server_cleanup_notes))
  /\
  (forall (str_float : float -> string) (spawn : list string -> result Popen)
          (g : Cli.gui),
      exists t,
        Cli._run_inference_thread str_float spawn g
        = (Ret tt, cli_worker_done g, (t ++ cli_cleanup_notes)%list)
        /\ Forall marshalled (t ++ cli_cleanup_notes)).
Proof.
  split; intros sf spawn g.
  - destruct (server_build_command_cases sf g) as [(cmd & Hb & _) | (m & Hb & _)].
    + destruct (spawn cmd) as [p | ex] eqn:Hs.
      * rewrite (server_worker_run sf spawn g cmd p Hb Hs).
        eexists. split.
        -- rewrite !app_comm_cons, !app_assoc. reflexivity.
        -- unfold server_launch_notes, server_exit_notes, server_cleanup_notes.
           marshal.
      * rewrite (server_worker_spawn_fails sf spawn g cmd ex Hb Hs).
        eexists. split.
        -- rewrite !app_comm_cons, !app_assoc. reflexivity.
        -- unfold server_launch_notes, server_cleanup_notes. marshal.
    + rewrite (server_worker_no_command sf spawn g _ Hb).
      eexists. split; [reflexivity|].
      unfold server_cleanup_notes. marshal.
  - destruct (cli_build_cmd_cases sf g) as [(cmd & Hb & _) | (m & Hb & _)].
    + destruct (spawn cmd) as [p | ex] eqn:Hs.
      * rewrite (cli_worker_run sf spawn g cmd p Hb Hs).
        eexists. split.
        -- rewrite !app_comm_cons, !app_assoc. reflexivity.
        -- unfold cli_launch_notes, cli_exit_notes, cli_cleanup_notes. marshal.
      * rewrite (cli_worker_spawn_fails sf spawn g cmd ex Hb Hs).
        eexists. split.
        -- rewrite !app_comm_cons, !app_assoc. reflexivity.
        -- unfold cli_launch_notes, cli_cleanup_notes. marshal.
    + rewrite (cli_worker_no_command sf spawn g _ Hb).
      eexists. split; [reflexivity|].
      unfold cli_cleanup_notes. marshal.
Qed.

(** X2.  When the command can be built and the child is spawned, the worker
    hands to the event loop, in this order: the launch notes with the
    command line, (server) the status Running, and one [append_output] per
    line of the child's output in the order the child wrote them, provided
    [is_running] is true, and none otherwise.  When the output was read to
    its end (or the loop left at the first line because [is_running] is
    false), it then waits for the child without a time-out and reports the
    exit status: the server says "exited normally" for status 0 only if
    [is_running] is true and "exited with code N" for any other status; the
    inference application reports success for 0 and failure with the code
    otherwise, in the status bar and in the output.  When a read of the
    output fails (the pipe is read as text, and output that does not decode
    raises [UnicodeDecodeError]), the child is not waited for and no exit
    status is reported: the worker schedules the error dialog "Failed to
    start server: ..." (or "Failed to run inference: ...") and the status
    "Error: ..." with the text of the exception, after the lines read
    before.  Either way the clean-up calls come last.  (A worker is run here
    from start to end: [is_running] does not change under it.) *)
Theorem worker_relays_output_and_reports_exit :
  (forall (str_float : float -> string) (spawn : list string -> result Popen)
          (g : Server.gui) (cmd : list string) (p : Popen),
      Server.build_command str_float g = (Ret cmd, g, []) ->
      spawn cmd = Ret p ->
      Server._run_server_thread str_float spawn g
      = (Ret tt, server_worker_done g,
         (server_launch_notes cmd
          ++ popen cmd :: root_after 0 (cb_server_status_set "Running")
          :: (if Server.is_running g then relayed (stdout p) else [])
          ++ match relay_error (Server.is_running g) (stdout p) (stdout_error p) with
             | None =>
                 wait None
                 :: server_exit_notes (Server.is_running g) (waited_status p)
             | Some error =>
                 if Py.isinstance error Py.FileNotFoundError
                 then [ root_after 0 (cb_showerror "Error"
                                        ("Binary not found: " ++ Server.server_binary g));
                        root_after 0 (cb_status_var_set "Error: Binary not found") ]
                 else [ root_after 0 (cb_showerror "Error"
                                        ("Failed to start server: " ++ Py.msg error));
                        root_after 0 (cb_status_var_set ("Error: " ++ Py.msg error)) ]
             end
          ++ server_cleanup_notes)%list))
  /\
  (forall (str_float : float -> string) (spawn : list string -> result Popen)
          (g : Cli.gui) (cmd : list string) (p : Popen),
      Cli.build_cmd str_float g = (Ret cmd, g, []) ->
      spawn cmd = Ret p ->
      Cli._run_inference_thread str_float spawn g
      = (Ret tt, cli_worker_done g,
         (cli_launch_notes cmd
          ++ popen cmd
          :: (if Cli.is_running g then relayed (stdout p) else [])
          ++ match relay_error (Cli.is_running g) (stdout p) (stdout_error p) with
             | None => wait None :: cli_exit_notes (waited_status p)
             | Some error =>
                 if Py.isinstance error Py.FileNotFoundError
                 then [ root_after 0 (cb_showerror "Error"
                                        ("Binary not found: " ++ Cli.llama_binary g));
                        root_after 0 (cb_status_var_set "Error: Binary not found") ]
                 else [ root_after 0 (cb_showerror "Error"
                                        ("Failed to run inference: " ++ Py.msg error));
                        root_after 0 (cb_status_var_set ("Error: " ++ Py.msg error)) ]
             end
          ++ cli_cleanup_notes)%list)).
Proof. split; [exact server_worker_run|exact cli_worker_run]. Qed.

Lemma worker_relays_output_and_reports_exit_witness :
  trace (Server._run_server_thread Examples.str_float Examples.spawn
           MoreExamples.server_starting)
  = [ root_after 0 (cb_status_var_set "Launching llama.cpp server...");
      root_after 0 (cb_append_output
        ("Command: /usr/bin/llama-server --model /models/m.gguf --host 127.0.0.1 --port 8080 --temp 0.5 --ctx-size 4096 --threads 8"
         ++ Py.nl ++ Py.nl));
      popen ["/usr/bin/llama-server"; "--model"; "/models/m.gguf";
             "--host"; "127.0.0.1"; "--port"; "8080"; "--temp"; "0.5";
             "--ctx-size"; "4096"; "--threads"; "8"];
      root_after 0 (cb_server_status_set "Running");
      root_after 0 (cb_append_output "loading");
      root_after 0 (cb_append_output "ready");
      wait None;
      root_after 0 (cb_status_var_set "Server exited normally.");
      root_after 0 (cb_set_button_states NORMAL DISABLED NORMAL);
      root_after 0 (cb_server_status_set "Stopped") ]
  /\ trace (Cli._run_inference_thread Examples.str_float MoreExamples.spawn_garbling
              MoreExamples.cli_starting)
     = [ root_after 0 (cb_status_var_set "Running inference...");
         root_after 0 (cb_append_output
           ("Command: /usr/bin/llama-cli -m /models/m.gguf -p Hello -n 512 --temp 0.5 --top-p 0.75 --top-k 40"
            ++ Py.nl ++ Py.nl));
         popen ["/usr/bin/llama-cli"; "-m"; "/models/m.gguf"; "-p"; "Hello";
                "-n"; "512"; "--temp"; "0.5"; "--top-p"; "0.75"; "--top-k"; "40"];
         root_after 0 (cb_append_output "loading");
         root_after 0 (cb_showerror "Error"
           "Failed to run inference: 'utf-8' codec can't decode byte 0xff in position 0: invalid start byte");
         root_after 0 (cb_status_var_set
           "Error: 'utf-8' codec can't decode byte 0xff in position 0: invalid start byte");
         root_after 0 (cb_run_button_config NORMAL);
         root_after 0 (cb_stop_button_config DISABLED) ].
Proof.
  split.
  - exact (f_equal trace
             (proj1 worker_relays_output_and_reports_exit Examples.str_float
                Examples.spawn MoreExamples.server_starting _ Examples.child
                eq_refl eq_refl)).
  - exact (f_equal trace
             (proj2 worker_relays_output_and_reports_exit Examples.str_float
                MoreExamples.spawn_garbling MoreExamples.cli_starting _
                MoreExamples.garbling eq_refl eq_refl)).
Defined.

(** X3.  When the spawn fails, no child exists and the worker schedules an
    error dialog and a status line: "Binary not found" with the path of the
    binary field for a [FileNotFoundError], and "Failed to start server" /
    "Failed to run inference" with the text of the exception for any other
    one; then it cleans up as always. *)
Theorem worker_reports_spawn_failure :
  (forall (str_float : float -> string) (spawn : list string -> result Popen)
          (g : Server.gui) (cmd : list string) (ex : Py.exn),
      Server.build_command str_float g = (Ret cmd, g, []) ->
      spawn cmd = Raise ex ->
      Server._run_server_thread str_float spawn g
      = (Ret tt, server_worker_done g,
         (server_launch_notes cmd
          ++ popen cmd
          :: (if Py.isinstance ex Py.FileNotFoundError
              then [ root_after 0 (cb_showerror "Error"
                                     ("Binary not found: " ++ Server.server_binary g));
                     root_after 0 (cb_status_var_set "Error: Binary not found") ]
              else [ root_after 0 (cb_showerror "Error"
                                     ("Failed to start server: " ++ Py.msg ex));
                     root_after 0 (cb_status_var_set ("Error: " ++ Py.msg ex)) ])
          ++ server_cleanup_notes)%list))
  /\
  (forall (str_float : float -> string) (spawn : list string -> result Popen)
          (g : Cli.gui) (cmd : list string) (ex : Py.exn),
      Cli.build_cmd str_float g = (Ret cmd, g, []) ->
      spawn cmd = Raise ex ->
      Cli._run_inference_thread str_float spawn g
      = (Ret tt, cli_worker_done g,
         (cli_launch_notes cmd
          ++ popen cmd
          :: (if Py.isinstance ex Py.FileNotFoundError
              then [ root_after 0 (cb_showerror "Error"
                                     ("Binary not found: " ++ Cli.llama_binary g));
                     root_after 0 (cb_status_var_set "Error: Binary not found") ]
              else [ root_after 0 (cb_showerror "Error"
                                     ("Failed to run inference: " ++ Py.msg ex));
                     root_after 0 (cb_status_var_set ("Error: " ++ Py.msg ex)) ])
          ++ cli_cleanup_notes)%list)).
Proof. split; [exact server_worker_spawn_fails|exact cli_worker_spawn_fails]. Qed.

Lemma worker_reports_spawn_failure_witness :
  outcome (Server._run_server_thread Examples.str_float MoreExamples.binary_gone
             MoreExamples.server_starting) = Ret tt
  /\ trace (Cli._run_inference_thread Examples.str_float MoreExamples.not_permitted
              MoreExamples.cli_starting)
     = [ root_after 0 (cb_status_var_set "Running inference...");
         root_after 0 (cb_append_output
           ("Command: /usr/bin/llama-cli -m /models/m.gguf -p Hello -n 512 --temp 0.5 --top-p 0.75 --top-k 40"
            ++ Py.nl ++ Py.nl));
         popen ["/usr/bin/llama-cli"; "-m"; "/models/m.gguf"; "-p"; "Hello";
                "-n"; "512"; "--temp"; "0.5"; "--top-p"; "0.75"; "--top-k"; "40"];
         root_after 0 (cb_showerror "Error"
                         "Failed to run inference: [Errno 13] Permission denied");
         root_after 0 (cb_status_var_set "Error: [Errno 13] Permission denied");
         root_after 0 (cb_run_button_config NORMAL);
         root_after 0 (cb_stop_button_config DISABLED) ].
Proof.
  split.
  - exact (f_equal outcome
             (proj1 worker_reports_spawn_failure Examples.str_float
                MoreExamples.binary_gone MoreExamples.server_starting _ _
                eq_refl eq_refl)).
  - exact (f_equal trace
             (proj2 worker_reports_spawn_failure Examples.str_float
                MoreExamples.not_permitted MoreExamples.cli_starting _ _
                eq_refl eq_refl)).
Defined.

(** X4.  The numeric fields other than the port (for the inference
    application: all of them) are not validated: validation answers without
    looking at them.  When one of them does not read as a number, the
    worker fails before it spawns anything: the exception is that of the
    first such field in the order in which the command line reads them, and
    the worker schedules the dialog "Failed to start server: ..." (or
    "Failed to run inference: ...") and the status "Error: ..." with the
    text of that exception, the [TclError] of Tcl for text that is not a
    number, and then the clean-up calls, nothing else. *)
Theorem worker_spawns_nothing_without_numbers :
  (forall (e : Os.env) (str_float : float -> string)
          (spawn : list string -> result Popen) (g : Server.gui)
          (port : Z) (error : Py.exn),
      Server.port g = Ret port ->
      server_unread g = Some error ->
      Py.isinstance error Py.FileNotFoundError = false ->
      outcome (Server.validate_inputs e g) = Ret (server_inputs_valid e g)
      /\ Server._run_server_thread str_float spawn g
         = (Ret tt, server_worker_done g,
            [ root_after 0 (cb_showerror "Error"
                              ("Failed to start server: " ++ Py.msg error));
              root_after 0 (cb_status_var_set ("Error: " ++ Py.msg error));
              root_after 0 (cb_set_button_states NORMAL DISABLED NORMAL);
              root_after 0 (cb_server_status_set "Stopped") ]))
  /\
  (forall (e : Os.env) (str_float : float -> string)
          (spawn : list string -> result Popen) (g : Cli.gui) (error : Py.exn),
      cli_unread g = Some error ->
      Py.isinstance error Py.FileNotFoundError = false ->
      outcome (Cli.validate_inputs e g) = Ret (cli_inputs_valid e g)
      /\ Cli._run_inference_thread str_float spawn g
         = (Ret tt, cli_worker_done g,
            [ root_after 0 (cb_showerror "Error"
                              ("Failed to run inference: " ++ Py.msg error));
              root_after 0 (cb_status_var_set ("Error: " ++ Py.msg error));
              root_after 0 (cb_run_button_config NORMAL);
              root_after 0 (cb_stop_button_config DISABLED) ])).
Proof.
  split.
  - intros e sf spawn g port error Hp Hu Hf. split.
    { assert (Hh : port_handled g = true) by (unfold port_handled; now rewrite Hp).
      destruct (server_validate_spec e g Hh) as (t & -> & _). reflexivity. }
    destruct (server_build_command_cases sf g)
      as [(cmd & _ & Hn) | (error' & Hb & Hu')]; [congruence|].
    assert (error' = error) by congruence. subst error'.
    rewrite (server_worker_no_command sf spawn g _ Hb).
    unfold server_failure_notes. rewrite Hf. reflexivity.
  - intros e sf spawn g error Hu Hf. split.
    { destruct (cli_validate_spec e g) as (t & -> & _). reflexivity. }
    destruct (cli_build_cmd_cases sf g)
      as [(cmd & _ & Hn) | (error' & Hb & Hu')]; [congruence|].
    assert (error' = error) by congruence. subst error'.
    rewrite (cli_worker_no_command sf spawn g _ Hb).
    unfold cli_failure_notes. rewrite Hf. reflexivity.
Qed.

Lemma worker_spawns_nothing_without_numbers_witness :
  server_inputs_valid Examples.unix MoreExamples.server_bad_context = true
  /\ trace (Server._run_server_thread Examples.str_float Examples.spawn
              MoreExamples.server_bad_context)
     = [ root_after 0 (cb_showerror "Error"
           ("Failed to start server: "
            ++ Py.msg (Examples.not_a_number "4k")));
         root_after 0 (cb_status_var_set
           ("Error: " ++ Py.msg (Examples.not_a_number "4k")));
         root_after 0 (cb_set_button_states NORMAL DISABLED NORMAL);
         root_after 0 (cb_server_status_set "Stopped") ]
  /\ trace (Cli._run_inference_thread Examples.str_float Examples.spawn
              MoreExamples.cli_bad_top_k)
     = [ root_after 0 (cb_showerror "Error"
           "Failed to run inference: cannot convert float infinity to integer");
         root_after 0 (cb_status_var_set
           "Error: cannot convert float infinity to integer");
         root_after 0 (cb_run_button_config NORMAL);
         root_after 0 (cb_stop_button_config DISABLED) ].
Proof.
  split; [reflexivity|]. split.
  - exact (f_equal trace
             (proj2 (proj1 worker_spawns_nothing_without_numbers Examples.unix
                       Examples.str_float Examples.spawn
                       MoreExamples.server_bad_context 8080
                       (Examples.not_a_number "4k") eq_refl eq_refl eq_refl))).
  - exact (f_equal trace
             (proj2 (proj2 worker_spawns_nothing_without_numbers Examples.unix
                       Examples.str_float Examples.spawn
                       MoreExamples.cli_bad_top_k Examples.too_large
                       eq_refl eq_refl))).
Defined.

(* ================================================================== *)
(** ** The event loop *)

Lemma string_app_assoc (a b c : string) : ((a ++ b) ++ c = a ++ (b ++ c))%string.
Proof. induction a as [|x a IH]; cbn; [reflexivity|]. now rewrite IH. Qed.

Lemma string_app_nil_r (a : string) : (a ++ "" = a)%string.
Proof. induction a as [|x a IH]; cbn; [reflexivity|]. now rewrite IH. Qed.

Lemma join_empty_cons (l : string) (rest : list string) :
  Py.join "" (l :: rest) = (l ++ Py.join "" rest)%string.
Proof.
  unfold Py.join. destruct rest as [|r rest]; cbn.
  - now rewrite string_app_nil_r.
  - reflexivity.
Qed.

Lemma scheduled_app (a b : list event) :
  scheduled (a ++ b) = (scheduled a ++ scheduled b)%list.
Proof. apply flat_map_app. Qed.

Lemma scheduled_cons (ev : event) (t : list event) :
  scheduled (ev :: t) = (scheduled [ev] ++ scheduled t)%list.
Proof. unfold scheduled. cbn [flat_map]. now rewrite app_nil_r. Qed.

Lemma scheduled_relayed (lines : list string) :
  scheduled (relayed lines) = map (fun line => (0, cb_append_output line)) lines.
Proof. induction lines as [|l rest IH]; cbn; [reflexivity|]. now rewrite <- IH. Qed.

Section ServerLoop.

Variable e : Os.env.
Variable GET : string -> Server.reply.

Lemma server_plain_schedules_nothing (cb : callback) (g : Server.gui) :
  plain cb = true -> scheduled (trace (ServerApp.run_callback e GET cb g)) = [].
Proof. destruct cb; cbn; intros H; try discriminate H; reflexivity. Qed.

Lemma server_drain_plain (ts : list (Z * callback)) :
  forallb plain (map snd ts) = true ->
  forall g,
    ServerApp.drain e GET (length ts) (ServerApp.mkLoop g ts)
    = ServerApp.mkLoop
        (fold_left (fun g cb => final (ServerApp.run_callback e GET cb g))
                   (map snd ts) g)
        [].
Proof.
  induction ts as [|[ms cb] rest IH]; intros Hp g; [reflexivity|].
  cbn [map snd forallb] in Hp. apply andb_prop in Hp. destruct Hp as [Hcb Hrest].
  cbn [length ServerApp.drain map snd fold_left].
  unfold ServerApp.fire. cbn [ServerApp.timers ServerApp.app nth_error firstn skipn app].
  unfold ServerApp.handle. cbn [ServerApp.timers ServerApp.app].
  rewrite (server_plain_schedules_nothing cb g Hcb), app_nil_r.
  apply IH. exact Hrest.
Qed.

Lemma server_show_lines (lines : list string) (g : Server.gui) :
  fold_left (fun g cb => final (ServerApp.run_callback e GET cb g))
            (map (fun line => cb_append_output line) lines) g
  = Server.set_output_text (Server.output_text g ++ Py.join "" lines) g.
Proof.
  revert g. induction lines as [|l rest IH]; intros g.
  - cbn. rewrite string_app_nil_r. destruct g; reflexivity.
  - cbn [map fold_left]. rewrite IH, join_empty_cons.
    destruct g; cbn. rewrite string_app_assoc. reflexivity.
Qed.

End ServerLoop.

Lemma lines_plain (lines : list string) :
  forallb plain (map snd (map (fun line => (0, cb_append_output line)) lines)) = true.
Proof. induction lines; [reflexivity|exact IHlines]. Qed.

(** X5.  After a run of the server worker in which the child was spawned
    and [is_running] was true, once the event loop has run the callbacks
    the worker handed to it, in the order it handed them over, no timer of
    the run is left and the application shows: in the output area, after
    what was there, the command line and then the child's lines in the
    order the child wrote them; the server status Stopped; the start and
    restart buttons enabled and the stop button disabled; and in the status
    bar, how the child exited, when its output was read to the end.  When a
    read of the output failed (output that does not decode), the status bar
    reads "Error: ..." with the text of the exception instead, as if the
    server had failed to start, and no exit status is shown. *)
Theorem server_display_after_run :
  forall (e : Os.env) (GET : string -> Server.reply)
         (str_float : float -> string) (spawn : list string -> result Popen)
         (g : Server.gui) (cmd : list string) (p : Popen),
    Server.build_command str_float g = (Ret cmd, g, []) ->
    spawn cmd = Ret p ->
    Server.is_running g = true ->
    let l := ServerApp.handle (Server._run_server_thread str_float spawn)
               (ServerApp.mkLoop g []) in
    ServerApp.drain e GET (length (ServerApp.timers l)) l
    = ServerApp.mkLoop (server_shown g cmd p) [].
Proof.
  intros e GET sf spawn g cmd p Hb Hs Hr l. subst l.
  unfold ServerApp.handle. cbn [ServerApp.app ServerApp.timers app].
  rewrite (server_worker_run sf spawn g cmd p Hb Hs), Hr.
  cbn [final trace fst snd relay_error].
  match goal with
  | |- context [(relayed (stdout p) ++ ?t ++ server_cleanup_notes)%list] =>
      remember t as tail eqn:Htail
  end.
  assert (Ht : scheduled
                 (server_launch_notes cmd
                  ++ popen cmd :: root_after 0 (cb_server_status_set "Running")
                  :: relayed (stdout p) ++ tail ++ server_cleanup_notes)
               = ([ (0, cb_status_var_set "Launching llama.cpp server...");
                    (0, cb_append_output
                          ("Command: " ++ Py.join " " cmd ++ Py.nl ++ Py.nl));
                    (0, cb_server_status_set "Running") ]
                  ++ map (fun line => (0, cb_append_output line)) (stdout p)
                  ++ scheduled tail
                  ++ [ (0, cb_set_button_states NORMAL DISABLED NORMAL);
                       (0, cb_server_status_set "Stopped") ])%list).
  { rewrite scheduled_app.
    rewrite (scheduled_cons (popen cmd)).
    rewrite (scheduled_cons (root_after 0 (cb_server_status_set "Running"))).
    rewrite scheduled_app, scheduled_relayed, scheduled_app.
    reflexivity. }
  rewrite Ht. clear Ht.
  rewrite server_drain_plain.
  2:{ rewrite !map_app, !forallb_app, lines_plain.
      rewrite Htail. unfold server_exit_notes, server_failure_notes.
      destruct (stdout_error p) as [error|];
        [destruct (Py.isinstance error Py.FileNotFoundError)
        |destruct (waited_status p =? 0)]; reflexivity. }
  f_equal.
  rewrite !map_app, !fold_left_app, map_map. cbn [snd].
  rewrite server_show_lines.
  rewrite Htail. unfold server_exit_notes, server_failure_notes, server_shown,
    server_worker_done.
  destruct (stdout_error p) as [error|];
    [destruct (Py.isinstance error Py.FileNotFoundError)
    |destruct (waited_status p =? 0)]; destruct g; cbn;
    repeat (rewrite string_app_assoc; cbn); reflexivity.
Qed.

Lemma server_display_after_run_witness :
  Server.output_text
    (ServerApp.app
       (ServerApp.drain Examples.unix Examples.online 8
          (ServerApp.handle
             (Server._run_server_thread Examples.str_float Examples.spawn)
             (ServerApp.mkLoop MoreExamples.server_starting []))))
  = ("Command: /usr/bin/llama-server --model /models/m.gguf --host 127.0.0.1 --port 8080 --temp 0.5 --ctx-size 4096 --threads 8"
     ++ Py.nl ++ Py.nl ++ "loadingready")%string.
Proof.
  exact (f_equal (fun l => Server.output_text (ServerApp.app l))
           (server_display_after_run Examples.unix Examples.online
              Examples.str_float Examples.spawn MoreExamples.server_starting
              _ Examples.child eq_refl eq_refl eq_refl)).
Defined.

(* ================================================================== *)
(** ** Construction and the endpoint *)

Lemma update_endpoint_url_spec (g : Server.gui) :
  port_read (Server.port g) = true ->
  Server.update_endpoint_url g
  = (Ret tt, Server.set_endpoint_url (authority g ++ "/v1") g, []).
Proof.
  unfold Server.update_endpoint_url, authority, endpoint_host, endpoint_port,
    port_read, bind, get, try_except, modify, Server.Var_get, lift, ret.
  cbn [fst snd].
  destruct (Server.port g) as [p|error]; intros Hp.
  - cbn. destruct ((p <? 1) || (p >? 65535)); cbn;
      repeat (rewrite string_app_assoc; cbn); reflexivity.
  - rewrite Hp. cbn. repeat (rewrite string_app_assoc; cbn). reflexivity.
Qed.

Lemma update_endpoint_url_escapes (g : Server.gui) (error : Py.exn) :
  Server.port g = Raise error ->
  Py.caught_by [Py.TclError] error = false ->
  Server.update_endpoint_url g = (Raise error, g, []).
Proof.
  intros Hg Hc.
  unfold Server.update_endpoint_url, bind, get, try_except, Server.Var_get, lift.
  cbn [fst snd]. rewrite Hg, Hc. reflexivity.
Qed.

Lemma update_endpoint_url_cases (g : Server.gui) :
  Server.update_endpoint_url g
  = (Ret tt, Server.set_endpoint_url (authority g ++ "/v1") g, [])
  \/ exists error, Server.update_endpoint_url g = (Raise error, g, []).
Proof.
  destruct (port_read (Server.port g)) eqn:Hp.
  - left. exact (update_endpoint_url_spec g Hp).
  - right. unfold port_read in Hp. destruct (Server.port g) as [p|error] eqn:Hg;
      [discriminate Hp|].
    exists error. exact (update_endpoint_url_escapes g error Hg Hp).
Qed.

Lemma server_init_spec (e : Os.env) :
  ServerApp.__init__ e
  = (Ret tt, server_constructed (hd Server.sentinel (server_hits e)),
     [root_after 2000 cb_poll_server_status]).
Proof.
  unfold ServerApp.__init__, bind. rewrite server_detect_spec.
  unfold ServerApp.setup_ui, bind, Server.set_button_states, modify, emit.
  cbn [fst snd]. rewrite update_endpoint_url_spec by reflexivity. reflexivity.
Qed.

Lemma cli_init_spec (e : Os.env) :
  CliApp.__init__ e
  = (Ret tt, cli_constructed (hd Cli.sentinel (cli_hits e)), []).
Proof.
  unfold CliApp.__init__, bind. rewrite cli_detect_spec. reflexivity.
Qed.

Section ServerFrames.

Variable e : Os.env.
Variable answers_yes : bool.
Variable str_float : float -> string.
Variable spawn : list string -> result Popen.
Variable GET : string -> Server.reply.

Lemma server_validate_keeps {X} (f : Server.gui -> X) :
  keeps f (Server.validate_inputs e).
Proof. unfold Server.validate_inputs, Server.Var_get. frame. Qed.

Lemma server_start_keeps_form : keeps server_form (Server.start_server e).
Proof.
  unfold Server.start_server, Server.set_button_states, Server.clear_output.
  frame_with ltac:(apply server_validate_keeps).
Qed.

Lemma server_stop_keeps_form : keeps server_form Server.stop_server.
Proof.
  unfold Server.stop_server, Server.set_button_states, Server.append_output,
    Server.process_terminate, Server.process_wait, Server.process_kill,
    Popen_terminate, Popen_wait, Popen_kill.
  frame.
Qed.

Lemma server_restart_keeps_form (delay_ms : option Z) :
  keeps server_form (Server._restart_server_after_stop e delay_ms).
Proof.
  unfold Server._restart_server_after_stop, Server._schedule_restart_check.
  frame_with ltac:(apply server_start_keeps_form).
Qed.

Lemma server_apply_keeps_form :
  keeps server_form (Server.apply_settings e answers_yes).
Proof.
  unfold Server.apply_settings.
  frame_with ltac:(first [ apply server_stop_keeps_form
                         | apply server_restart_keeps_form
                         | apply server_start_keeps_form ]).
Qed.

Lemma server_poll_keeps_but_labels :
  keeps server_but_labels (Server.poll_server_status GET).
Proof. unfold Server.poll_server_status. frame. Qed.

Lemma server_poll_keeps_form : keeps server_form (Server.poll_server_status GET).
Proof. unfold Server.poll_server_status. frame. Qed.

Lemma server_worker_keeps_form :
  keeps server_form (Server._run_server_thread str_float spawn).
Proof.
  unfold Server._run_server_thread, Server.build_command, Server.Var_get,
    Server.process_wait, Popen_wait.
  frame. apply server_relay_keeps.
Qed.

Lemma server_callback_keeps_form (cb : callback) :
  keeps server_form (ServerApp.run_callback e GET cb).
Proof.
  destruct cb; cbn [ServerApp.run_callback].
  - apply server_restart_keeps_form.
  - apply server_poll_keeps_form.
  - frame.
  - frame.
  - unfold Server.append_output. frame.
  - unfold Server.set_button_states. frame.
  - frame.
  - frame.
  - frame.
Qed.

End ServerFrames.

(** X6.  Which of the handlers the server application binds (the button
    commands, the trace on host and port, the timers) and its worker write
    to the form (the binary, model, host, port, temperature, context-size
    and thread fields and the endpoint).  Three do: [browse_binary] writes
    the binary field and [browse_model] the model field, each with the file
    the dialog returned and not at all when the dialog was cancelled, and
    [update_endpoint_url], the trace on host and port, writes the endpoint
    and nothing else.  The others leave the form as the user set it, also
    when they raise: the start, stop and restart commands, the readiness
    check of a restart, Clear Output, a poll tick, the worker and every
    callback the event loop runs.  A poll tick moreover writes nothing but
    the two labels of the monitor. *)
Theorem only_browse_and_trace_write_the_form :
  forall (e : Os.env) (answers_yes : bool) (str_float : float -> string)
         (spawn : list string -> result Popen) (GET : string -> Server.reply)
         (g : Server.gui),
    (forall filename,
        final (ServerApp.browse_binary e filename g)
        = if Py.truthy filename then Server.set_server_binary filename g else g)
    /\ (forall filename,
          final (ServerApp.browse_model filename g)
          = if Py.truthy filename then ServerApp.set_model_path filename g else g)
    /\ server_but_endpoint (final (Server.update_endpoint_url g))
       = server_but_endpoint g
    /\ server_form (final (Server.start_server e g)) = server_form g
    /\ server_form (final (Server.stop_server g)) = server_form g
    /\ server_form (final (Server.apply_settings e answers_yes g)) = server_form g
    /\ (forall delay_ms,
          server_form (final (Server._restart_server_after_stop e delay_ms g))
          = server_form g)
    /\ server_form (final (Server.clear_output g)) = server_form g
    /\ server_form (final (Server._run_server_thread str_float spawn g))
       = server_form g
    /\ (forall cb,
          server_form (final (ServerApp.run_callback e GET cb g)) = server_form g)
    /\ server_but_labels (final (Server.poll_server_status GET g))
       = server_but_labels g.
Proof.
  intros e ans sf spawn GET g.
  split; [intros filename; unfold ServerApp.browse_binary, bind, emit; cbn;
          destruct (Py.truthy filename); reflexivity|].
  split; [intros filename; unfold ServerApp.browse_model, bind, emit; cbn;
          destruct (Py.truthy filename); reflexivity|].
  split.
  { destruct (update_endpoint_url_cases g) as [-> | [error ->]];
      [destruct g|]; reflexivity. }
  split; [apply server_start_keeps_form|].
  split; [apply server_stop_keeps_form|].
  split; [apply server_apply_keeps_form|].
  split; [intros d; apply server_restart_keeps_form|].
  split; [destruct g; reflexivity|].
  split; [apply server_worker_keeps_form|].
  split; [intros cb; apply server_callback_keeps_form|].
  apply server_poll_keeps_but_labels.
Qed.

Lemma tracks_of_form (g g' : Server.gui) :
  server_form g' = server_form g ->
  endpoint_tracks_form g -> endpoint_tracks_form g'.
Proof.
  unfold server_form, endpoint_tracks_form, authority. intros H.
  inversion H as [[Hb Hm Hh Hp Ht Hc Hn Hu]]. rewrite Hh, Hp, Hu. auto.
Qed.

Lemma write_host_spec (text : string) (g : Server.gui) :
  port_read (Server.port g) = true ->
  ServerApp.write_host text g
  = (Ret tt,
     Server.set_endpoint_url (authority (ServerApp.set_host text g) ++ "/v1")
       (ServerApp.set_host text g), []).
Proof.
  intros Hp. unfold ServerApp.write_host, bind, modify. cbn [fst snd].
  rewrite update_endpoint_url_spec by (destruct g; exact Hp). reflexivity.
Qed.

Lemma write_port_spec (text : result Z) (g : Server.gui) :
  port_read text = true ->
  ServerApp.write_port text g
  = (Ret tt,
     Server.set_endpoint_url (authority (ServerApp.set_port text g) ++ "/v1")
       (ServerApp.set_port text g), []).
Proof.
  intros Hp. unfold ServerApp.write_port, bind, modify. cbn [fst snd].
  rewrite update_endpoint_url_spec by (destruct g; exact Hp). reflexivity.
Qed.

Lemma write_port_escapes (error : Py.exn) (g : Server.gui) :
  Py.caught_by [Py.TclError] error = false ->
  ServerApp.write_port (Raise error) g
  = (Raise error, ServerApp.set_port (Raise error) g, []).
Proof.
  intros Hc. unfold ServerApp.write_port, bind, modify. cbn [fst snd].
  rewrite (update_endpoint_url_escapes _ error) by (destruct g; auto).
  reflexivity.
Qed.

(** X7.  When the endpoint field shows what the host and port fields give,
    and when it does not.  What they give is [http://<host>:<port>/v1] with
    the host stripped, 127.0.0.1 for a blank host, and 8080 for a port that
    is out of [1, 65535] or on which [get()] raises [TclError].  The
    endpoint shows it when the constructor returns; an edit of the host or
    the port restores it, provided reading the port gives a number or
    raises [TclError]; and every handler and every timer the event loop
    fires keeps it.  A port on which [get()] raises anything else
    ([OverflowError] for [1e400]) is not caught by [update_endpoint_url]:
    the exception leaves the trace, and the endpoint stays what it was
    before the edit, so that it no longer shows what the fields give. *)
Theorem endpoint_tracks_host_and_port :
  (forall e : Os.env, endpoint_tracks_form (final (ServerApp.__init__ e)))
  /\ (forall (text : string) (g : Server.gui),
         port_read (Server.port g) = true ->
         outcome (ServerApp.write_host text g) = Ret tt
         /\ endpoint_tracks_form (final (ServerApp.write_host text g)))
  /\ (forall (text : result Z) (g : Server.gui),
         port_read text = true ->
         outcome (ServerApp.write_port text g) = Ret tt
         /\ endpoint_tracks_form (final (ServerApp.write_port text g)))
  /\ (forall (error : Py.exn) (g : Server.gui),
         Py.caught_by [Py.TclError] error = false ->
         outcome (ServerApp.write_port (Raise error) g) = Raise error
         /\ Server.port (final (ServerApp.write_port (Raise error) g)) = Raise error
         /\ Server.endpoint_url (final (ServerApp.write_port (Raise error) g))
            = Server.endpoint_url g)
  /\ (forall (e : Os.env) (answers_yes : bool) (str_float : float -> string)
             (spawn : list string -> result Popen) (GET : string -> Server.reply)
             (g : Server.gui),
         endpoint_tracks_form g ->
         endpoint_tracks_form (final (Server.start_server e g))
         /\ endpoint_tracks_form (final (Server.stop_server g))
         /\ endpoint_tracks_form (final (Server.apply_settings e answers_yes g))
         /\ endpoint_tracks_form (final (Server.poll_server_status GET g))
         /\ endpoint_tracks_form (final (Server._run_server_thread str_float spawn g)))
  /\ (forall (e : Os.env) (GET : string -> Server.reply) (i : nat)
             (l : ServerApp.loop),
         endpoint_tracks_form (ServerApp.app l) ->
         endpoint_tracks_form (ServerApp.app (ServerApp.fire e GET i l))).
Proof.
  split; [|split; [|split; [|split; [|split]]]].
  - intros e. rewrite server_init_spec. reflexivity.
  - intros text g Hp. rewrite (write_host_spec text g Hp). split; [reflexivity|].
    destruct g; reflexivity.
  - intros text g Hp. rewrite (write_port_spec text g Hp). split; [reflexivity|].
    destruct g; reflexivity.
  - intros error g Hc. rewrite (write_port_escapes error g Hc).
    destruct g; repeat split.
  - intros e ans sf spawn GET g Hg.
    repeat split; (eapply tracks_of_form; [|exact Hg]).
    + apply server_start_keeps_form.
    + apply server_stop_keeps_form.
    + apply server_apply_keeps_form.
    + apply server_poll_keeps_form.
    + apply server_worker_keeps_form.
  - intros e GET i l Hl. unfold ServerApp.fire.
    destruct (nth_error (ServerApp.timers l) i) as [[ms cb]|]; [|exact Hl].
    unfold ServerApp.handle. cbn [ServerApp.app].
    eapply tracks_of_form; [|exact Hl]. apply server_callback_keeps_form.
Qed.

Lemma endpoint_tracks_host_and_port_witness :
  endpoint_tracks_form
    (final (Server.start_server Examples.unix Examples.server_ready))
  /\ Server.endpoint_url
       (final (ServerApp.write_host "  " Examples.server_padded_host))
     = "http://127.0.0.1:8080/v1"
  /\ Server.endpoint_url
       (final (ServerApp.write_port (Ret 70000) Examples.server_ready))
     = "http://127.0.0.1:8080/v1"
  /\ Server.endpoint_url
       (final (ServerApp.write_port (Raise (Examples.not_a_number "80 80"))
                 Examples.server_ready))
     = "http://127.0.0.1:8080/v1"
  /\ Server.endpoint_url
       (final (ServerApp.write_port (Raise Examples.too_large)
                 (final (ServerApp.write_port (Ret 9000) Examples.server_ready))))
     = "http://127.0.0.1:9000/v1".
Proof.
  split; [|split; [|split; [|split]]].
  - refine (proj1 (proj1 (proj2 (proj2 (proj2 (proj2 endpoint_tracks_host_and_port))))
              Examples.unix true Examples.str_float Examples.spawn Examples.online
              Examples.server_ready _)).
    reflexivity.
  - exact (proj2 (proj1 (proj2 endpoint_tracks_host_and_port)
                    "  " Examples.server_padded_host eq_refl)).
  - exact (proj2 (proj1 (proj2 (proj2 endpoint_tracks_host_and_port))
                    (Ret 70000) Examples.server_ready eq_refl)).
  - exact (proj2 (proj1 (proj2 (proj2 endpoint_tracks_host_and_port))
                    (Raise (Examples.not_a_number "80 80")) Examples.server_ready
                    eq_refl)).
  - exact (proj2 (proj2 (proj1 (proj2 (proj2 (proj2 endpoint_tracks_host_and_port)))
                           Examples.too_large
                           (final (ServerApp.write_port (Ret 9000) Examples.server_ready))
                           eq_refl))).
Defined.

(* ================================================================== *)
(** ** The URLs of a poll tick *)

Lemma strip_keeps_url (s : string) :
  Py.strip ("http://" ++ s ++ "/v1") = ("http://" ++ s ++ "/v1")%string.
Proof.
  assert (Hr : forall t, Py.rstrip (t ++ "/v1") = (t ++ "/v1")%string).
  { induction t as [|c t IH]; [reflexivity|].
    cbn [String.append Py.rstrip]. rewrite IH.
    destruct t; reflexivity. }
  unfold Py.strip.
  change ("http://" ++ s ++ "/v1")%string with (("http://" ++ s) ++ "/v1")%string.
  change (Py.lstrip (("http://" ++ s) ++ "/v1"))
    with (("http://" ++ s) ++ "/v1")%string.
  apply Hr.
Qed.

Lemma prefix_v1_before_end (c : ascii) (r : string) :
  String.prefix "/v1" (String c (r ++ "/v1"))
  = String.prefix "/v1" (String c (r ++ "/v")).
Proof.
  destruct r as [|d [|x r']]; cbn [String.prefix String.append];
    repeat match goal with
           | |- context [ascii_dec ?a ?b] => destruct (ascii_dec a b)
           end;
    try reflexivity; try congruence.
  destruct r'; reflexivity.
Qed.

Lemma replace_v1_at_end (u : string) :
  occurs "/v1" (u ++ "/v") = false ->
  Py.replace "/v1" "/health" (u ++ "/v1") = (u ++ "/health")%string.
Proof.
  unfold Py.replace. induction u as [|c r IH]; intros H; [reflexivity|].
  cbn [String.append occurs] in H. apply orb_false_elim in H.
  destruct H as [Hp Ho].
  cbn [String.append Py.replace_from].
  rewrite prefix_v1_before_end, Hp, (IH Ho). reflexivity.
Qed.

Lemma trace_bind_prefix {St A B} (m : M St A) (k : A -> M St B) (s : St) :
  exists rest, trace (bind m k s) = (trace (m s) ++ rest)%list.
Proof.
  unfold bind. destruct (m s) as [[[a | e] s1] t1]; cbn [trace snd].
  - destruct (k a s1) as [[r s2] t2]. exists t2. reflexivity.
  - exists []. now rewrite app_nil_r.
Qed.

Lemma poll_first_request (GET : string -> Server.reply) (g : Server.gui) :
  Py.truthy (Py.strip (Server.endpoint_url g)) = true ->
  exists rest,
    trace (Server.poll_server_status GET g) = urlopen (health_url g) 2 :: rest.
Proof.
  intros Hb. unfold Server.poll_server_status.
  unfold bind at 1, get at 1. cbn [fst snd]. rewrite Hb. cbn [negb].
  match goal with
  | |- context [bind ?m ?k g] =>
      destruct (trace_bind_prefix m k g) as [r1 H1];
      destruct (bind m k g) as [[r s] t] eqn:Hrun
  end.
  cbn [trace snd app] in *. subst t.
  match type of Hrun with
  | context [try_except ?body ?cls ?h] =>
      destruct (trace_try_except body cls h g) as [r2 H2]; rewrite H2
  end.
  match goal with
  | |- context [bind ?m ?k g] =>
      destruct (trace_bind_prefix m k g) as [r3 H3]; rewrite H3
  end.
  cbn [emit trace snd app]. eexists. reflexivity.
Qed.

(** X8.  With the endpoint derived from the form, a poll tick never finds
    the endpoint empty: its first call is the health request, with a
    time-out of 2 seconds.  When [/v1] occurs in the endpoint only as its
    final path, the health URL is the endpoint with [/v1] replaced by
    [/health] and the model URL is the endpoint followed by [/models].  A
    host in which [/v1] occurs spoils the health URL, every occurrence
    being replaced: for the host [v1.example.org] the tick asks
    [http://health.example.org:8080/health]. *)
Theorem poll_urls_of_the_endpoint :
  (forall (GET : string -> Server.reply) (g : Server.gui),
      endpoint_tracks_form g ->
      (exists rest,
          trace (Server.poll_server_status GET g)
          = urlopen (health_url g) 2 :: rest)
      /\ models_url g = (authority g ++ "/v1/models")%string
      /\ (occurs "/v1" (authority g ++ "/v") = false ->
          health_url g = (authority g ++ "/health")%string))
  /\ endpoint_tracks_form UrlExamples.server_v1_host
  /\ health_url UrlExamples.server_v1_host = "http://health.example.org:8080/health".
Proof.
  split; [|split; reflexivity].
  intros GET g Hg. unfold endpoint_tracks_form in Hg.
  assert (Hs : Py.strip (Server.endpoint_url g) = (authority g ++ "/v1")%string).
  { assert (E : (authority g ++ "/v1")%string
                 = ("http://"
                    ++ (endpoint_host (Server.host g) ++ ":"
                        ++ Py.str_int (endpoint_port (Server.port g)))
                    ++ "/v1")%string)
      by (unfold authority; rewrite !string_app_assoc; reflexivity).
    rewrite Hg, E. apply strip_keeps_url. }
  split; [|split].
  - apply poll_first_request. rewrite Hs. unfold authority. reflexivity.
  - unfold models_url. rewrite Hs, string_app_assoc. reflexivity.
  - intros Ho. unfold health_url. rewrite Hs. apply replace_v1_at_end. exact Ho.
Qed.

Lemma poll_urls_of_the_endpoint_witness :
  (exists rest,
      trace (Server.poll_server_status Examples.online Examples.server_ready)
      = urlopen (health_url Examples.server_ready) 2 :: rest)
  /\ health_url Examples.server_ready = "http://127.0.0.1:8080/health".
Proof.
  split.
  - exact (proj1 (proj1 poll_urls_of_the_endpoint Examples.online
                    Examples.server_ready eq_refl)).
  - exact (proj2 (proj2 (proj1 poll_urls_of_the_endpoint Examples.online
                           Examples.server_ready eq_refl)) eq_refl).
Defined.

(* ================================================================== *)
(** ** What a poll tick asks and writes *)

Ltac tick_returns :=
  left; split; [reflexivity|];
  first [ left; reflexivity
        | right; left; reflexivity
        | right; right; split; [reflexivity|eexists; first [eassumption|reflexivity]] ].

Ltac tick_raises :=
  right; eexists; split; [reflexivity|]; split; [reflexivity|];
  first [ left; reflexivity
        | right; split; [reflexivity|eexists; first [eassumption|reflexivity]] ].

Lemma poll_shapes (GET : string -> Server.reply) (g : Server.gui) :
  let r := Server.poll_server_status GET g in
  (outcome r = Ret tt
   /\ (trace r = [reschedule]
       \/ trace r = [urlopen (health_url g) 2; reschedule]
       \/ (trace r = [urlopen (health_url g) 2; urlopen (models_url g) 2; reschedule]
           /\ exists body, GET (health_url g) = Server.Response 200 body)))
  \/ (exists ex,
        outcome r = Raise ex
        /\ final r = g
        /\ (trace r = [urlopen (health_url g) 2]
            \/ (trace r = [urlopen (health_url g) 2; urlopen (models_url g) 2]
                /\ exists body, GET (health_url g) = Server.Response 200 body))).
Proof.
  cbv zeta. unfold health_url, models_url. unfold_poll.
  destruct (Py.truthy (Py.strip (Server.endpoint_url g))); step; [|tick_returns].
  destruct (GET (Py.replace _ _ _)) as [status body | ex] eqn:Hh; step.
  - destruct (status =? 200) eqn:Hs; step; [|tick_returns].
    apply Z.eqb_eq in Hs. subst status.
    destruct (GET (_ ++ _)%string) as [status' [payload | ex] | ex]; step.
    + destruct (Json.get payload "data" (Json.JArr [])) as [data | ex]; step;
        [|destruct (Py.caught_by _ ex); step; [tick_returns|tick_raises]].
      destruct (Json.truthy data); step; [|tick_returns].
      destruct (Json.getitem0 data) as [x | ex]; step;
        [|destruct (Py.caught_by _ ex); step; [tick_returns|tick_raises]].
      destruct (Json.get x "id" Server.Unknown) as [y | ex]; step; [tick_returns|].
      destruct (Py.caught_by _ ex); step; [tick_returns|tick_raises].
    + destruct (Py.caught_by _ ex); step; [tick_returns|tick_raises].
    + destruct (Py.caught_by _ ex); step; [tick_returns|tick_raises].
  - destruct (Py.caught_by _ ex); step; [tick_returns|tick_raises].
Qed.

(** X9.  Every poll tick, whatever the service answers, makes at most two
    requests, each with a time-out of 2 seconds: the health request first,
    and the model request only after the health request was answered with
    200.  A tick that returns ends by scheduling the next tick after 5000 ms
    and schedules nothing else; a tick that raises has written nothing: the
    application is exactly as the tick found it. *)
Theorem poll_request_discipline :
  forall (GET : string -> Server.reply) (g : Server.gui),
    let r := Server.poll_server_status GET g in
    (outcome r = Ret tt
     /\ (trace r = [reschedule]
         \/ trace r = [urlopen (health_url g) 2; reschedule]
         \/ (trace r = [urlopen (health_url g) 2; urlopen (models_url g) 2;
                        reschedule]
             /\ exists body, GET (health_url g) = Server.Response 200 body)))
    \/ (exists ex,
          outcome r = Raise ex
          /\ final r = g
          /\ (trace r = [urlopen (health_url g) 2]
              \/ (trace r = [urlopen (health_url g) 2; urlopen (models_url g) 2]
                  /\ exists body, GET (health_url g) = Server.Response 200 body))).
Proof. exact poll_shapes. Qed.

(** X10.  The replies a tick takes for ordinary.  An empty endpoint: no
    request is made and the status reads "Invalid endpoint".  A health
    answer with a status other than 200: Offline, and the models are not
    asked for.  A health answer of 200 and a model listing that is an object
    without [data], or whose [data] is empty or null, or whose first entry
    is an object without [id]: Online with the model Unknown.  In each case
    the model label is Unknown and the next tick is scheduled. *)
Theorem poll_defaults :
  forall (GET : string -> Server.reply) (g : Server.gui),
    (Py.truthy (Py.strip (Server.endpoint_url g)) = false ->
     Server.poll_server_status GET g
     = (Ret tt, polled "Invalid endpoint" Server.Unknown g, [reschedule]))
    /\ (Py.truthy (Py.strip (Server.endpoint_url g)) = true ->
        forall status body,
          GET (health_url g) = Server.Response status body ->
          status <> 200 ->
          Server.poll_server_status GET g
          = (Ret tt, polled "Offline" Server.Unknown g,
             [urlopen (health_url g) 2; reschedule]))
    /\ (Py.truthy (Py.strip (Server.endpoint_url g)) = true ->
        forall body status members,
          GET (health_url g) = Server.Response 200 body ->
          GET (models_url g) = Server.Response status (Ret (Json.JObj members)) ->
          (Json.truthy (match Json.lookup "data" members with
                        | Some data => data
                        | None => Json.JArr []
                        end) = false
           \/ exists first rest,
                Json.lookup "data" members
                = Some (Json.JArr (Json.JObj first :: rest))
                /\ Json.lookup "id" first = None) ->
          Server.poll_server_status GET g
          = (Ret tt, polled "Online" Server.Unknown g,
             [urlopen (health_url g) 2; urlopen (models_url g) 2; reschedule])).
Proof.
  intros GET g. unfold health_url, models_url. split; [|split].
  - intros Hb. unfold_poll. rewrite Hb. reflexivity.
  - intros Hb status body Hh Hs. unfold_poll. rewrite Hb. step. rewrite Hh. step.
    apply Z.eqb_neq in Hs. rewrite Hs. reflexivity.
  - intros Hb body status members Hh Hm Hd.
    destruct Hd as [Hd | (first & rest & Hd & Hid)].
    + unfold_poll. rewrite Hb. step. rewrite Hh. step. rewrite Hm. step.
      destruct (Json.lookup "data" members); step; rewrite ?Hd; reflexivity.
    + rewrite (poll_online GET g body status members first rest Hb Hh Hm Hd).
      rewrite Hid. reflexivity.
Qed.

Lemma poll_defaults_witness :
  Server.poll_server_status Examples.online PollExamples.server_no_endpoint
  = (Ret tt, polled "Invalid endpoint" Server.Unknown PollExamples.server_no_endpoint,
     [reschedule])
  /\ trace (Server.poll_server_status PollExamples.no_content Examples.server_ready)
     = [urlopen "http://127.0.0.1:8080/health" 2; reschedule]
  /\ final (Server.poll_server_status PollExamples.no_models Examples.server_ready)
     = polled "Online" Server.Unknown Examples.server_ready.
Proof.
  split; [|split].
  - exact (proj1 (poll_defaults Examples.online PollExamples.server_no_endpoint)
             eq_refl).
  - refine (f_equal trace
              (proj1 (proj2 (poll_defaults PollExamples.no_content
                               Examples.server_ready))
                 eq_refl 204 _ eq_refl _)).
    discriminate.
  - exact (f_equal final
             (proj2 (proj2 (poll_defaults PollExamples.no_models
                              Examples.server_ready))
                eq_refl _ 200 _ eq_refl eq_refl (or_introl eq_refl))).
Defined.

(* ================================================================== *)
(** ** Stop, Start and Restart one after the other *)

Lemma server_valid_of_form (e : Os.env) (g g' : Server.gui) :
  server_form g' = server_form g ->
  server_inputs_valid e g' = server_inputs_valid e g.
Proof.
  unfold server_form, server_inputs_valid. intros H.
  inversion H as [[Hb Hm Hh Hp Ht Hc Hn Hu]]. rewrite Hb, Hm, Hh, Hp. reflexivity.
Qed.

(** X11.  Stop is idempotent: a second Stop right after a first one does
    nothing at all, whether or not the first found a child to stop. *)
Theorem stop_twice_is_stop_once :
  (forall g : Server.gui,
      Server.stop_server (final (Server.stop_server g))
      = (Ret tt, final (Server.stop_server g), []))
  /\
  (forall g : Cli.gui,
      Cli.stop_inference (final (Cli.stop_inference g))
      = (Ret tt, final (Cli.stop_inference g), [])).
Proof.
  split; intros g.
  - apply stop_noop_server.
    destruct (Server.process g) as [p|] eqn:Hp.
    + destruct (Server.is_running g) eqn:Hr.
      * rewrite (server_stop_active g p Hp Hr). right. reflexivity.
      * rewrite (stop_noop_server g (or_intror Hr)). right. exact Hr.
    + rewrite (stop_noop_server g (or_introl Hp)). left. exact Hp.
  - assert (Hnoop : forall s : Cli.gui,
               Cli.process s = None \/ Cli.is_running s = false ->
               Cli.stop_inference s = (Ret tt, s, [])).
    { intros s [H | H]; unfold Cli.stop_inference, bind, get; simpl; rewrite H;
        [reflexivity|destruct (Cli.process s); reflexivity]. }
    apply Hnoop.
    destruct (Cli.process g) as [p|] eqn:Hp.
    + destruct (Cli.is_running g) eqn:Hr.
      * rewrite (cli_stop_active g p Hp Hr). right. reflexivity.
      * rewrite (Hnoop g (or_intror Hr)). right. exact Hr.
    + rewrite (Hnoop g (or_introl Hp)). left. exact Hp.
Qed.

(** X12.  Start after Stop does not wait for the child.  Once Stop has
    returned, a start request with a valid form starts the new worker at
    once, also when the old child ignored the request to terminate and is
    still there after the kill; only Restart defers: its readiness check,
    in the same state, schedules another check instead. *)
Theorem start_after_stop_does_not_wait :
  forall (e : Os.env) (g : Server.gui) (p : Popen),
    Server.process g = Some p ->
    Server.is_running g = true ->
    server_inputs_valid e g = true ->
    final (Server.stop_server g) = server_stopped g p
    /\ Server.start_server e (server_stopped g p)
       = (Ret tt, server_started (server_stopped g p),
          [thread_start "_run_server_thread"])
    /\ (returncode (after_stop p) = None ->
        Server._restart_server_after_stop e None (server_stopped g p)
        = (Ret tt, server_stopped g p, [restart_check])).
Proof.
  intros e g p Hp Hr Hv.
  split; [rewrite (server_stop_active g p Hp Hr); reflexivity|].
  assert (Hv' : server_inputs_valid e (server_stopped g p) = true).
  { rewrite <- Hv. apply server_valid_of_form. destruct g; reflexivity. }
  split.
  - apply (proj2 (proj2 (server_start_spec e (server_stopped g p))) Hv').
    destruct g; reflexivity.
  - intros Hrc. rewrite restart_check_spec.
    unfold restart_ready, poll.
    replace (Server.is_running (server_stopped g p)) with false
      by (destruct g; reflexivity).
    replace (Server.process (server_stopped g p)) with (Some (after_stop p))
      by (destruct g; reflexivity).
    rewrite Hrc. reflexivity.
Qed.

Lemma start_after_stop_does_not_wait_witness :
  Server.start_server Examples.unix
    (server_stopped (Examples.server_running Examples.stubborn) Examples.stubborn)
  = (Ret tt,
     server_started
       (server_stopped (Examples.server_running Examples.stubborn) Examples.stubborn),
     [thread_start "_run_server_thread"])
  /\ Server._restart_server_after_stop Examples.unix None
       (server_stopped (Examples.server_running Examples.stubborn) Examples.stubborn)
     = (Ret tt,
        server_stopped (Examples.server_running Examples.stubborn) Examples.stubborn,
        [restart_check]).
Proof.
  split.
  - exact (proj1 (proj2 (start_after_stop_does_not_wait Examples.unix
                           (Examples.server_running Examples.stubborn)
                           Examples.stubborn eq_refl eq_refl eq_refl))).
  - exact (proj2 (proj2 (start_after_stop_does_not_wait Examples.unix
                           (Examples.server_running Examples.stubborn)
                           Examples.stubborn eq_refl eq_refl eq_refl)) eq_refl).
Defined.

(** X13.  What "Restart with Settings" does, by cases.  With no server
    running it is a start request.  With a server running it asks first,
    and does nothing more when the answer is no.  When the answer is yes
    and the child is gone once Stop returns (it exited on the request to
    terminate, or had exited, or was reaped on the kill), the new worker is
    started in the same call, if the form is valid.  When the answer is yes
    and the worker has not yet spawned the child (no process handle),
    nothing is stopped: the application is left as it is and a readiness
    check is scheduled 100 ms later. *)
Theorem restart_with_settings_cases :
  forall (e : Os.env) (g : Server.gui),
    (Server.is_running g = false ->
     forall answers_yes,
       Server.apply_settings e answers_yes g = Server.start_server e g)
    /\ (Server.is_running g = true ->
        Server.apply_settings e false g = (Ret tt, g, [restart_question]))
    /\ (Server.is_running g = true ->
        forall p,
          Server.process g = Some p ->
          returncode (after_stop p) <> None ->
          server_inputs_valid e g = true ->
          Server.apply_settings e true g
          = (Ret tt, server_started (server_stopped g p),
             (restart_question :: stop_trace p
              ++ [thread_start "_run_server_thread"])%list))
    /\ (Server.is_running g = true ->
        Server.process g = None ->
        Server.apply_settings e true g
        = (Ret tt, g, [restart_question; restart_check])).
Proof.
  intros e g. split; [|split; [|split]].
  - intros Hr ans. unfold Server.apply_settings, bind, get. cbn [fst snd].
    rewrite Hr. destruct (Server.start_server e g) as [[r s] t]. reflexivity.
  - intros Hr. unfold Server.apply_settings, bind, get, emit, ret.
    cbn [fst snd]. rewrite Hr. reflexivity.
  - intros Hr p Hp Hrc Hv.
    unfold Server.apply_settings. unfold bind at 1, get at 1. cbn [fst snd].
    rewrite Hr. unfold bind at 1, emit at 1. cbn [negb].
    unfold bind. rewrite (server_stop_active g p Hp Hr).
    fold (server_stopped g p). rewrite restart_check_spec.
    assert (Hready : restart_ready (server_stopped g p) = true).
    { unfold restart_ready, poll.
      replace (Server.is_running (server_stopped g p)) with false
        by (destruct g; reflexivity).
      replace (Server.process (server_stopped g p)) with (Some (after_stop p))
        by (destruct g; reflexivity).
      destruct (returncode (after_stop p)); [reflexivity|congruence]. }
    rewrite Hready.
    assert (Hv' : server_inputs_valid e (server_stopped g p) = true).
    { rewrite <- Hv. apply server_valid_of_form. destruct g; reflexivity. }
    rewrite (proj2 (proj2 (server_start_spec e (server_stopped g p))) Hv')
      by (destruct g; reflexivity).
    cbn [app]. rewrite ?app_nil_r. reflexivity.
  - intros Hr Hp.
    unfold Server.apply_settings. unfold bind at 1, get at 1. cbn [fst snd].
    rewrite Hr. unfold bind at 1, emit at 1. cbn [negb].
    unfold bind. rewrite (stop_noop_server g (or_introl Hp)).
    rewrite restart_check_spec. unfold restart_ready. rewrite Hr. reflexivity.
Qed.

Lemma restart_with_settings_cases_witness :
  Server.apply_settings Examples.unix true Examples.server_ready
  = Server.start_server Examples.unix Examples.server_ready
  /\ Server.apply_settings Examples.unix false (Examples.server_running Examples.child)
     = (Ret tt, Examples.server_running Examples.child, [restart_question])
  /\ trace (Server.apply_settings Examples.unix true
              (Examples.server_running Examples.child))
     = [restart_question; terminate; wait (Some 5);
        thread_start "_run_server_thread"].
Proof.
  split; [|split].
  - exact (proj1 (restart_with_settings_cases Examples.unix Examples.server_ready)
             eq_refl true).
  - exact (proj1 (proj2 (restart_with_settings_cases Examples.unix
                           (Examples.server_running Examples.child))) eq_refl).
  - refine (f_equal trace
              (proj1 (proj2 (proj2 (restart_with_settings_cases Examples.unix
                                      (Examples.server_running Examples.child))))
                 eq_refl Examples.child eq_refl _ eq_refl)).
    discriminate.
Defined.

(* ================================================================== *)
(** ** Timers that stay pending *)

Lemma stop_schedules_nothing (p : Popen) : scheduled (stop_trace p) = [].
Proof. unfold stop_trace. destruct (exits_in_grace p); reflexivity. Qed.

(** X14.  A readiness check of Restart that is pending is not cancelled by
    anything.  As long as the old instance is not out of the way (a server
    is running, or its child has not exited), the check, when it fires,
    changes nothing and is pending again with the same delay.  So a check
    left pending while a server runs (Restart was confirmed before the
    worker had spawned the child) fires on and on, and once the user stops
    that server, the next check starts a new one. *)
Theorem pending_restart_check_outlives_stop :
  forall (e : Os.env) (GET : string -> Server.reply) (g : Server.gui)
         (delay_ms : Z),
    let l := ServerApp.mkLoop g [(delay_ms, cb_restart_server_after_stop delay_ms)] in
    (restart_ready g = false -> ServerApp.fire e GET 0 l = l)
    /\ (forall p,
          Server.is_running g = true ->
          Server.process g = Some p ->
          returncode (after_stop p) <> None ->
          server_inputs_valid e g = true ->
          ServerApp.fire e GET 0 (ServerApp.handle Server.stop_server l)
          = ServerApp.mkLoop (server_started (server_stopped g p))
              []).
Proof.
  intros e GET g d l. subst l. split.
  - intros Hn. unfold ServerApp.fire, ServerApp.handle.
    cbn [ServerApp.timers ServerApp.app nth_error firstn skipn app
         ServerApp.run_callback].
    rewrite restart_check_spec, Hn. reflexivity.
  - intros p Hr Hp Hrc Hv.
    unfold ServerApp.handle. cbn [ServerApp.timers ServerApp.app app].
    rewrite (server_stop_active g p Hp Hr). cbn [final trace fst snd].
    rewrite stop_schedules_nothing. fold (server_stopped g p).
    unfold ServerApp.fire, ServerApp.handle.
    cbn [ServerApp.timers ServerApp.app nth_error firstn skipn app
         ServerApp.run_callback].
    rewrite restart_check_spec.
    assert (Hready : restart_ready (server_stopped g p) = true).
    { unfold restart_ready, poll.
      replace (Server.is_running (server_stopped g p)) with false
        by (destruct g; reflexivity).
      replace (Server.process (server_stopped g p)) with (Some (after_stop p))
        by (destruct g; reflexivity).
      destruct (returncode (after_stop p)); [reflexivity|congruence]. }
    rewrite Hready.
    assert (Hv' : server_inputs_valid e (server_stopped g p) = true).
    { rewrite <- Hv. apply server_valid_of_form. destruct g; reflexivity. }
    rewrite (proj2 (proj2 (server_start_spec e (server_stopped g p))) Hv')
      by (destruct g; reflexivity).
    reflexivity.
Qed.

Lemma pending_restart_check_outlives_stop_witness :
  ServerApp.fire Examples.unix Examples.online 0
    (ServerApp.mkLoop (Examples.server_running Examples.child)
       [(100, cb_restart_server_after_stop 100)])
  = ServerApp.mkLoop (Examples.server_running Examples.child)
      [(100, cb_restart_server_after_stop 100)]
  /\ Server.is_running
       (ServerApp.app
          (ServerApp.fire Examples.unix Examples.online 0
             (ServerApp.handle Server.stop_server
                (ServerApp.mkLoop (Examples.server_running Examples.child)
                   [(100, cb_restart_server_after_stop 100)]))))
     = true.
Proof.
  split.
  - exact (proj1 (pending_restart_check_outlives_stop Examples.unix Examples.online
                    (Examples.server_running Examples.child) 100) eq_refl).
  - refine (f_equal (fun l => Server.is_running (ServerApp.app l))
              (proj2 (pending_restart_check_outlives_stop Examples.unix
                        Examples.online (Examples.server_running Examples.child) 100)
                 Examples.child eq_refl eq_refl _ eq_refl)).
    discriminate.
Defined.

Lemma pending_polls_app (a b : list (Z * callback)) :
  pending_polls (a ++ b) = (pending_polls a + pending_polls b)%nat.
Proof. unfold pending_polls. now rewrite filter_app, length_app. Qed.

Lemma pending_polls_without (ts : list (Z * callback)) :
  forall i ms,
    nth_error ts i = Some (ms, cb_poll_server_status) ->
    pending_polls ts = S (pending_polls (firstn i ts ++ skipn (S i) ts)).
Proof.
  induction ts as [|[m cb] rest IH]; intros [|i] ms H; try discriminate H.
  - cbn in H. inversion H; subst. reflexivity.
  - cbn [nth_error] in H.
    change (firstn (S i) ((m, cb) :: rest) ++ skipn (S (S i)) ((m, cb) :: rest))%list
      with ([(m, cb)] ++ (firstn i rest ++ skipn (S i) rest))%list.
    change ((m, cb) :: rest) with ([(m, cb)] ++ rest)%list.
    rewrite (pending_polls_app [(m, cb)] rest), (IH i ms H).
    rewrite (pending_polls_app [(m, cb)]). lia.
Qed.

Lemma poll_scheduled (GET : string -> Server.reply) (g : Server.gui) :
  scheduled (trace (Server.poll_server_status GET g))
  = match outcome (Server.poll_server_status GET g) with
    | Ret _ => [(5000, cb_poll_server_status)]
    | Raise _ => []
    end.
Proof.
  destruct (poll_shapes GET g) as [[Ho Ht] | (ex & Ho & _ & Ht)]; rewrite Ho.
  - destruct Ht as [Ht | [Ht | [Ht _]]]; rewrite Ht; reflexivity.
  - destruct Ht as [Ht | [Ht _]]; rewrite Ht; reflexivity.
Qed.

(** X15.  Polling chains are never merged or cancelled.  A tick run from
    the "Refresh Now" button schedules a next tick like any other, so each
    click that returns adds one pending poll timer to those there are; a
    poll timer that fires and returns leaves their number as it is, and one
    that fires and raises takes one away. *)
Theorem refresh_adds_a_polling_chain :
  forall (e : Os.env) (GET : string -> Server.reply) (l : ServerApp.loop),
    let tick := Server.poll_server_status GET (ServerApp.app l) in
    (outcome tick = Ret tt ->
     pending_polls (ServerApp.timers
                      (ServerApp.handle (Server.poll_server_status GET) l))
     = S (pending_polls (ServerApp.timers l)))
    /\ (forall i ms,
          nth_error (ServerApp.timers l) i = Some (ms, cb_poll_server_status) ->
          (outcome tick = Ret tt ->
           pending_polls (ServerApp.timers (ServerApp.fire e GET i l))
           = pending_polls (ServerApp.timers l))
          /\ (forall ex,
                outcome tick = Raise ex ->
                S (pending_polls (ServerApp.timers (ServerApp.fire e GET i l)))
                = pending_polls (ServerApp.timers l))).
Proof.
  intros e GET l tick. subst tick. split.
  - intros Ho. unfold ServerApp.handle. cbn [ServerApp.timers].
    rewrite pending_polls_app, poll_scheduled, Ho. cbn. lia.
  - intros i ms Hi. unfold ServerApp.fire. rewrite Hi.
    unfold ServerApp.handle.
    cbn [ServerApp.timers ServerApp.app ServerApp.run_callback].
    rewrite pending_polls_app, poll_scheduled.
    rewrite (pending_polls_without _ i ms Hi).
    split.
    + intros Ho. rewrite Ho. cbn. lia.
    + intros ex Ho. rewrite Ho. cbn. lia.
Qed.

Lemma refresh_adds_a_polling_chain_witness :
  pending_polls
    (ServerApp.timers
       (ServerApp.handle (Server.poll_server_status Examples.online)
          (ServerApp.mkLoop Examples.server_ready [(5000, cb_poll_server_status)])))
  = 2%nat.
Proof.
  exact (proj1 (refresh_adds_a_polling_chain Examples.unix Examples.online
                  (ServerApp.mkLoop Examples.server_ready
                     [(5000, cb_poll_server_status)])) eq_refl).
Defined.

(* ================================================================== *)
(** ** A freshly constructed application, and what the locator found *)

Lemma server_constructed_invalid (e : Os.env) (binary : string) :
  server_inputs_valid e (server_constructed binary) = false.
Proof.
  unfold server_inputs_valid, server_constructed. cbn.
  destruct (Py.truthy binary), (negb (binary =? Server.sentinel)%string),
    (Os.isfile e binary); reflexivity.
Qed.

Lemma cli_constructed_invalid (e : Os.env) (binary : string) :
  cli_inputs_valid e (cli_constructed binary) = false.
Proof.
  unfold cli_inputs_valid, cli_constructed. cbn.
  destruct (Py.truthy binary), (negb (binary =? Cli.sentinel)%string),
    (Os.isfile e binary); reflexivity.
Qed.

(** X16.  When the constructor returns, the binary field holds what the
    locator found (or the sentinel), the model field is empty, the form has
    its defaults (127.0.0.1, 8080, context 4096, 8 threads; 512 tokens,
    top-k 40), the endpoint reads [http://127.0.0.1:8080/v1], nothing runs,
    Stop is disabled, and (server) the first poll tick is scheduled after
    2000 ms and is the only timer.  A start request made in this state is
    always refused with an error dialog and changes nothing, because no
    model has been chosen yet. *)
Theorem fresh_application_cannot_start :
  (forall e : Os.env,
      ServerApp.__init__ e
      = (Ret tt, server_constructed (hd Server.sentinel (server_hits e)),
         [root_after 2000 cb_poll_server_status])
      /\ exists m,
           Server.start_server e (final (ServerApp.__init__ e))
           = (Ret tt, final (ServerApp.__init__ e), [showerror "Error" m]))
  /\
  (forall e : Os.env,
      CliApp.__init__ e
      = (Ret tt, cli_constructed (hd Cli.sentinel (cli_hits e)), [])
      /\ exists m,
           Cli.run_inference e (final (CliApp.__init__ e))
           = (Ret tt, final (CliApp.__init__ e), [showerror "Error" m])).
Proof.
  split; intros e.
  - rewrite server_init_spec. split; [reflexivity|].
    apply (proj1 (server_start_spec e _));
      [apply server_constructed_invalid|reflexivity].
  - rewrite cli_init_spec. split; [reflexivity|].
    apply (proj1 (cli_start_spec e _)). apply cli_constructed_invalid.
Qed.

(** X17.  The sentinel the locator writes is the one validation knows: when
    no path qualifies anywhere in the search order, a start request after
    the locator ran is refused with "Please specify the ... binary path."
    and nothing is launched, whatever the rest of the form holds. *)
Theorem nothing_found_means_start_refused :
  (forall (e : Os.env) (g : Server.gui),
      server_hits e = [] ->
      let g' := final (Server.detect_server_binary e g) in
      Server.server_binary g' = "llama-server not found"
      /\ Server.start_server e g'
         = (Ret tt, g',
            [showerror "Error" "Please specify the llama-server binary path."]))
  /\
  (forall (e : Os.env) (g : Cli.gui),
      cli_hits e = [] ->
      let g' := final (Cli.detect_llama_binary e g) in
      Cli.llama_binary g' = "llama-cli not found"
      /\ Cli.run_inference e g'
         = (Ret tt, g',
            [showerror "Error" "Please specify the llama-cli binary path."])).
Proof.
  split; intros e g Hh g'; subst g'.
  - rewrite server_detect_spec, Hh. cbn [hd final fst snd].
    split; [destruct g; reflexivity|].
    unfold Server.start_server, Server.validate_inputs, bind, get, emit, ret.
    destruct g; reflexivity.
  - rewrite cli_detect_spec, Hh. cbn [hd final fst snd].
    split; [destruct g; reflexivity|].
    unfold Cli.run_inference, Cli.validate_inputs, bind, get, emit, ret.
    destruct g; reflexivity.
Qed.

Lemma nothing_found_means_start_refused_witness :
  Server.start_server Examples.server_six_below
    (final (Server.detect_server_binary Examples.server_six_below
              Examples.server_ready))
  = (Ret tt,
     final (Server.detect_server_binary Examples.server_six_below
              Examples.server_ready),
     [showerror "Error" "Please specify the llama-server binary path."]).
Proof.
  exact (proj2 (proj1 nothing_found_means_start_refused Examples.server_six_below
                  Examples.server_ready eq_refl)).
Defined.

Lemma join_empty (e : Os.env) (b : string) : Os.join e "" b = b.
Proof. reflexivity. Qed.

Lemma split_empty (sep : ascii) : Py.split sep "" = [""].
Proof. reflexivity. Qed.

(** X18.  With [PATH] unset or empty on a host that is not Windows, the
    inference locator still looks at one path in the [PATH] stage: the bare
    name [llama-cli], that is, the current directory; an executable file of
    that name there is what it returns, as a relative path, before any
    build directory.  The server locator drops empty [PATH] entries and goes
    straight on to the build directories. *)
Theorem empty_path_means_current_directory :
  forall e : Os.env,
    Os.windows e = false ->
    Os.environ_get e "PATH" "" = "" ->
    (forall g : Cli.gui,
        Cli.llama_binary (final (Cli.detect_llama_binary e g))
        = if Os.isfile e "llama-cli" && Os.access_X_OK e "llama-cli"
          then "llama-cli"
          else hd Cli.sentinel (build_hits e ["llama-cli"]))
    /\ (forall g : Server.gui,
           Server.server_binary (final (Server.detect_server_binary e g))
           = hd Server.sentinel (build_hits e ["llama-server"; "server"])).
Proof.
  intros e Hw Hp. split; intros g.
  - rewrite cli_detect_spec. unfold cli_hits, vendor_hits, Cli.binary_name.
    rewrite Hw, Hp, split_empty. cbn [app path_hits flat_map].
    rewrite !join_empty, !app_nil_r.
    destruct (Os.isfile e "llama-cli" && Os.access_X_OK e "llama-cli");
      destruct g; reflexivity.
  - rewrite server_detect_spec. unfold server_hits, vendor_hits, Server.binary_names.
    rewrite Hw, Hp, split_empty. cbn [filter Py.truthy app path_hits flat_map].
    destruct g; reflexivity.
Qed.

Lemma empty_path_means_current_directory_witness :
  Cli.llama_binary
    (final (Cli.detect_llama_binary LocatorExamples.in_bin_directory
              Examples.cli_ready))
  = "llama-cli"
  /\ Server.server_binary
       (final (Server.detect_server_binary LocatorExamples.in_bin_directory
                 Examples.server_ready))
     = "llama-server not found".
Proof.
  split.
  - exact (proj1 (empty_path_means_current_directory
                    LocatorExamples.in_bin_directory eq_refl eq_refl)
             Examples.cli_ready).
  - exact (proj2 (empty_path_means_current_directory
                    LocatorExamples.in_bin_directory eq_refl eq_refl)
             Examples.server_ready).
Defined.

(* ================================================================== *)
(** ** White space in the form *)

Lemma rstrip_truthy (s : string) :
  Py.truthy (Py.rstrip s) = negb (all_space s).
Proof.
  induction s as [|c r IH]; [reflexivity|].
  cbn [Py.rstrip all_space].
  destruct (Py.rstrip r) eqn:Hr; cbn [Py.truthy] in IH.
  - destruct (all_space r); [|discriminate IH].
    rewrite andb_true_r. destruct (Py.isspace c); reflexivity.
  - destruct (all_space r); [discriminate IH|].
    rewrite andb_false_r. reflexivity.
Qed.

Lemma lstrip_all_space (s : string) : all_space (Py.lstrip s) = all_space s.
Proof.
  induction s as [|c r IH]; [reflexivity|].
  cbn [Py.lstrip all_space].
  destruct (Py.isspace c) eqn:Hc; [exact IH|].
  cbn [all_space]. rewrite Hc. reflexivity.
Qed.

Lemma strip_truthy (s : string) : Py.truthy (Py.strip s) = negb (all_space s).
Proof. unfold Py.strip. now rewrite rstrip_truthy, lstrip_all_space. Qed.

Lemma rstrip_unpadded (s : string) (d : ascii) :
  Os.last_char s = Some d -> Py.isspace d = false -> Py.rstrip s = s.
Proof.
  induction s as [|c r IH]; intros Hl Hd; [discriminate Hl|].
  cbn [Py.rstrip]. destruct r as [|c' r'].
  - cbn in Hl. inversion Hl; subst. cbn. rewrite Hd. reflexivity.
  - rewrite (IH Hl Hd). reflexivity.
Qed.

Lemma strip_unpadded (s : string) : unpadded s = true -> Py.strip s = s.
Proof.
  unfold unpadded, Py.strip. destruct s as [|c r]; [discriminate|].
  destruct (Os.last_char (String c r)) as [d|] eqn:Hl; [|discriminate].
  intros H. apply andb_prop in H. destruct H as [Hc Hd].
  apply negb_true_iff in Hc, Hd.
  cbn [Py.lstrip]. rewrite Hc. exact (rstrip_unpadded _ d Hl Hd).
Qed.

(** X19.  What validation takes for a blank.  With the binary and the model
    in order, the form is refused with "Please enter a host address."
    (server) or "Please enter a prompt." (inference) exactly when the host,
    or the prompt, is empty or made of white space only, such as blanks,
    tabs and line ends; one character that is not white space is enough for
    the check to pass. *)
Theorem blank_host_or_prompt_is_refused :
  (forall (e : Os.env) (g : Server.gui),
      Py.truthy (Server.server_binary g) = true ->
      Server.server_binary g <> Server.sentinel ->
      Os.isfile e (Server.server_binary g) = true ->
      Py.truthy (Server.model_path g) = true ->
      Os.isfile e (Server.model_path g) = true ->
      (all_space (Server.host g) = true ->
       Server.validate_inputs e g
       = (Ret false, g, [showerror "Error" "Please enter a host address."]))
      /\ (all_space (Server.host g) = false ->
          forall port, Server.port g = Ret port -> 1 <= port <= 65535 ->
          Server.validate_inputs e g = (Ret true, g, [])))
  /\
  (forall (e : Os.env) (g : Cli.gui),
      Py.truthy (Cli.llama_binary g) = true ->
      Cli.llama_binary g <> Cli.sentinel ->
      Os.isfile e (Cli.llama_binary g) = true ->
      Py.truthy (Cli.model_path g) = true ->
      Os.isfile e (Cli.model_path g) = true ->
      Cli.validate_inputs e g
      = if all_space (Cli.prompt_entry g)
        then (Ret false, g, [showerror "Error" "Please enter a prompt."])
        else (Ret true, g, [])).
Proof.
  split.
  - intros e g Hb Hs Hf Hm Hmf.
    apply String.eqb_neq in Hs.
    split.
    + intros Hh.
      unfold Server.validate_inputs, bind, get, emit, ret. cbn [fst snd].
      rewrite Hb, Hs, Hf, Hm, Hmf, strip_truthy, Hh. reflexivity.
    + intros Hh port Hp Hrange.
      unfold Server.validate_inputs, bind, get, emit, ret, try_except,
        Server.Var_get, raise.
      cbn [fst snd].
      rewrite Hb, Hs, Hf, Hm, Hmf, strip_truthy, Hh, Hp. cbn.
      destruct (Z.ltb_spec port 1), (Z.gtb_spec port 65535); try lia.
      reflexivity.
  - intros e g Hb Hs Hf Hm Hmf.
    apply String.eqb_neq in Hs.
    unfold Cli.validate_inputs, bind, get, emit, ret. cbn [fst snd].
    rewrite Hb, Hs, Hf, Hm, Hmf, strip_truthy.
    destruct (all_space (Cli.prompt_entry g)); reflexivity.
Qed.

Lemma blank_host_or_prompt_is_refused_witness :
  Server.validate_inputs Examples.unix FormExamples.server_blank_host
  = (Ret false, FormExamples.server_blank_host,
     [showerror "Error" "Please enter a host address."])
  /\ Cli.validate_inputs Examples.unix Examples.cli_blank_prompt
     = (Ret false, Examples.cli_blank_prompt,
        [showerror "Error" "Please enter a prompt."]).
Proof.
  split.
  - refine (proj1 (proj1 blank_host_or_prompt_is_refused Examples.unix
                     FormExamples.server_blank_host eq_refl _ eq_refl eq_refl eq_refl)
              eq_refl).
    discriminate.
  - refine (proj2 blank_host_or_prompt_is_refused Examples.unix
              Examples.cli_blank_prompt eq_refl _ eq_refl eq_refl eq_refl).
    discriminate.
Defined.

(** X20.  A host typed without white space around it reaches the command
    line as it stands: when the host field is not empty and neither begins
    nor ends with white space, the value after [--host] is the text of the
    field, and the host check of validation passes. *)
Theorem unpadded_host_is_passed_as_typed :
  forall (str_float : float -> string) (g : Server.gui)
         (port : Z) (temperature : float) (context_size threads : Z),
    unpadded (Server.host g) = true ->
    Server.port g = Ret port ->
    Server.temperature g = Ret temperature ->
    Server.context_size g = Ret context_size ->
    Server.threads g = Ret threads ->
    Py.truthy (Py.strip (Server.host g)) = true
    /\ Server.build_command str_float g
       = (Ret [ Server.server_binary g;
                "--model"; Server.model_path g;
                "--host"; Server.host g;
                "--port"; Py.str_int port;
                "--temp"; str_float temperature;
                "--ctx-size"; Py.str_int context_size;
                "--threads"; Py.str_int threads ],
          g, []).
Proof.
  intros sf g port temperature context_size threads Hu Hp Ht Hc Hn.
  pose proof (strip_unpadded _ Hu) as Hs. split.
  - rewrite Hs. unfold unpadded in Hu. destruct (Server.host g); [discriminate Hu|].
    reflexivity.
  - rewrite (server_build_command_spec sf g _ _ _ _ Hp Ht Hc Hn).
    unfold argv, server_pairs. cbn [flat_map app]. rewrite Hs. reflexivity.
Qed.

Lemma unpadded_host_is_passed_as_typed_witness :
  Server.build_command Examples.str_float Examples.server_ready
  = (Ret [ "/usr/bin/llama-server"; "--model"; "/models/m.gguf";
           "--host"; "127.0.0.1"; "--port"; "8080"; "--temp"; "0.5";
           "--ctx-size"; "4096"; "--threads"; "8" ],
     Examples.server_ready, []).
Proof.
  exact (proj2 (unpadded_host_is_passed_as_typed Examples.str_float
                  Examples.server_ready 8080 0.5%float 4096 8
                  eq_refl eq_refl eq_refl eq_refl eq_refl)).
Defined.

(* ================================================================== *)
(** ** How deep the server walk goes *)

Section DepthBound.

Variable e : Os.env.

Lemma last_char_app (a : string) (c : ascii) (r : string) :
  Os.last_char (a ++ String c r) = Os.last_char (String c r).
Proof.
  induction a as [|x a IH]; [reflexivity|].
  change ((String x a ++ String c r)%string) with (String x (a ++ String c r)).
  destruct (a ++ String c r)%string as [|y s] eqn:E.
  - destruct a; discriminate E.
  - change (Os.last_char (String x (String y s))) with (Os.last_char (String y s)).
    exact IH.
Qed.

Lemma last_char_none (s : string) : Os.last_char s = None -> s = ""%string.
Proof.
  induction s as [|c r IH]; [reflexivity|]. intros H.
  destruct r as [|c' r']; [discriminate H|].
  change (Os.last_char (String c (String c' r'))) with (Os.last_char (String c' r')) in H.
  discriminate (IH H).
Qed.

Lemma last_char_name (n : string) :
  dir_name n = true -> exists d, Os.last_char n = Some d /\ name_char d = true.
Proof.
  unfold dir_name. destruct n as [|c r]; [discriminate|]. cbn [Py.truthy andb].
  revert c. induction r as [|c' r IH]; intros c H; cbn [name_chars] in H.
  - exists c. split; [reflexivity|]. now apply andb_prop in H.
  - apply andb_prop in H. destruct H as [_ H].
    destruct (IH c' H) as [d [Hl Hd]]. exists d. split; [exact Hl|exact Hd].
Qed.

Lemma sep_not_name_char : name_char (Os.sep e) = false.
Proof. unfold Os.sep. destruct (Os.windows e); reflexivity. Qed.

Lemma drive_ends_in_colon (a : string) :
  Os.is_drive a = true -> Os.last_char a = Some ":"%char.
Proof.
  destruct a as [|x [|y r]]; try discriminate.
  destruct y as [[] [] [] [] [] [] [] []]; destruct r; try discriminate.
  reflexivity.
Qed.

Lemma join_after_name (a n : string) (d : ascii) :
  Os.last_char a = Some d -> name_char d = true ->
  Os.join e a n = (a ++ String (Os.sep e) n)%string.
Proof.
  intros Hl Hd. unfold Os.join. rewrite Hl.
  assert (Hdrive : Os.is_drive a = false).
  { destruct (Os.is_drive a) eqn:Hdr; [|reflexivity].
    rewrite (drive_ends_in_colon a Hdr) in Hl. inversion Hl; subst.
    discriminate Hd. }
  rewrite Hdrive. unfold name_char in Hd.
  apply negb_true_iff in Hd.
  destruct (Ascii.eqb d "\"), (Ascii.eqb d "/"), (Ascii.eqb d ":");
    try discriminate Hd.
  destruct (Os.windows e); reflexivity.
Qed.

Lemma drop_prefix_app (a b : string) : Os.drop_prefix a (a ++ b) = Some b.
Proof.
  induction a as [|c a IH]; [destruct b; reflexivity|].
  cbn. rewrite Ascii.eqb_refl. exact IH.
Qed.

Lemma drop_seps_app (a b : string) :
  Os.drop_seps e a <> "" -> Os.drop_seps e (a ++ b) = (Os.drop_seps e a ++ b)%string.
Proof.
  induction a as [|c a IH]; intros H; [now elim H|].
  cbn [Os.drop_seps] in *.
  change ((String c a ++ b)%string) with (String c (a ++ b)).
  cbn [Os.drop_seps].
  destruct (Ascii.eqb c (Os.sep e)); [exact (IH H)|reflexivity].
Qed.

Lemma drop_seps_name (n : string) : dir_name n = true -> Os.drop_seps e n = n.
Proof.
  unfold dir_name. destruct n as [|c r]; [reflexivity|].
  cbn [Py.truthy andb name_chars Os.drop_seps]. intros H.
  apply andb_prop in H. destruct H as [Hc _].
  destruct (Ascii.eqb_spec c (Os.sep e)) as [->|]; [|reflexivity].
  rewrite sep_not_name_char in Hc. discriminate Hc.
Qed.

Lemma count_app (c : ascii) (a b : string) :
  Py.count c (a ++ b) = Py.count c a + Py.count c b.
Proof.
  induction a as [|x a IH]; [reflexivity|].
  change ((String x a ++ b)%string) with (String x (a ++ b)).
  cbn [Py.count]. rewrite IH. lia.
Qed.

Lemma count_name (n : string) : name_chars n = true -> Py.count (Os.sep e) n = 0.
Proof.
  induction n as [|c r IH]; [reflexivity|]. cbn [name_chars Py.count]. intros H.
  apply andb_prop in H. destruct H as [Hc Hr]. rewrite (IH Hr).
  destruct (Ascii.eqb_spec c (Os.sep e)) as [->|]; [|reflexivity].
  rewrite sep_not_name_char in Hc. discriminate Hc.
Qed.

Lemma level_first (base n : string) :
  Py.truthy base = true -> dir_name n = true -> level e base 0 (Os.join e base n).
Proof.
  intros Hb Hn.
  destruct (last_char_name n Hn) as [d [Hl Hd]].
  pose proof (drop_seps_name n Hn) as Hs.
  assert (Hne : n <> "") by (destruct n; [discriminate Hn|discriminate]).
  assert (Hc : Py.count (Os.sep e) n = 0).
  { apply count_name. unfold dir_name in Hn. now apply andb_prop in Hn. }
  assert (Hlast : forall a, Os.last_char (a ++ n) = Some d).
  { intros a. destruct n as [|c r]; [now elim Hne|]. now rewrite last_char_app. }
  assert (Hsep : Os.drop_seps e (String (Os.sep e) n) = n).
  { cbn [Os.drop_seps]. rewrite Ascii.eqb_refl. exact Hs. }
  assert (Hlast' : Os.last_char (base ++ String (Os.sep e) n) = Some d).
  { rewrite last_char_app. destruct n as [|c r]; [now elim Hne|exact Hl]. }
  unfold Os.join.
  destruct (Os.last_char base) as [c|] eqn:Hbl.
  - assert (Hplain : level e base 0 (base ++ n)).
    { exists n, d. rewrite Hs. repeat split; auto. }
    assert (Hsepd : level e base 0 (base ++ String (Os.sep e) n)).
    { exists (String (Os.sep e) n), d. rewrite Hsep. repeat split; auto. }
    destruct (Os.windows e);
      [destruct (Ascii.eqb c "\" || Ascii.eqb c "/" || Os.is_drive base)
      |destruct (Ascii.eqb c "/")]; assumption.
  - rewrite (last_char_none _ Hbl) in Hb. discriminate Hb.
Qed.

Lemma level_next (base p n : string) (k : Z) :
  level e base k p -> dir_name n = true -> level e base (k + 1) (Os.join e p n).
Proof.
  intros [rest [d [Hp [Hne [Hk [Hl Hd]]]]]] Hn.
  destruct (last_char_name n Hn) as [d' [Hl' Hd']].
  rewrite (join_after_name p n d Hl Hd).
  exists (rest ++ String (Os.sep e) n)%string, d'.
  rewrite (drop_seps_app _ _ Hne).
  split; [rewrite Hp; apply string_app_assoc|].
  split; [destruct (Os.drop_seps e rest); [now elim Hne|discriminate]|].
  split.
  - rewrite count_app. cbn [Py.count]. rewrite Ascii.eqb_refl, Hk, count_name; [lia|].
    unfold dir_name in Hn. now apply andb_prop in Hn.
  - split; [|exact Hd']. rewrite last_char_app.
    destruct n as [|c r]; [discriminate Hn|exact Hl'].
Qed.

Lemma level_depth (base p : string) (k : Z) :
  level e base k p -> Py.count (Os.sep e) (Os.relpath e p base) = k.
Proof.
  intros [rest [d [Hp [Hne [Hk _]]]]].
  unfold Os.relpath. rewrite Hp, drop_prefix_app.
  destruct (Os.drop_seps e rest); [now elim Hne|exact Hk].
Qed.

Lemma root_depth (base : string) : Py.count (Os.sep e) (Os.relpath e base base) = 0.
Proof.
  unfold Os.relpath.
  replace (Os.drop_prefix base base) with (Some ""%string).
  - unfold Os.sep. destruct (Os.windows e); reflexivity.
  - symmetry. rewrite <- (string_app_nil_r base) at 2. apply drop_prefix_app.
Qed.

Lemma first_candidate (files names : list string) :
  existsb (fun c => Os.In_files c files) names = true ->
  exists c, In c names /\ Os.In_files c files = true
            /\ forall top,
                Os.first_some
                  (fun candidate =>
                     if Os.In_files candidate files
                     then Some (Os.join e top candidate) else None)
                  names
                = Some (Os.join e top c).
Proof.
  induction names as [|n rest IH]; [discriminate|]. cbn [existsb Os.first_some].
  destruct (Os.In_files n files) eqn:Hn.
  - intros _. exists n. repeat split; [now left|exact Hn].
  - cbn [orb]. intros H. destruct (IH H) as [c [Hin [Hc Hf]]].
    exists c. repeat split; [now right|exact Hc|exact Hf].
Qed.

Lemma no_candidate (names : list string) (top : string) :
  Os.first_some
    (fun candidate =>
       if Os.In_files candidate [] then Some (Os.join e top candidate) else None)
    names
  = None.
Proof. induction names as [|n rest IH]; [reflexivity|exact IH]. Qed.

Lemma visit_at_depth (base p : string) (k : Z) (dirs files : list string) :
  Py.count (Os.sep e) (Os.relpath e p base) = k ->
  Server.visit e base p dirs files
  = if k >? 4 then Os.Next []
    else match Os.first_some
                 (fun candidate =>
                    if Os.In_files candidate files
                    then Some (Os.join e p candidate) else None)
                 (Server.binary_names e) with
         | Some binary_path => Os.Return binary_path
         | None => Os.Next dirs
         end.
Proof. intros <-. reflexivity. Qed.

Lemma server_walk_chain (base : string) (files : list string) (c : string) :
  (forall top,
      Os.first_some
        (fun candidate =>
           if Os.In_files candidate files
           then Some (Os.join e top candidate) else None)
        (Server.binary_names e)
      = Some (Os.join e top c)) ->
  forall (names : list string) (p : string) (k : Z),
    forallb dir_name names = true ->
    level e base k p ->
    Os.walk e (Server.visit e base) p (Examples.nest names (Os.Dir files []))
    = if k + Z.of_nat (length names) <=? 4
      then Some (Os.join e (fold_left (Os.join e) names p) c)
      else None.
Proof.
  intros Hc names. induction names as [|n rest IH]; intros p k Hn Hp.
  - cbn [Examples.nest Os.walk map length fold_left].
    rewrite (visit_at_depth _ _ _ _ _ (level_depth _ _ _ Hp)), Hc.
    destruct (Z.gtb_spec k 4), (Z.leb_spec (k + Z.of_nat 0) 4); try lia; reflexivity.
  - cbn [forallb] in Hn. apply andb_prop in Hn. destruct Hn as [Hn Hrest].
    cbn [Examples.nest Os.walk map fst length fold_left].
    rewrite (visit_at_depth _ _ _ _ _ (level_depth _ _ _ Hp)), no_candidate.
    destruct (Z.gtb_spec k 4).
    + cbn [existsb].
      destruct (Z.leb_spec (k + Z.of_nat (S (length rest))) 4); [lia|reflexivity].
    + cbn [existsb]. rewrite String.eqb_refl. cbn [orb].
      rewrite (IH _ _ Hrest (level_next _ _ _ _ Hp Hn)).
      destruct (Z.leb_spec (k + 1 + Z.of_nat (length rest)) 4),
               (Z.leb_spec (k + Z.of_nat (S (length rest))) 4); try lia; reflexivity.
Qed.

End DepthBound.

(** X21.  How deep the server walk really goes.  Below a vendor root, along
    a chain of nested directories that ends in a directory holding a file
    with one of the candidate names, the walk of the server locator returns
    that file when the chain has at most five directories, and finds nothing
    when it has six or more: the pruning test counts the separators of the
    relative path, one fewer than the levels. *)
Theorem server_walk_finds_up_to_five_levels :
  forall (e : Os.env) (base : string) (names files : list string),
    Py.truthy base = true ->
    forallb dir_name names = true ->
    existsb (fun c => Os.In_files c files) (Server.binary_names e) = true ->
    ((length names <= 5)%nat ->
     exists c, In c (Server.binary_names e) /\ Os.In_files c files = true
               /\ Os.walk e (Server.visit e base) base
                    (Examples.nest names (Os.Dir files []))
                  = Some (Os.join e (fold_left (Os.join e) names base) c))
    /\ ((5 < length names)%nat ->
        Os.walk e (Server.visit e base) base
          (Examples.nest names (Os.Dir files []))
        = None).
Proof.
  intros e base names files Hb Hn Hf.
  destruct (first_candidate e files _ Hf) as [c [Hin [Hc Hfirst]]].
  destruct names as [|n rest].
  - split; [|cbn; lia]. intros _. exists c. repeat split; [exact Hin|exact Hc|].
    cbn [Examples.nest Os.walk map fold_left].
      rewrite (visit_at_depth e _ _ _ _ _ (root_depth e base)), Hfirst. reflexivity.
  - cbn [forallb] in Hn. apply andb_prop in Hn. destruct Hn as [Hn Hrest].
    assert (Hw : Os.walk e (Server.visit e base) base
                   (Examples.nest (n :: rest) (Os.Dir files []))
                 = if 0 + Z.of_nat (length rest) <=? 4
                   then Some (Os.join e (fold_left (Os.join e) (n :: rest) base) c)
                   else None).
    { cbn [Examples.nest Os.walk map fst fold_left].
      rewrite (visit_at_depth e _ _ _ _ _ (root_depth e base)), no_candidate.
      change (0 >? 4) with false. cbn [existsb]. rewrite String.eqb_refl. cbn [orb].
      rewrite (server_walk_chain e base files c Hfirst rest _ 0 Hrest
                 (level_first e base n Hb Hn)).
      destruct (0 + Z.of_nat (length rest) <=? 4); reflexivity. }
    rewrite Hw. cbn [length]. split; intros Hlen.
    + exists c. repeat split; [exact Hin|exact Hc|].
      destruct (Z.leb_spec (0 + Z.of_nat (length rest)) 4); [reflexivity|lia].
    + destruct (Z.leb_spec (0 + Z.of_nat (length rest)) 4); [lia|reflexivity].
Qed.

Lemma server_walk_finds_up_to_five_levels_witness :
  Os.walk Examples.server_six_below
    (Server.visit Examples.server_six_below Examples.packages) Examples.packages
    (Examples.nest ["ggml.llamacpp"; "a"; "b"; "c"; "d"; "e"]
       (Os.Dir ["llama-server.exe"] []))
  = None.
Proof.
  refine (proj2 (server_walk_finds_up_to_five_levels Examples.server_six_below
                   Examples.packages ["ggml.llamacpp"; "a"; "b"; "c"; "d"; "e"]
                   ["llama-server.exe"] eq_refl eq_refl eq_refl) _).
  cbn. lia.
Defined.

(* ================================================================== *)
(** ** A port that cannot be read *)

(** X22.  An exception of [self.port.get()] that validation does not catch
    ends the start request.  With the binary, the model and the host in
    order, when reading the port raises an exception that is neither a
    [TclError] nor a [ValueError] (as [IntVar.get] does with
    [OverflowError] for the text [1e400]), [validate_inputs] raises it and
    so does [start_server], and "Restart with Settings" with no server
    running: no dialog is shown, nothing is launched, and the application
    is left as it was. *)
Theorem uncaught_port_error_ends_start :
  forall (e : Os.env) (answers_yes : bool) (g : Server.gui) (error : Py.exn),
    Py.truthy (Server.server_binary g) = true ->
    Server.server_binary g <> Server.sentinel ->
    Os.isfile e (Server.server_binary g) = true ->
    Py.truthy (Server.model_path g) = true ->
    Os.isfile e (Server.model_path g) = true ->
    all_space (Server.host g) = false ->
    Server.port g = Raise error ->
    Py.caught_by [Py.TclError; Py.ValueError] error = false ->
    Server.validate_inputs e g = (Raise error, g, [])
    /\ Server.start_server e g = (Raise error, g, [])
    /\ (Server.is_running g = false ->
        Server.apply_settings e answers_yes g = (Raise error, g, [])).
Proof.
  intros e ans g error Hb Hs Hf Hm Hmf Hh Hp Hc.
  apply String.eqb_neq in Hs.
  assert (Hv : Server.validate_inputs e g = (Raise error, g, [])).
  { unfold Server.validate_inputs, bind, get, try_except, Server.Var_get, lift.
    cbn [fst snd].
    rewrite Hb, Hs, Hf, Hm, Hmf, strip_truthy, Hh, Hp. cbn [negb orb].
    rewrite Hc. reflexivity. }
  assert (Hstart : Server.start_server e g = (Raise error, g, [])).
  { unfold Server.start_server, bind. rewrite Hv. reflexivity. }
  split; [exact Hv|]. split; [exact Hstart|].
  intros Hr. unfold Server.apply_settings, bind, get. cbn [fst snd].
  rewrite Hr, Hstart. reflexivity.
Qed.

Lemma uncaught_port_error_ends_start_witness :
  Server.start_server Examples.unix Examples.server_port_1e400
  = (Raise Examples.too_large, Examples.server_port_1e400, []).
Proof.
  refine (proj1 (proj2 (uncaught_port_error_ends_start Examples.unix true
                          Examples.server_port_1e400 Examples.too_large
                          eq_refl _ eq_refl eq_refl eq_refl eq_refl eq_refl eq_refl))).
  discriminate.
Defined.
